(** * DeliveryOptimization: the OCR post-processing core

    A shallow embedding of [src/ingestion/ocr.py] and of the stand-alone
    batch script [procesador.py], and the properties of the specification
    that are settled on it; then of what surrounds them: the loop of
    [main] and the gap filling of the batch script, the next id of
    [src/ingestion/utils_excel.py], and the shifts of
    [app/streamlit_app.py].

    Text is a list of characters with code points below 256 (Latin-1);
    the character classes [\d], [\w], [\s], [str.lower] and [str.strip]
    follow CPython on that range.  Regular expressions are values of
    [regex], run by a backtracking matcher with the leftmost, greedy,
    ordered-alternation semantics of Python's [re] module.  The calls to
    [datetime.strptime] go through the regular expressions CPython's
    [_strptime] builds for each directive. *)

From Stdlib Require Import ZArith Ascii String List Bool Lia.
From stdpp Require Import base list gmap strings.

Local Open Scope Z_scope.

(** ** Characters and text *)

Abbreviation texto := (list ascii).

Definition txt (s : string) : texto := list_ascii_of_string s.
Arguments txt s%_string.

Definition cod (c : ascii) : N := N_of_ascii c.

Definition en_rango (lo hi : N) (c : ascii) : bool :=
  (N.leb lo (cod c)) && (N.leb (cod c) hi).

(** [\d] on a [str] pattern: the decimal digits. *)
Definition es_digito (c : ascii) : bool := en_rango 48 57 c.

(** [\s], which is also what [str.strip()] removes. *)
Definition es_espacio (c : ascii) : bool :=
  en_rango 9 13 c || en_rango 28 32 c || N.eqb (cod c) 133 || N.eqb (cod c) 160.

(** [\w]: alphanumeric characters and the underscore. *)
Definition es_palabra (c : ascii) : bool :=
  en_rango 48 57 c || en_rango 65 90 c || N.eqb (cod c) 95 || en_rango 97 122 c
  || N.eqb (cod c) 170 || en_rango 178 179 c || N.eqb (cod c) 181
  || en_rango 185 186 c || en_rango 188 190 c || en_rango 192 214 c
  || en_rango 216 246 c || en_rango 248 255 c.

(** [str.lower()] on one character. *)
Definition minuscula (c : ascii) : ascii :=
  if en_rango 65 90 c || en_rango 192 214 c || en_rango 216 222 c
  then ascii_of_N (cod c + 32) else c.

Definition str_lower (s : texto) : texto := map minuscula s.

Fixpoint lstrip (s : texto) : texto :=
  match s with
  | c :: s' => if es_espacio c then lstrip s' else s
  | [] => []
  end.

Definition rstrip (s : texto) : texto := rev (lstrip (rev s)).

Definition str_strip (s : texto) : texto := rstrip (lstrip s).

Definition es_vacio (s : texto) : bool :=
  match s with [] => true | _ => false end.

Fixpoint empieza_con (p s : texto) : bool :=
  match p, s with
  | [], _ => true
  | a :: p', b :: s' => Ascii.eqb a b && empieza_con p' s'
  | _ :: _, [] => false
  end.

(** [kw in t] on strings. *)
Fixpoint contiene (kw s : texto) : bool :=
  empieza_con kw s ||
  match s with
  | [] => false
  | _ :: s' => contiene kw s'
  end.

(** [s.split("\n")]. *)
Definition salto : ascii := ascii_of_N 10.

Fixpoint split_lineas (s : texto) : list texto :=
  match s with
  | [] => [[]]
  | c :: s' =>
      if Ascii.eqb c salto then [] :: split_lineas s'
      else match split_lineas s' with
           | l :: ls => (c :: l) :: ls
           | [] => [[c]]
           end
  end.

(** [s.zfill(n)]. *)
Definition zfill (n : nat) (s : texto) : texto :=
  let ceros := repeat "0"%char (n - length s) in
  match s with
  | c :: s' =>
      if Ascii.eqb c "+" || Ascii.eqb c "-" then c :: ceros ++ s' else ceros ++ s
  | [] => ceros
  end.

(** ** Regular expressions *)

Inductive regex : Type :=
  | Eps                                                (* the empty pattern *)
  | Lit (c : ascii)                                    (* a literal character *)
  | LitI (c : ascii)                                   (* the same under re.IGNORECASE *)
  | Cls (p : ascii -> bool)                            (* one character of a class *)
  | Rep (p : ascii -> bool) (lo : nat) (hi : option nat) (* greedy {lo,hi} over a class *)
  | Seq (r1 r2 : regex)
  | Alt (r1 r2 : regex)
  | Grp (n : nat) (r : regex)                          (* capturing group n *)
  | Bol                                                (* ^ *)
  | Eol.                                               (* $ *)

(** The state of a match: how many characters are behind, the text
    ahead, and the groups captured so far, the latest first. *)
Record estado := Estado {
  e_pos : nat;
  e_resto : texto;
  e_grupos : list (nat * texto)
}.

Definition avanzar (n : nat) (st : estado) : estado :=
  Estado (e_pos st + n) (drop n (e_resto st)) (e_grupos st).

Definition con_grupo (n : nat) (desde hasta : estado) : estado :=
  Estado (e_pos hasta) (e_resto hasta)
    ((n, take (e_pos hasta - e_pos desde) (e_resto desde)) :: e_grupos hasta).

(** Length of the leading run of class characters, capped by [hi]. *)
Fixpoint corrida (p : ascii -> bool) (hi : option nat) (s : texto) : nat :=
  match hi, s with
  | Some O, _ => O
  | _, [] => O
  | Some (S h), c :: s' => if p c then S (corrida p (Some h) s') else O
  | None, c :: s' => if p c then S (corrida p None s') else O
  end.

(** Greedy repetition gives characters back one at a time, down to [lo]. *)
Fixpoint retroceder {R} (k : nat -> option R) (lo extra : nat) : option R :=
  match k (lo + extra)%nat with
  | Some x => Some x
  | None =>
      match extra with
      | O => None
      | S e => retroceder k lo e
      end
  end.

(** The matcher: [casar r st k] matches [r] at [st] and hands the state
    behind the match to [k]; when [k] fails, the next way to match [r] is
    tried, in the order of Python's [re]. *)
Fixpoint casar {R} (r : regex) (st : estado) (k : estado -> option R) : option R :=
  match r with
  | Eps => k st
  | Lit c =>
      match e_resto st with
      | c' :: _ => if Ascii.eqb c' c then k (avanzar 1 st) else None
      | [] => None
      end
  | LitI c =>
      match e_resto st with
      | c' :: _ => if Ascii.eqb (minuscula c') (minuscula c) then k (avanzar 1 st) else None
      | [] => None
      end
  | Cls p =>
      match e_resto st with
      | c' :: _ => if p c' then k (avanzar 1 st) else None
      | [] => None
      end
  | Rep p lo hi =>
      let n := corrida p hi (e_resto st) in
      if (n <? lo)%nat then None
      else retroceder (fun j => k (avanzar j st)) lo (n - lo)
  | Seq r1 r2 => casar r1 st (fun st' => casar r2 st' k)
  | Alt r1 r2 =>
      match casar r1 st k with
      | Some x => Some x
      | None => casar r2 st k
      end
  | Grp n r => casar r st (fun st' => k (con_grupo n st st'))
  | Bol => if (e_pos st =? 0)%nat then k st else None
  | Eol =>
      match e_resto st with
      | [] => k st
      | [c] => if Ascii.eqb c salto then k st else None
      | _ => None
      end
  end.

(** A match object: its span, [group(0)] and the numbered groups. *)
Record coincidencia := Coincidencia {
  m_ini : nat;
  m_fin : nat;
  m_cero : texto;
  m_grupos : list (nat * texto)
}.

Definition casar_en (r : regex) (pos : nat) (s : texto) : option coincidencia :=
  casar r (Estado pos s [])
    (fun st => Some (Coincidencia pos (e_pos st) (take (e_pos st - pos) s) (e_grupos st))).

Fixpoint buscar_desde (r : regex) (pos : nat) (s : texto) : option coincidencia :=
  match casar_en r pos s with
  | Some m => Some m
  | None =>
      match s with
      | [] => None
      | _ :: s' => buscar_desde r (S pos) s'
      end
  end.

(** [re.match(r, s)] tries the start of the text, [re.search(r, s)] every
    position from the left. *)
Definition re_match (r : regex) (s : texto) : option coincidencia := casar_en r 0 s.
Definition re_search (r : regex) (s : texto) : option coincidencia := buscar_desde r 0 s.

Fixpoint buscar_grupo (n : nat) (gs : list (nat * texto)) : option texto :=
  match gs with
  | [] => None
  | (i, g) :: gs' => if (i =? n)%nat then Some g else buscar_grupo n gs'
  end.

(** [m.group(n)]; every group asked for below takes part in the match. *)
Definition group (n : nat) (m : coincidencia) : texto :=
  match n with
  | O => m_cero m
  | _ => default [] (buscar_grupo n (m_grupos m))
  end.

(** The truth value of what [re.match] or [re.search] returns. *)
Definition hay {A} (o : option A) : bool :=
  match o with Some _ => true | None => false end.

(** [re.sub(r, '', s)] for a pattern that cannot match the empty string:
    every leftmost match is removed and the scan goes on behind it. *)
Fixpoint re_sub_desde (r : regex) (pos saltar : nat) (s : texto) : texto :=
  match s with
  | [] => []
  | c :: s' =>
      match saltar with
      | S j => re_sub_desde r (S pos) j s'
      | O =>
          match casar_en r pos s with
          | Some m =>
              match (m_fin m - pos)%nat with
              | S j => re_sub_desde r (S pos) j s'
              | O => c :: re_sub_desde r (S pos) O s'
              end
          | None => c :: re_sub_desde r (S pos) O s'
          end
      end
  end.

(** [re.sub(r, '', s)] *)
Definition re_sub_vacio (r : regex) (s : texto) : texto := re_sub_desde r 0 0 s.

(** The patterns of [rs] one after the other. *)
Definition sec (rs : list regex) : regex := foldr Seq Eps rs.

(** ** Exceptions *)

Inductive excepcion := ValueError | OverflowError.

Inductive resultado (A : Type) : Type :=
  | Ok (a : A)
  | Lanza (e : excepcion).
Arguments Ok {A} a.
Arguments Lanza {A} e.

(** ** Dates and times *)

Record fecha := Fecha { anio : Z; mes : Z; dia : Z }.
Record reloj := Reloj { hora : Z; minuto : Z; segundo : Z }.
Record datetime := Datetime { dt_fecha : fecha; dt_reloj : reloj }.

Definition es_bisiesto (y : Z) : bool :=
  (y mod 4 =? 0) && (negb (y mod 100 =? 0) || (y mod 400 =? 0)).

Definition dias_del_mes (y m : Z) : Z :=
  if m =? 2 then (if es_bisiesto y then 29 else 28)
  else if (m =? 4) || (m =? 6) || (m =? 9) || (m =? 11) then 30
  else 31.

(** The checks of the [date] and [time] constructors. *)
Definition fecha_valida (f : fecha) : bool :=
  (1 <=? anio f) && (anio f <=? 9999) && (1 <=? mes f) && (mes f <=? 12)
  && (1 <=? dia f) && (dia f <=? dias_del_mes (anio f) (mes f)).

Definition reloj_valido (r : reloj) : bool :=
  (0 <=? hora r) && (hora r <=? 23) && (0 <=? minuto r) && (minuto r <=? 59)
  && (0 <=? segundo r) && (segundo r <=? 59).

Definition datetime_valido (dt : datetime) : bool :=
  fecha_valida (dt_fecha dt) && reloj_valido (dt_reloj dt).

(** [date.toordinal()]: days since 0001-01-01, counted from 1. *)
Definition dias_antes_del_anio (y : Z) : Z :=
  (y - 1) * 365 + (y - 1) / 4 - (y - 1) / 100 + (y - 1) / 400.

Fixpoint dias_antes_del_mes_desde (y : Z) (n : nat) (m : Z) : Z :=
  match n with
  | O => 0
  | S n' => dias_del_mes y m + dias_antes_del_mes_desde y n' (m + 1)
  end.

Definition dias_antes_del_mes (y m : Z) : Z :=
  dias_antes_del_mes_desde y (Z.to_nat (m - 1)) 1.

Definition toordinal (f : fecha) : Z :=
  dias_antes_del_anio (anio f) + dias_antes_del_mes (anio f) (mes f) + dia f.

(** [d + timedelta(days=1)]: the next calendar day, [OverflowError] past
    9999-12-31. *)
Definition mas_un_dia (f : fecha) : resultado fecha :=
  if dia f <? dias_del_mes (anio f) (mes f) then Ok (Fecha (anio f) (mes f) (dia f + 1))
  else if mes f <? 12 then Ok (Fecha (anio f) (mes f + 1) 1)
  else if anio f <? 9999 then Ok (Fecha (anio f + 1) 1 1)
  else Lanza OverflowError.

Definition campos (dt : datetime) : list Z :=
  [ anio (dt_fecha dt); mes (dt_fecha dt); dia (dt_fecha dt);
    hora (dt_reloj dt); minuto (dt_reloj dt); segundo (dt_reloj dt) ].

Fixpoint lex_ltb (a b : list Z) : bool :=
  match a, b with
  | x :: a', y :: b' => (x <? y) || ((x =? y) && lex_ltb a' b')
  | _, _ => false
  end.

(** [d1 < d2] on naive datetimes. *)
Definition dt_ltb (d1 d2 : datetime) : bool := lex_ltb (campos d1) (campos d2).
Definition dt_leb (d1 d2 : datetime) : bool := negb (dt_ltb d2 d1).

(** ** Decimal text *)

Definition digito (v : Z) : ascii := ascii_of_N (Z.to_N (48 + v)).

Definition dos_digitos (v : Z) : texto := [digito (v / 10); digito (v mod 10)].

Definition cuatro_digitos (v : Z) : texto :=
  [digito (v / 1000); digito (v / 100 mod 10); digito (v / 10 mod 10); digito (v mod 10)].

Fixpoint decimal_desde (n : nat) (v : Z) (acc : texto) : texto :=
  match n with
  | O => acc
  | S n' =>
      let acc' := digito (v mod 10) :: acc in
      if v / 10 =? 0 then acc' else decimal_desde n' (v / 10) acc'
  end.

(** [str(v)] on an integer. *)
Definition str_int (v : Z) : texto :=
  if v <? 0 then "-"%char :: decimal_desde (Z.to_nat (- v)) (- v) []
  else decimal_desde (S (Z.to_nat v)) v [].

Definition valor_digito (c : ascii) : Z := Z.of_N (cod c) - 48.

(** [int(s)] on the text of a group: surrounding blanks are dropped. *)
Definition a_entero (s : texto) : Z :=
  fold_left (fun acc c => 10 * acc + valor_digito c) (str_strip s) 0.

(** ** The environment of a run: the clock and the C library *)

Record entorno := Entorno {
  anio_actual : Z;         (* datetime.now().year *)
  anio_con_ceros : bool    (* whether strftime's %Y pads a year below 1000 with zeros *)
}.

(** ** [strptime] and [strftime] *)

Definition g_Y : nat := 1.
Definition g_m : nat := 2.
Definition g_d : nat := 3.
Definition g_H : nat := 4.
Definition g_M : nat := 5.
Definition g_S : nat := 6.

(** The regular expression of each directive, as [_strptime.TimeRE] has it. *)
Definition re_d : regex :=   (* (?P<d>3[0-1]|[1-2]\d|0[1-9]|[1-9]| [1-9]) *)
  Grp g_d (Alt (Seq (Lit "3") (Cls (en_rango 48 49)))
          (Alt (Seq (Cls (en_rango 49 50)) (Cls es_digito))
          (Alt (Seq (Lit "0") (Cls (en_rango 49 57)))
          (Alt (Cls (en_rango 49 57))
               (Seq (Lit " ") (Cls (en_rango 49 57))))))).
Definition re_m : regex :=   (* (?P<m>1[0-2]|0[1-9]|[1-9]) *)
  Grp g_m (Alt (Seq (Lit "1") (Cls (en_rango 48 50)))
          (Alt (Seq (Lit "0") (Cls (en_rango 49 57)))
               (Cls (en_rango 49 57)))).
Definition re_Y : regex :=   (* (?P<Y>\d\d\d\d) *)
  Grp g_Y (Seq (Cls es_digito) (Seq (Cls es_digito) (Seq (Cls es_digito) (Cls es_digito)))).
Definition re_H : regex :=   (* (?P<H>2[0-3]|[0-1]\d|\d) *)
  Grp g_H (Alt (Seq (Lit "2") (Cls (en_rango 48 51)))
          (Alt (Seq (Cls (en_rango 48 49)) (Cls es_digito))
               (Cls es_digito))).
Definition re_M : regex :=   (* (?P<M>[0-5]\d|\d) *)
  Grp g_M (Alt (Seq (Cls (en_rango 48 53)) (Cls es_digito)) (Cls es_digito)).
Definition re_S : regex :=   (* (?P<S>6[0-1]|[0-5]\d|\d) *)
  Grp g_S (Alt (Seq (Lit "6") (Cls (en_rango 48 49)))
          (Alt (Seq (Cls (en_rango 48 53)) (Cls es_digito))
               (Cls es_digito))).

Definition directiva (c : ascii) : option regex :=
  if Ascii.eqb c "d" then Some re_d
  else if Ascii.eqb c "m" then Some re_m
  else if Ascii.eqb c "Y" then Some re_Y
  else if Ascii.eqb c "H" then Some re_H
  else if Ascii.eqb c "M" then Some re_M
  else if Ascii.eqb c "S" then Some re_S
  else None.

(** [TimeRE.pattern]: directives become their expressions, a run of blanks
    becomes [\s+], anything else stands for itself.  [None] is a directive
    outside the six above, which the formats of this program never use. *)
Fixpoint patron_desde (tras_espacio : bool) (f : texto) : option (list regex) :=
  match f with
  | [] => Some []
  | c :: f' =>
      if Ascii.eqb c "%" then
        match f' with
        | d :: f'' =>
            match directiva d, patron_desde false f'' with
            | Some r, Some rs => Some (r :: rs)
            | _, _ => None
            end
        | [] => None
        end
      else if es_espacio c then
        match patron_desde true f' with
        | Some rs => Some (if tras_espacio then rs else Rep es_espacio 1 None :: rs)
        | None => None
        end
      else
        match patron_desde false f' with
        | Some rs => Some (Lit c :: rs)
        | None => None
        end
  end.

Definition patron (f : texto) : option regex := sec <$> patron_desde false f.

Definition campo (n : nat) (m : coincidencia) (defecto : Z) : Z :=
  match buscar_grupo n (m_grupos m) with
  | Some g => a_entero g
  | None => defecto
  end.

(** [datetime.strptime(s, f)].  Every failure is a [ValueError]: the text
    does not match, unconverted data remains, or the fields are not a date
    and a time. *)
Definition strptime (s f : texto) : resultado datetime :=
  match patron f with
  | None => Lanza ValueError
  | Some r =>
      match re_match r s with
      | None => Lanza ValueError
      | Some m =>
          if negb (length s =? m_fin m)%nat then Lanza ValueError
          else
            let dt := Datetime (Fecha (campo g_Y m 1900) (campo g_m m 1) (campo g_d m 1))
                               (Reloj (campo g_H m 0) (campo g_M m 0) (campo g_S m 0)) in
            if datetime_valido dt then Ok dt else Lanza ValueError
      end
  end.

Definition texto_anio (env : entorno) (y : Z) : texto :=
  if anio_con_ceros env then cuatro_digitos y else str_int y.

(** [dt.strftime(f)] for the directives of this program. *)
Fixpoint strftime (env : entorno) (dt : datetime) (f : texto) : texto :=
  match f with
  | [] => []
  | c :: f' =>
      if Ascii.eqb c "%" then
        match f' with
        | d :: f'' =>
            (if Ascii.eqb d "d" then dos_digitos (dia (dt_fecha dt))
             else if Ascii.eqb d "m" then dos_digitos (mes (dt_fecha dt))
             else if Ascii.eqb d "Y" then texto_anio env (anio (dt_fecha dt))
             else if Ascii.eqb d "H" then dos_digitos (hora (dt_reloj dt))
             else if Ascii.eqb d "M" then dos_digitos (minuto (dt_reloj dt))
             else if Ascii.eqb d "S" then dos_digitos (segundo (dt_reloj dt))
             else [c; d]) ++ strftime env dt f''
        | [] => [c]
        end
      else c :: strftime env dt f'
  end.

Definition FORMATO_CANONICO : texto := txt "%d/%m/%Y %H:%M".

(** ** Timestamp normalisation: [normalizar_para_comparar] *)

(** A spreadsheet cell or an OCR value: missing ([None], [NaN], [NaT]), a
    string, a date-time, or any other value, kept as its [str()] text. *)
Inductive valor :=
  | VNulo
  | VTexto (s : texto)
  | VFecha (dt : datetime)
  | VOtro (s : texto).

Definition formatos : list texto :=
  [ txt "%d/%m/%Y %H:%M:%S"; txt "%Y-%m-%d %H:%M:%S";
    txt "%d/%m/%Y %H:%M"; txt "%Y-%m-%d %H:%M" ].

Fixpoint probar_formatos (env : entorno) (t : texto) (fs : list texto) : texto :=
  match fs with
  | [] => t
  | fmt :: fs' =>
      match strptime t fmt with
      | Ok dt => strftime env dt FORMATO_CANONICO
      | Lanza _ => probar_formatos env t fs'
      end
  end.

Definition normalizar_para_comparar (env : entorno) (v : valor) : texto :=
  match v with
  | VNulo => []
  | VFecha dt => strftime env dt FORMATO_CANONICO
  | VTexto s => if es_vacio s then [] else probar_formatos env (str_strip s) formatos
  | VOtro s => probar_formatos env (str_strip s) formatos
  end.

(** ** The line classifier: [es_separador] *)

(** [^\d{7,}$] *)
Definition regex_id_largo : regex := sec [Bol; Rep es_digito 7 None; Eol].
(** [\d{2}] *)
Definition regex_dos_digitos : regex := sec [Rep es_digito 2 (Some 2%nat)].
(** [^\w{3}, \d+] *)
Definition regex_dia_abreviado : regex :=
  sec [Bol; Rep es_palabra 3 (Some 3%nat); Lit ","; Lit " "; Rep es_digito 1 None].

Definition palabras_clave : list texto :=
  [ txt "pedido agrupado"; txt "completado"; txt "cancelado"; txt "ver detalles";
    txt "horas conectado"; txt "promedio"; txt "ars" ].

(** ** The extraction orchestrator: [procesar_imagen_ocr] *)

(** One extracted order, with the keys of the dictionary the code builds. *)
Record pedido := Pedido {
  Hora_Aceptacion : texto;
  Hora_Entrega : texto;
  Nombre_Local : texto
}.

Definition meses : gmap texto texto :=
  list_to_map
    [ (txt "ene", txt "01"); (txt "feb", txt "02"); (txt "mar", txt "03");
      (txt "abr", txt "04"); (txt "may", txt "05"); (txt "jun", txt "06");
      (txt "jul", txt "07"); (txt "ago", txt "08"); (txt "sep", txt "09");
      (txt "oct", txt "10"); (txt "nov", txt "11"); (txt "dic", txt "12") ].

(** [(\w{3}),\s*(\d{1,2})\s*de\s*(\w{3})], used with [re.IGNORECASE] *)
Definition regex_fecha : regex :=
  sec [ Grp 1 (Rep es_palabra 3 (Some 3%nat)); Lit ","; Rep es_espacio 0 None;
        Grp 2 (Rep es_digito 1 (Some 2%nat)); Rep es_espacio 0 None;
        LitI "d"; LitI "e"; Rep es_espacio 0 None;
        Grp 3 (Rep es_palabra 3 (Some 3%nat)) ].

(** [20\d{2}] *)
Definition regex_anio : regex := sec [Lit "2"; Lit "0"; Rep es_digito 2 (Some 2%nat)].

(** [(\d{1,2}:\d{2})\s*-\s*(\d{1,2}:\d{2})] *)
Definition regex_horas : regex :=
  sec [ Grp 1 (sec [Rep es_digito 1 (Some 2%nat); Lit ":"; Rep es_digito 2 (Some 2%nat)]);
        Rep es_espacio 0 None; Lit "-"; Rep es_espacio 0 None;
        Grp 2 (sec [Rep es_digito 1 (Some 2%nat); Lit ":"; Rep es_digito 2 (Some 2%nat)]) ].

(** [^[\W_]+] and [[^\w\s\(\)]+$] *)
Definition es_simbolo_inicial (c : ascii) : bool :=
  negb (es_palabra c) || Ascii.eqb c "_".
Definition es_basura_final (c : ascii) : bool :=
  negb (es_palabra c || es_espacio c || Ascii.eqb c "(" || Ascii.eqb c ")").
Definition regex_inicio_nombre : regex := sec [Bol; Rep es_simbolo_inicial 1 None].
Definition regex_final_nombre : regex := sec [Rep es_basura_final 1 None; Eol].

(** [lineas = [l.strip() for l in texto.split("\n") if l.strip()]] *)
Definition lineas_de (t : texto) : list texto :=
  map str_strip (filter (fun l => es_vacio (str_strip l) = false) (split_lineas t)).

(** Truth value of a variable that holds [None] or a string. *)
Definition falso (o : option texto) : bool :=
  match o with
  | None => true
  | Some s => es_vacio s
  end.

(** The first loop: one step on a line, for the pair
    [(fecha_base, anio_base)]. *)
Definition paso_contexto (st : option texto * option texto) (linea : texto)
  : option texto * option texto :=
  let fecha_base :=
    if falso st.1 then
      match re_search regex_fecha linea with
      | Some m =>
          Some (zfill 2 (group 2 m) ++ txt "/"
                ++ default (txt "01") (meses !! take 3 (str_lower (group 3 m))))
      | None => st.1
      end
    else st.1 in
  let anio_base :=
    if falso st.2 then
      match re_search regex_anio linea with
      | Some m => Some (group 0 m)
      | None => st.2
      end
    else st.2 in
  (fecha_base, anio_base).

Definition contexto_temporal (lineas : list texto) : option texto * option texto :=
  foldl paso_contexto (None, None) lineas.

Definition anio_o_actual (env : entorno) (anio_base : option texto) : texto :=
  if falso anio_base then str_int (anio_actual env) else default [] anio_base.

Definition combine (f : fecha) (r : reloj) : datetime := Datetime f r.

(** [dt_entr += timedelta(days=1)] *)
Definition sumar_un_dia (dt : datetime) : resultado datetime :=
  match mas_un_dia (dt_fecha dt) with
  | Ok f => Ok (Datetime f (dt_reloj dt))
  | Lanza e => Lanza e
  end.

(** The name of the order on line [i]: the line above, with the line two
    above in front of it unless that one is a separator, then cleaned
    (lines 161-168 of ocr.py, 168-184 of procesador.py). *)
Definition reconstruir_nombre (es_separador : texto -> bool)
    (lineas : list texto) (i : nat) : texto :=
  let nombre :=
    if (0 <? i)%nat then
      let nombre := nth (i - 1) lineas [] in
      if (1 <? i)%nat && negb (es_separador (nth (i - 2) lineas []))
      then nth (i - 2) lineas [] ++ txt " " ++ nombre
      else nombre
    else txt "Desconocido" in
  let nombre := re_sub_vacio regex_inicio_nombre nombre in
  str_strip (re_sub_vacio regex_final_nombre nombre).

(** The two timestamps of a line whose clock times parsed. *)
Definition tiempos (base : fecha) (h_ini h_fin : reloj)
  : resultado (datetime * datetime) :=
  let dt_acep := combine base h_ini in
  let dt_entr := combine base h_fin in
  if dt_ltb dt_entr dt_acep then
    match sumar_un_dia dt_entr with
    | Ok dt_entr' => Ok (dt_acep, dt_entr')
    | Lanza e => Lanza e
    end
  else Ok (dt_acep, dt_entr).

Definition armar_pedido (env : entorno) (es_separador : texto -> bool)
    (lineas : list texto) (i : nat) (t : datetime * datetime) : pedido :=
  Pedido (strftime env t.1 FORMATO_CANONICO) (strftime env t.2 FORMATO_CANONICO)
         (reconstruir_nombre es_separador lineas i).

Definition FORMATO_FECHA : texto := txt "%d/%m/%Y".
Definition FORMATO_HORA : texto := txt "%H:%M".

(** The second loop: [cuerpo i linea] is the body on line [i], which
    appends an order, goes on to the next line, or raises. *)
Fixpoint bucle_pedidos (cuerpo : nat -> texto -> resultado (option pedido))
    (i : nat) (pendientes : list texto) (pedidos : list pedido)
  : resultado (list pedido) :=
  match pendientes with
  | [] => Ok pedidos
  | linea :: resto =>
      match cuerpo i linea with
      | Lanza e => Lanza e
      | Ok None => bucle_pedidos cuerpo (S i) resto pedidos
      | Ok (Some p) => bucle_pedidos cuerpo (S i) resto (pedidos ++ [p])
      end
  end.

(** *** [src/ingestion/ocr.py] *)

Module Ocr.

Definition normalizar_para_comparar := normalizar_para_comparar.

Definition es_separador (linea : texto) : bool :=
  let t := str_strip (str_lower linea) in
  if hay (re_match regex_id_largo t) then true
  else if existsb (fun kw => contiene kw t) palabras_clave then true
  else if contiene (txt "semana") t && hay (re_search regex_dos_digitos t) then true
  else if hay (re_match regex_dia_abreviado t) then true
  else false.

(** The body of the second loop; no exception is caught. *)
Definition cuerpo (env : entorno) (lineas : list texto) (base : fecha)
    (i : nat) (linea : texto) : resultado (option pedido) :=
  match re_search regex_horas linea with
  | None => Ok None
  | Some m =>
      match strptime (group 1 m) FORMATO_HORA with
      | Lanza e => Lanza e
      | Ok t_ini =>
          match strptime (group 2 m) FORMATO_HORA with
          | Lanza e => Lanza e
          | Ok t_fin =>
              match tiempos base (dt_reloj t_ini) (dt_reloj t_fin) with
              | Lanza e => Lanza e
              | Ok t => Ok (Some (armar_pedido env es_separador lineas i t))
              end
          end
      end
  end.

Definition procesar_lineas (env : entorno) (lineas : list texto)
  : resultado (list pedido) :=
  let '(fecha_base, anio_base) := contexto_temporal lineas in
  let anio_base := anio_o_actual env anio_base in
  if falso fecha_base then Ok []
  else
    match strptime (default [] fecha_base ++ txt "/" ++ anio_base) FORMATO_FECHA with
    | Lanza e => Lanza e
    | Ok fecha_base_dt =>
        bucle_pedidos (cuerpo env lineas (dt_fecha fecha_base_dt)) 0 lineas []
    end.

(** [imagen] is the text the OCR engine reads from the file, or [None] when
    [cv2.imread] cannot load it. *)
Definition procesar_imagen_ocr (env : entorno) (imagen : option texto)
  : resultado (list pedido) :=
  match imagen with
  | None => Ok []
  | Some t => procesar_lineas env (lineas_de t)
  end.

End Ocr.

(** *** [procesador.py] *)

Module Procesador.

Definition normalizar_para_comparar := normalizar_para_comparar.

Definition es_separador (linea : texto) : bool :=
  let t := str_strip (str_lower linea) in
  if hay (re_match regex_id_largo t) then true
  else if contiene (txt "pedido agrupado") t then true
  else if contiene (txt "completado") t then true
  else if contiene (txt "cancelado") t then true
  else if contiene (txt "ver detalles") t then true
  else if contiene (txt "semana") t && hay (re_search regex_dos_digitos t) then true
  else if hay (re_match regex_dia_abreviado t) then true
  else if contiene (txt "promedio") t || contiene (txt "ars") t then true
  else if contiene (txt "horas conectado") t then true
  else false.

(** The body of the second loop; a [ValueError] of either clock time skips
    the line. *)
Definition cuerpo (env : entorno) (lineas : list texto) (base : fecha)
    (i : nat) (linea : texto) : resultado (option pedido) :=
  match re_search regex_horas linea with
  | None => Ok None
  | Some m =>
      match strptime (group 1 m) FORMATO_HORA with
      | Lanza ValueError => Ok None
      | Lanza e => Lanza e
      | Ok t_ini =>
          match strptime (group 2 m) FORMATO_HORA with
          | Lanza ValueError => Ok None
          | Lanza e => Lanza e
          | Ok t_fin =>
              match tiempos base (dt_reloj t_ini) (dt_reloj t_fin) with
              | Lanza e => Lanza e
              | Ok t => Ok (Some (armar_pedido env es_separador lineas i t))
              end
          end
      end
  end.

Definition procesar_lineas (env : entorno) (lineas : list texto)
  : resultado (list pedido) :=
  let '(fecha_base_str, anio_base) := contexto_temporal lineas in
  let anio_base := anio_o_actual env anio_base in
  if falso fecha_base_str then Ok []
  else
    match strptime (default [] fecha_base_str ++ txt "/" ++ anio_base) FORMATO_FECHA with
    | Lanza ValueError => Ok []
    | Lanza e => Lanza e
    | Ok fecha_obj_inicial =>
        bucle_pedidos (cuerpo env lineas (dt_fecha fecha_obj_inicial)) 0 lineas []
    end.

Definition procesar_imagen_ocr (env : entorno) (imagen : option texto)
  : resultado (list pedido) :=
  match imagen with
  | None => Ok []
  | Some t => procesar_lineas env (lineas_de t)
  end.

End Procesador.

(** ** The historical table *)

(** A row of the orders sheet; the vendor name is a string or missing. *)
Record fila := Fila {
  col_Hora_Aceptacion : valor;
  col_Hora_Entrega : valor;
  col_Nombre_Local : option texto;
  col_Direccion_Local : valor;
  col_Tipo_Negocio : valor;
  col_Cadena : valor;
  col_CP_Local : valor
}.

Definition es_nulo (v : valor) : bool :=
  match v with VNulo => true | _ => false end.

(** [serie.unique()]: the values in order of first appearance. *)
Fixpoint unique_desde (vistos : list texto) (l : list texto) : list texto :=
  match l with
  | [] => []
  | x :: l' =>
      if bool_decide (x ∈ vistos) then unique_desde vistos l'
      else x :: unique_desde (x :: vistos) l'
  end.

Definition unique (l : list texto) : list texto := unique_desde [] l.

(** [df[df["Nombre_Local"] == local]] *)
Definition filas_de (local : texto) (df : list fila) : list fila :=
  filter (fun f => col_Nombre_Local f = Some local) df.

(** ** Signatures: [obtener_firmas_existentes], [pedido_ya_existe] *)

Definition firma (ha he : texto) : texto := ha ++ txt "_" ++ he.

Definition paso_firmas (env : entorno) (firmas : gset texto) (r : fila) : gset texto :=
  let ha := normalizar_para_comparar env (col_Hora_Aceptacion r) in
  let he := normalizar_para_comparar env (col_Hora_Entrega r) in
  if negb (es_vacio ha) && negb (es_vacio he) then firmas ∪ {[ firma ha he ]}
  else firmas.

Definition obtener_firmas_existentes (env : entorno) (df_pedidos : list fila)
  : gset texto :=
  foldl (paso_firmas env) ∅ df_pedidos.

Definition pedido_ya_existe (hora_aceptacion hora_entrega : texto)
    (firmas_existentes : gset texto) : bool :=
  bool_decide (firma hora_aceptacion hora_entrega ∈ firmas_existentes).

(** ** Enrichment from the history *)

(** [conocimiento[local] = ...] with what is kept of the last row of
    [local] among the usable rows. *)
Definition paso_locales {A} (datos : fila -> A) (df_util : list fila)
    (conocimiento : gmap texto A) (local : texto) : gmap texto A :=
  match last (filas_de local df_util) with
  | Some fila => <[ local := datos fila ]> conocimiento
  | None => conocimiento
  end.

(** The loop over [df_util["Nombre_Local"].unique()]; an empty table has
    no names and gives the empty dictionary. *)
Definition aprender_locales {A} (datos : fila -> A) (df_util : list fila) : gmap texto A :=
  foldl (paso_locales datos df_util) ∅ (unique (omap col_Nombre_Local df_util)).

(** *** ocr.py: rows without a vendor name are dropped *)

Record datos_local := DatosLocal {
  Tipo_Negocio : valor;
  Cadena : valor;
  CP_Local : valor
}.

Definition datos_de (f : fila) : datos_local :=
  DatosLocal (col_Tipo_Negocio f) (col_Cadena f) (col_CP_Local f).

Definition datos_vacios : datos_local :=
  DatosLocal (VTexto []) (VTexto []) (VTexto []).

Definition con_nombre (f : fila) : Prop := is_Some (col_Nombre_Local f).

Definition obtener_diccionario_locales (df_historico : list fila)
  : gmap texto datos_local :=
  aprender_locales datos_de (filter con_nombre df_historico).

Definition completar_datos_local_desde_historico (nombre_local : texto)
    (df_historico : list fila) : datos_local :=
  default datos_vacios (obtener_diccionario_locales df_historico !! nombre_local).

(** *** procesador.py: rows without a vendor name or without an address
    are dropped, and the address is what is remembered *)

Record datos_local_dir := DatosLocalDir {
  d_Direccion_Local : valor;
  d_Tipo_Negocio : valor;
  d_Cadena : valor
}.

Definition datos_dir_de (f : fila) : datos_local_dir :=
  DatosLocalDir (col_Direccion_Local f) (col_Tipo_Negocio f) (col_Cadena f).

Definition con_nombre_y_direccion (f : fila) : Prop :=
  is_Some (col_Nombre_Local f) /\ es_nulo (col_Direccion_Local f) = false.

Definition obtener_diccionario_locales_dir (df_historico : list fila)
  : gmap texto datos_local_dir :=
  aprender_locales datos_dir_de (filter con_nombre_y_direccion df_historico).

(** ** Definitions used to state the properties *)

(** [h1 < h2] on clock times. *)
Definition reloj_ltb (h1 h2 : reloj) : bool :=
  lex_ltb [hora h1; minuto h1; segundo h1] [hora h2; minuto h2; segundo h2].

(** The date every time range of an image is anchored to, when the image
    has one: the value of [fecha_base_dt.date()]. *)
Definition fecha_ancla (env : entorno) (lineas : list texto) : option fecha :=
  let '(fecha_base, anio_base) := contexto_temporal lineas in
  if falso fecha_base then None
  else
    match strptime (default [] fecha_base ++ txt "/" ++ anio_o_actual env anio_base)
                   FORMATO_FECHA with
    | Ok dt => Some (dt_fecha dt)
    | Lanza _ => None
    end.

(** The clock times of a line that holds a time range, when both parse. *)
Definition horas_de_linea (linea : texto) : option (reloj * reloj) :=
  match re_search regex_horas linea with
  | None => None
  | Some m =>
      match strptime (group 1 m) FORMATO_HORA, strptime (group 2 m) FORMATO_HORA with
      | Ok t_ini, Ok t_fin => Some (dt_reloj t_ini, dt_reloj t_fin)
      | _, _ => None
      end
  end.

(** [s] is the signature the row [r] puts in the set. *)
Definition firma_de_fila (env : entorno) (r : fila) (s : texto) : Prop :=
  normalizar_para_comparar env (col_Hora_Aceptacion r) <> []
  /\ normalizar_para_comparar env (col_Hora_Entrega r) <> []
  /\ s = firma (normalizar_para_comparar env (col_Hora_Aceptacion r))
               (normalizar_para_comparar env (col_Hora_Entrega r)).


(** A continuation of the matcher that fails on any text that begins with
    a digit: what follows a numeric field of [strptime]. *)
Definition falla_en_digito {R} (k : estado -> option R) : Prop :=
  forall st c r, e_resto st = c :: r -> es_digito c = true -> k st = None.

(** A date-time value of Python is a date and a time of day: the
    constructors of [datetime] refuse anything else. *)
Definition valor_bien_formado (v : valor) : Prop :=
  match v with
  | VFecha dt => datetime_valido dt = true
  | _ => True
  end.

(** The text without its leading run of characters of a class, and
    without its trailing run. *)
Fixpoint quitar_inicio (p : ascii -> bool) (s : texto) : texto :=
  match s with
  | c :: s' => if p c then quitar_inicio p s' else s
  | [] => []
  end.

Definition quitar_final (p : ascii -> bool) (s : texto) : texto :=
  rev (quitar_inicio p (rev s)).

Definition no_es_palabra (c : ascii) : bool := negb (es_palabra c).

(** The name of the order on line [i] as the specification words it: the
    literal for the first line; else the line above, with the line two
    above in front unless the classifier calls it a separator; then the
    leading run of the class [inicial] goes, the trailing run of
    characters that are neither word characters, blanks nor parentheses
    goes, and the result is trimmed. *)
Definition nombre_descrito (inicial : ascii -> bool) (es_separador : texto -> bool)
    (lineas : list texto) (i : nat) : texto :=
  match i with
  | O => txt "Desconocido"
  | S _ =>
      let base := nth (i - 1) lineas [] in
      let ensamblado :=
        if (1 <? i)%nat && negb (es_separador (nth (i - 2) lineas []))
        then nth (i - 2) lineas [] ++ txt " " ++ base
        else base in
      str_strip (quitar_final es_basura_final (quitar_inicio inicial ensamblado))
  end.

(** Whether a text holds two digits side by side. *)
Fixpoint tiene_dos_digitos (t : texto) : bool :=
  match t with
  | a :: t' =>
      match t' with
      | b :: _ => (es_digito a && es_digito b) || tiene_dos_digitos t'
      | [] => false
      end
  | [] => false
  end.

(** Whether a text begins with three word characters, a comma, a space and
    a digit. *)
Definition empieza_con_dia (t : texto) : bool :=
  match t with
  | a :: b :: c :: x :: y :: d :: _ =>
      es_palabra a && es_palabra b && es_palabra c
      && Ascii.eqb x "," && Ascii.eqb y " " && es_digito d
  | _ => false
  end.

(** The classifier as the specification words it, on the trimmed line:
    only digits and at least seven of them; or one of the keywords,
    whatever the case of the letters; or "semana", looked for in
    [plegar t], with two digits side by side; or an abbreviated week day
    at the start. *)
Definition separador_descrito (plegar : texto -> texto) (linea : texto) : bool :=
  let t := str_strip linea in
  (forallb es_digito t && (7 <=? length t)%nat)
  || existsb (fun kw => contiene kw (str_lower t)) palabras_clave
  || (contiene (txt "semana") (plegar t) && tiene_dos_digitos t)
  || empieza_con_dia t.

(** What a successful match of [r] is made of: the text [w] it takes and
    the groups [gs] it captures, the latest first. *)
Fixpoint coincide (r : regex) (w : texto) (gs : list (nat * texto)) : Prop :=
  match r with
  | Eps | Bol | Eol => w = [] /\ gs = []
  | Lit c => w = [c] /\ gs = []
  | LitI c => (exists c', w = [c'] /\ minuscula c' = minuscula c) /\ gs = []
  | Cls p => (exists c, w = [c] /\ p c = true) /\ gs = []
  | Rep p lo hi =>
      (Forall (fun c => p c = true) w /\ (lo <= length w)%nat
       /\ match hi with Some h => (length w <= h)%nat | None => True end)
      /\ gs = []
  | Seq r1 r2 =>
      exists w1 w2 gs1 gs2,
        w = w1 ++ w2 /\ gs = gs2 ++ gs1 /\ coincide r1 w1 gs1 /\ coincide r2 w2 gs2
  | Alt r1 r2 => coincide r1 w gs \/ coincide r2 w gs
  | Grp n r' => exists gs', gs = (n, w) :: gs' /\ coincide r' w gs'
  end.

(** The shape DD/MM/YYYY HH:MM. *)
Definition forma_canonica (s : texto) : Prop :=
  exists d1 d2 m1 m2 y1 y2 y3 y4 h1 h2 n1 n2,
    Forall (fun c => es_digito c = true) [d1; d2; m1; m2; y1; y2; y3; y4; h1; h2; n1; n2]
    /\ s = [d1; d2; "/"; m1; m2; "/"; y1; y2; y3; y4; " "; h1; h2; ":"; n1; n2]%char.

(** What the first loop holds in [fecha_base] and [anio_base]: nothing
    yet, or a day and a month of two digits each, and a year 20YY. *)
Definition contexto_formado (st : option texto * option texto) : Prop :=
  (st.1 = None
   \/ exists a b c d,
        Forall (fun x => es_digito x = true) [a; b; c; d]
        /\ st.1 = Some [a; b; "/"; c; d]%char)
  /\ (st.2 = None
      \/ exists c d,
           Forall (fun x => es_digito x = true) [c; d]
           /\ st.2 = Some ["2"; "0"; c; d]%char).

(** ** The batch run: [main] of procesador.py *)

(** A row [main] appends to the sheet, with the keys of the dictionary it
    builds; all but the id, the two timestamps and the name are empty
    strings. *)
Record registro := Registro {
  reg_ID_Pedido : Z;
  reg_ID_Turno : texto;
  reg_Hora_Aceptacion : texto;
  reg_Hora_Entrega : texto;
  reg_Nombre_Local : texto;
  reg_Direccion_Local : texto;
  reg_Tipo_Negocio : texto;
  reg_Cadena : texto;
  reg_Direccion_Cliente : texto;
  reg_Propina_Pedido : texto
}.

(** The three variables the loop over the images updates. *)
Record lote := Lote {
  l_firmas : gset texto;
  l_nuevos : list registro;
  l_contador : Z
}.

(** The body of the inner loop, on one extracted order. *)
Definition paso_pedido (st : lote) (p : pedido) : lote :=
  let f := firma (Hora_Aceptacion p) (Hora_Entrega p) in
  if bool_decide (f ∈ l_firmas st) then st
  else
    Lote (l_firmas st ∪ {[ f ]})
         (l_nuevos st
          ++ [Registro (l_contador st) [] (Hora_Aceptacion p) (Hora_Entrega p)
                       (Nombre_Local p) [] [] [] [] []])
         (l_contador st + 1).

(** [for ruta in imgs: for p in procesar_imagen_ocr(ruta): ...]; an
    exception of the extractor ends the run. *)
Fixpoint bucle_imagenes (env : entorno) (imgs : list (option texto)) (st : lote)
  : resultado lote :=
  match imgs with
  | [] => Ok st
  | img :: resto =>
      match Procesador.procesar_imagen_ocr env img with
      | Ok pedidos => bucle_imagenes env resto (foldl paso_pedido st pedidos)
      | Lanza e => Lanza e
      end
  end.

Definition maximo (l : list Z) : option Z :=
  foldr (fun x acc => Some (match acc with Some m => Z.max x m | None => x end)) None l.

(** A column of ids: [None] when the sheet does not have it, else one
    entry per row, a whole number or a blank ([NaN], which is also what
    [pd.to_numeric(..., errors='coerce')] makes of anything else). *)
Abbreviation columna_id := (option (list (option Z))).

(** [ultimo_id] of [main]: the largest id, 0 without the column, without
    rows or without any number. *)
Definition ultimo_id (columna : columna_id) : Z :=
  match columna with
  | Some vs => default 0 (maximo (omap (fun v => v) vs))
  | None => 0
  end.

(** What [main] computes before it writes: the signatures of the history,
    the first free id, then the loop over the images. *)
Definition main_nuevos (env : entorno) (df_hist : list fila) (ids : columna_id)
    (imgs : list (option texto)) : resultado lote :=
  bucle_imagenes env imgs
    (Lote (obtener_firmas_existentes env df_hist) [] (ultimo_id ids + 1)).

(** ** [obtener_siguiente_id] of utils_excel.py *)

(** [int(df[columna_id].max()) + 1], and 1 for an empty table or a missing
    column; [max] skips the blanks and is [NaN] when there is nothing
    else, which [int] refuses. *)
Definition obtener_siguiente_id (columna : columna_id) : resultado Z :=
  match columna with
  | None => Ok 1
  | Some [] => Ok 1
  | Some vs =>
      match maximo (omap (fun v => v) vs) with
      | Some m => Ok (m + 1)
      | None => Lanza ValueError
      end
  end.

(** ** The shifts of the application: streamlit_app.py *)

(** A row of the shifts sheet; a date-time cell may be blank ([NaT]). *)
Record turno := Turno {
  ID_Turno : valor;
  Hora_Inicio : option datetime;
  Hora_Fin : option datetime
}.

(** [(Hora_Inicio <= hora_aceptacion) & (Hora_Fin >= hora_aceptacion)];
    a comparison with a blank is false. *)
Definition en_turno (hora_aceptacion : datetime) (t : turno) : bool :=
  match Hora_Inicio t, Hora_Fin t with
  | Some inicio, Some fin => dt_leb inicio hora_aceptacion && dt_leb hora_aceptacion fin
  | _, _ => false
  end.

Definition AMBIGUO : valor := VTexto (txt "AMBIGUO").

Definition resolver_id_turno_por_hora (hora_aceptacion : datetime) (df_turnos : list turno)
  : option valor :=
  let turnos_validos := filter (fun t => en_turno hora_aceptacion t = true) df_turnos in
  match turnos_validos with
  | [] => None
  | t :: _ => if (1 <? length turnos_validos)%nat then Some AMBIGUO else Some (ID_Turno t)
  end.

(** [hora_inicio == hora_fin] on clock times. *)
Definition reloj_eqb (h1 h2 : reloj) : bool :=
  (hora h1 =? hora h2) && (minuto h1 =? minuto h2) && (segundo h1 =? segundo h2).

(** The two date-times of a shift that is saved (lines 106-115): [None]
    is the error shown for equal clock times, when nothing is saved. *)
Definition tiempos_turno (fecha_turno : fecha) (hora_inicio hora_fin : reloj)
  : option (resultado (datetime * datetime)) :=
  if reloj_eqb hora_inicio hora_fin then None
  else
    let dt_inicio := combine fecha_turno hora_inicio in
    let dt_fin := combine fecha_turno hora_fin in
    if reloj_ltb hora_fin hora_inicio then
      match sumar_un_dia dt_fin with
      | Ok dt_fin' => Some (Ok (dt_inicio, dt_fin'))
      | Lanza e => Some (Lanza e)
      end
    else Some (Ok (dt_inicio, dt_fin)).

(** ** Filling the gaps of the sheet: [rellenar_huecos_historicos] *)

Section Rellenar.

(** The values of the cells are kept abstract: all the code asks of one is
    its truth value and its [str()]. *)
Context {V : Type}.
Variable verdadero : V -> bool.
Variable str_de : V -> texto.

(** A worksheet: its last row and the value of each cell. *)
Record hoja := Hoja {
  max_row : nat;
  celda : nat -> nat -> V
}.

(** [sheet.cell(row, column).value = v] *)
Definition poner (h : hoja) (row col : nat) (v : V) : hoja :=
  Hoja (Nat.max (max_row h) row)
       (fun r c => if (r =? row)%nat && (c =? col)%nat then v else celda h r c).

Definition COL_NOMBRE : nat := 5.
Definition COL_DIR : nat := 6.
Definition COL_TIPO : nat := 7.
Definition COL_CADENA : nat := 8.

(** What the dictionary of vendors holds under a name. *)
Record datos_conocidos := DatosConocidos {
  dc_Direccion_Local : V;
  dc_Tipo_Negocio : V;
  dc_Cadena : V
}.

(** The helper [rellenar(col, valor)] on the row at hand: the sheet after
    it and the 1 or 0 it returns. *)
Definition rellenar (h : hoja) (row col : nat) (nuevo : V) : hoja * nat :=
  if negb (verdadero (celda h row col)) && verdadero nuevo
  then (poner h row col nuevo, 1%nat)
  else (h, 0%nat).

(** The body of the loop over the rows. *)
Definition paso_fila (diccionario_locales : gmap texto datos_conocidos)
    (st : hoja * nat) (row : nat) : hoja * nat :=
  let nombre_celda := celda st.1 row COL_NOMBRE in
  if verdadero nombre_celda then
    let nombre_key := str_strip (str_de nombre_celda) in
    match diccionario_locales !! nombre_key with
    | Some datos =>
        let r1 := rellenar st.1 row COL_DIR (dc_Direccion_Local datos) in
        let r2 := rellenar r1.1 row COL_TIPO (dc_Tipo_Negocio datos) in
        let r3 := rellenar r2.1 row COL_CADENA (dc_Cadena datos) in
        (r3.1, (st.2 + r1.2 + r2.2 + r3.2)%nat)
    | None => st
    end
  else st.

(** The sheet in memory after the loop over [range(2, sheet.max_row + 1)],
    and the count of cells filled. *)
Definition rellenar_huecos_historicos (h : hoja)
    (diccionario_locales : gmap texto datos_conocidos) : hoja * nat :=
  foldl (paso_fila diccionario_locales) (h, 0%nat) (seq 2 (max_row h - 1)).

(** The sheet in the file afterwards: it is written only when the count
    is positive. *)
Definition archivo_despues (h : hoja)
    (diccionario_locales : gmap texto datos_conocidos) : hoja :=
  let r := rellenar_huecos_historicos h diccionario_locales in
  if (0 <? r.2)%nat then r.1 else h.

End Rellenar.

(** The signature of a new row. *)
Definition firma_de_registro (r : registro) : texto :=
  firma (reg_Hora_Aceptacion r) (reg_Hora_Entrega r).

(** What the loop of [main] keeps true of its three variables, from the
    signatures [F0] and the counter [c0] it starts with. *)
Definition lote_en_orden (F0 : gset texto) (c0 : Z) (st : lote) : Prop :=
  l_contador st = c0 + Z.of_nat (length (l_nuevos st))
  /\ (forall i r, l_nuevos st !! i = Some r -> reg_ID_Pedido r = c0 + Z.of_nat i)
  /\ (forall s, s ∈ l_firmas st <-> s ∈ F0 \/ s ∈ map firma_de_registro (l_nuevos st))
  /\ NoDup (map firma_de_registro (l_nuevos st))
  /\ (forall r, r ∈ l_nuevos st -> firma_de_registro r ∉ F0).

Section RellenarDescrito.

Context {V : Type}.
Variable verdadero : V -> bool.
Variable str_de : V -> texto.

(** What a gap of a row is filled with: the value the dictionary holds
    for the column, when the row names a known vendor. *)
Definition candidato (h : hoja) (diccionario_locales : gmap texto (@datos_conocidos V))
    (r c : nat) : option V :=
  if verdadero (celda h r COL_NOMBRE) then
    match diccionario_locales !! str_strip (str_de (celda h r COL_NOMBRE)) with
    | Some datos =>
        if (c =? COL_DIR)%nat then Some (dc_Direccion_Local datos)
        else if (c =? COL_TIPO)%nat then Some (dc_Tipo_Negocio datos)
        else if (c =? COL_CADENA)%nat then Some (dc_Cadena datos)
        else None
    | None => None
    end
  else None.

(** The value of a cell once its row has been gone through: a gap takes
    the candidate when that one counts as true, anything else stays. *)
Definition fila_rellenada (h : hoja) (diccionario_locales : gmap texto (@datos_conocidos V))
    (r c : nat) : V :=
  match candidato h diccionario_locales r c with
  | Some v => if negb (verdadero (celda h r c)) && verdadero v then v else celda h r c
  | None => celda h r c
  end.

End RellenarDescrito.

(** Cells that are blank or hold a string, as the cells of the four
    columns of the orders sheet are. *)
Definition verdadero_texto (v : option texto) : bool := negb (falso v).
Definition str_de_texto (v : option texto) : texto := default (txt "None") v.
(** * Properties *)

(** ** The loops *)

Lemma contexto_sin_fecha (lineas : list texto) (st : option texto * option texto) :
  Forall (fun l => re_search regex_fecha l = None) lineas ->
  st.1 = None -> (foldl paso_contexto st lineas).1 = None.
Proof.
  intros H. revert st. induction H as [|l ls Hl _ IH]; intros st Hst; [exact Hst|].
  simpl. apply IH. unfold paso_contexto. simpl. rewrite Hst. simpl. rewrite Hl. reflexivity.
Qed.

(** The orders of a run are the ones already held and the ones the body
    gives on the lines still to read. *)
Lemma bucle_pedidos_elem cuerpo (pendientes : list texto) :
  forall i pedidos res,
    bucle_pedidos cuerpo i pendientes pedidos = Ok res ->
    forall p, p ∈ res ->
      p ∈ pedidos \/
      exists j linea, pendientes !! j = Some linea /\ cuerpo (i + j)%nat linea = Ok (Some p).
Proof.
  induction pendientes as [|linea resto IH]; intros i pedidos res Hres p Hp; simpl in Hres.
  - inversion Hres; subst. left. exact Hp.
  - destruct (cuerpo i linea) as [[q|]|e] eqn:Hc; [| |discriminate].
    + destruct (IH _ _ _ Hres p Hp) as [Hin|(j & l & Hj & Hl)].
      * apply elem_of_app in Hin as [Hin|Hin]; [left; exact Hin|].
        apply list_elem_of_singleton in Hin. subst q.
        right. exists 0%nat, linea. split; [reflexivity|]. rewrite Nat.add_0_r. exact Hc.
      * right. exists (S j), l. split; [exact Hj|].
        replace (i + S j)%nat with (S i + j)%nat by lia. exact Hl.
    + destruct (IH _ _ _ Hres p Hp) as [Hin|(j & l & Hj & Hl)]; [left; exact Hin|].
      right. exists (S j), l. split; [exact Hj|].
      replace (i + S j)%nat with (S i + j)%nat by lia. exact Hl.
Qed.

(** C4: without a line that matches the day and month pattern, no order is
    extracted, whatever else the lines hold; both copies of the extractor
    return the empty list and raise nothing. *)
Theorem sin_ancla_no_hay_pedidos (env : entorno) (t : texto) :
  Forall (fun l => re_search regex_fecha l = None) (lineas_de t) ->
  Ocr.procesar_imagen_ocr env (Some t) = Ok []
  /\ Procesador.procesar_imagen_ocr env (Some t) = Ok [].
Proof.
  intros H.
  pose proof (contexto_sin_fecha (lineas_de t) (None, None) H eq_refl) as Hc.
  unfold Ocr.procesar_imagen_ocr, Procesador.procesar_imagen_ocr,
    Ocr.procesar_lineas, Procesador.procesar_lineas, contexto_temporal.
  destruct (foldl paso_contexto (None, None) (lineas_de t)) as [fb ab].
  simpl in Hc. subst fb. simpl. split; reflexivity.
Qed.

Lemma sin_ancla_no_hay_pedidos_witness :
  Ocr.procesar_imagen_ocr (Entorno 2026 true)
    (Some (txt "Starbucks" ++ [salto] ++ txt "19:45 - 20:10" ++ [salto]
           ++ txt "Cafe" ++ [salto] ++ txt "20:15 - 20:40")) = Ok []
  /\ Procesador.procesar_imagen_ocr (Entorno 2026 true)
    (Some (txt "Starbucks" ++ [salto] ++ txt "19:45 - 20:10" ++ [salto]
           ++ txt "Cafe" ++ [salto] ++ txt "20:15 - 20:40")) = Ok [].
Proof.
  apply sin_ancla_no_hay_pedidos.
  replace (lineas_de _)
    with [txt "Starbucks"; txt "19:45 - 20:10"; txt "Cafe"; txt "20:15 - 20:40"]
    by (vm_compute; reflexivity).
  repeat (constructor; [vm_compute; reflexivity|]). constructor.
Defined.

(** ** Calendar arithmetic *)

Lemma div_paso_4 (y : Z) : y / 4 = (y - 1) / 4 + (if y mod 4 =? 0 then 1 else 0).
Proof. destruct (Z.eqb_spec (y mod 4) 0); Z.to_euclidean_division_equations; lia. Qed.

Lemma div_paso_100 (y : Z) : y / 100 = (y - 1) / 100 + (if y mod 100 =? 0 then 1 else 0).
Proof. destruct (Z.eqb_spec (y mod 100) 0); Z.to_euclidean_division_equations; lia. Qed.

Lemma div_paso_400 (y : Z) : y / 400 = (y - 1) / 400 + (if y mod 400 =? 0 then 1 else 0).
Proof. destruct (Z.eqb_spec (y mod 400) 0); Z.to_euclidean_division_equations; lia. Qed.

Lemma mod_100_4 (y : Z) : y mod 100 = 0 -> y mod 4 = 0.
Proof. Z.to_euclidean_division_equations; lia. Qed.

Lemma mod_400_100 (y : Z) : y mod 400 = 0 -> y mod 100 = 0.
Proof. Z.to_euclidean_division_equations; lia. Qed.

Lemma dias_antes_del_anio_siguiente (y : Z) :
  dias_antes_del_anio (y + 1) = dias_antes_del_anio y + 365 + (if es_bisiesto y then 1 else 0).
Proof.
  unfold dias_antes_del_anio, es_bisiesto.
  replace (y + 1 - 1) with y by lia.
  rewrite (div_paso_4 y), (div_paso_100 y), (div_paso_400 y).
  pose proof (mod_100_4 y) as H1. pose proof (mod_400_100 y) as H2.
  destruct (Z.eqb_spec (y mod 4) 0); destruct (Z.eqb_spec (y mod 100) 0);
    destruct (Z.eqb_spec (y mod 400) 0); simpl; try lia;
    exfalso; auto.
Qed.

Lemma dias_antes_del_mes_siguiente (y m : Z) :
  1 <= m <= 11 ->
  dias_antes_del_mes y (m + 1) = dias_antes_del_mes y m + dias_del_mes y m.
Proof.
  intros H.
  assert (m = 1 \/ m = 2 \/ m = 3 \/ m = 4 \/ m = 5 \/ m = 6 \/ m = 7 \/ m = 8
          \/ m = 9 \/ m = 10 \/ m = 11) as Hm by lia.
  unfold dias_antes_del_mes, dias_del_mes.
  repeat (destruct Hm as [->|Hm]); try subst m;
    cbv -[es_bisiesto]; destruct (es_bisiesto y); reflexivity.
Qed.

Lemma dias_antes_de_diciembre (y : Z) :
  dias_antes_del_mes y 12 + 31 = 365 + (if es_bisiesto y then 1 else 0).
Proof. cbv -[es_bisiesto]. destruct (es_bisiesto y); reflexivity. Qed.

Lemma dias_del_mes_cota (y m : Z) : 28 <= dias_del_mes y m <= 31.
Proof.
  unfold dias_del_mes.
  destruct (m =? 2); [destruct (es_bisiesto y); lia|].
  destruct ((m =? 4) || (m =? 6) || (m =? 9) || (m =? 11)); lia.
Qed.

Lemma fecha_valida_iff (f : fecha) :
  fecha_valida f = true <->
  1 <= anio f <= 9999 /\ 1 <= mes f <= 12 /\ 1 <= dia f <= dias_del_mes (anio f) (mes f).
Proof. unfold fecha_valida. rewrite !andb_true_iff, !Z.leb_le. lia. Qed.

Lemma reloj_valido_iff (r : reloj) :
  reloj_valido r = true <->
  0 <= hora r <= 23 /\ 0 <= minuto r <= 59 /\ 0 <= segundo r <= 59.
Proof. unfold reloj_valido. rewrite !andb_true_iff, !Z.leb_le. lia. Qed.

(** The day after a date is the date whose ordinal is one more, and it is a
    date again. *)
Lemma mas_un_dia_ordinal (f f' : fecha) :
  fecha_valida f = true -> mas_un_dia f = Ok f' ->
  toordinal f' = toordinal f + 1 /\ fecha_valida f' = true.
Proof.
  intros Hv H. apply fecha_valida_iff in Hv. destruct Hv as (Hy & Hm & Hd).
  unfold mas_un_dia in H.
  destruct (dia f <? dias_del_mes (anio f) (mes f)) eqn:E1.
  - inversion H; subst f'; clear H. apply Z.ltb_lt in E1.
    split; [unfold toordinal; simpl; lia|]. apply fecha_valida_iff. simpl. lia.
  - apply Z.ltb_ge in E1.
    destruct (mes f <? 12) eqn:E2.
    + inversion H; subst f'; clear H. apply Z.ltb_lt in E2.
      split.
      * unfold toordinal. simpl. rewrite dias_antes_del_mes_siguiente by lia. lia.
      * apply fecha_valida_iff. simpl.
        pose proof (dias_del_mes_cota (anio f) (mes f + 1)). lia.
    + apply Z.ltb_ge in E2.
      destruct (anio f <? 9999) eqn:E3; [|discriminate].
      inversion H; subst f'; clear H. apply Z.ltb_lt in E3.
      assert (mes f = 12) as Hm12 by lia.
      split.
      * unfold toordinal. simpl. rewrite dias_antes_del_anio_siguiente.
        pose proof (dias_antes_de_diciembre (anio f)) as Hdic.
        rewrite Hm12 in *. replace (dias_del_mes (anio f) 12) with 31 in * by reflexivity.
        change (dias_antes_del_mes (anio f + 1) 1) with 0. lia.
      * apply fecha_valida_iff. simpl. change (dias_del_mes (anio f + 1) 1) with 31. lia.
Qed.

Lemma lex_ltb_irrefl (a : list Z) : lex_ltb a a = false.
Proof.
  induction a as [|x a IH]; [reflexivity|]. simpl.
  rewrite Z.ltb_irrefl, Z.eqb_refl, IH. reflexivity.
Qed.

Lemma dt_ltb_misma_fecha (f : fecha) (a b : reloj) :
  dt_ltb (Datetime f a) (Datetime f b) = reloj_ltb a b.
Proof.
  unfold dt_ltb, reloj_ltb, campos. simpl.
  rewrite !Z.ltb_irrefl, !Z.eqb_refl. reflexivity.
Qed.

Lemma mas_un_dia_posterior (f f' : fecha) (a b : reloj) :
  mas_un_dia f = Ok f' -> dt_ltb (Datetime f' b) (Datetime f a) = false.
Proof.
  unfold mas_un_dia. intros H.
  destruct (dia f <? dias_del_mes (anio f) (mes f)); [|destruct (mes f <? 12);
    [|destruct (anio f <? 9999); [|discriminate]]];
    inversion H; subst f'; clear H; unfold dt_ltb, campos; simpl.
  - rewrite !Z.ltb_irrefl, !Z.eqb_refl. simpl.
    replace (dia f + 1 <? dia f) with false by (symmetry; apply Z.ltb_ge; lia).
    replace (dia f + 1 =? dia f) with false by (symmetry; apply Z.eqb_neq; lia).
    reflexivity.
  - rewrite !Z.ltb_irrefl, !Z.eqb_refl. simpl.
    replace (mes f + 1 <? mes f) with false by (symmetry; apply Z.ltb_ge; lia).
    replace (mes f + 1 =? mes f) with false by (symmetry; apply Z.eqb_neq; lia).
    reflexivity.
  - replace (anio f + 1 <? anio f) with false by (symmetry; apply Z.ltb_ge; lia).
    replace (anio f + 1 =? anio f) with false by (symmetry; apply Z.eqb_neq; lia).
    reflexivity.
Qed.

(** What [tiempos] gives: the acceptance on the base date, the delivery at
    its clock time on the base date or, when its clock time is earlier, on
    the day after. *)
Lemma tiempos_ok (base : fecha) (h_ini h_fin : reloj) (t : datetime * datetime) :
  fecha_valida base = true ->
  tiempos base h_ini h_fin = Ok t ->
  t.1 = Datetime base h_ini /\ dt_reloj t.2 = h_fin /\ dt_leb t.1 t.2 = true
  /\ fecha_valida (dt_fecha t.2) = true
  /\ (if reloj_ltb h_fin h_ini
      then mas_un_dia base = Ok (dt_fecha t.2)
           /\ toordinal (dt_fecha t.2) = toordinal base + 1
      else dt_fecha t.2 = base).
Proof.
  intros Hv. unfold tiempos, combine, sumar_un_dia. rewrite dt_ltb_misma_fecha. simpl.
  destruct (reloj_ltb h_fin h_ini) eqn:E.
  - destruct (mas_un_dia base) as [f'|e] eqn:Hm; [|discriminate].
    intros H; inversion H; subst t; clear H. simpl.
    destruct (mas_un_dia_ordinal _ _ Hv Hm) as [Ho Hv'].
    repeat split; try assumption; try reflexivity.
    unfold dt_leb. rewrite (mas_un_dia_posterior _ _ _ _ Hm). reflexivity.
  - intros H; inversion H; subst t; clear H. simpl.
    repeat split; try assumption; try reflexivity.
    unfold dt_leb. rewrite dt_ltb_misma_fecha, E. reflexivity.
Qed.

(** ** The orders of an image *)

Lemma strptime_valido (s f : texto) (dt : datetime) :
  strptime s f = Ok dt -> datetime_valido dt = true.
Proof.
  unfold strptime. destruct (patron f); [|discriminate].
  destruct (re_match r s); [|discriminate].
  destruct (negb _); [discriminate|].
  match goal with |- (if datetime_valido ?d then _ else _) = _ -> _ =>
    destruct (datetime_valido d) eqn:E end; [|discriminate].
  intros H; inversion H; subst; exact E.
Qed.

Lemma strptime_fecha_valida (s f : texto) (dt : datetime) :
  strptime s f = Ok dt -> fecha_valida (dt_fecha dt) = true.
Proof.
  intros H. apply strptime_valido in H. unfold datetime_valido in H.
  apply andb_true_iff in H. tauto.
Qed.

Lemma strptime_reloj_valido (s f : texto) (dt : datetime) :
  strptime s f = Ok dt -> reloj_valido (dt_reloj dt) = true.
Proof.
  intros H. apply strptime_valido in H. unfold datetime_valido in H.
  apply andb_true_iff in H. tauto.
Qed.

(** An order comes from a line whose two clock times parse. *)
Lemma Ocr_cuerpo_pedido env lineas base i linea p :
  Ocr.cuerpo env lineas base i linea = Ok (Some p) ->
  exists h_ini h_fin t,
    horas_de_linea linea = Some (h_ini, h_fin)
    /\ tiempos base h_ini h_fin = Ok t
    /\ p = armar_pedido env Ocr.es_separador lineas i t.
Proof.
  unfold Ocr.cuerpo, horas_de_linea.
  destruct (re_search regex_horas linea) as [m|]; [|discriminate].
  destruct (strptime (group 1 m) FORMATO_HORA) as [t1|e1]; [|discriminate].
  destruct (strptime (group 2 m) FORMATO_HORA) as [t2|e2]; [|discriminate].
  destruct (tiempos base (dt_reloj t1) (dt_reloj t2)) as [t|e] eqn:Ht; [|discriminate].
  intros H; inversion H; subst p.
  exists (dt_reloj t1), (dt_reloj t2), t. auto.
Qed.

Lemma Procesador_cuerpo_pedido env lineas base i linea p :
  Procesador.cuerpo env lineas base i linea = Ok (Some p) ->
  exists h_ini h_fin t,
    horas_de_linea linea = Some (h_ini, h_fin)
    /\ tiempos base h_ini h_fin = Ok t
    /\ p = armar_pedido env Procesador.es_separador lineas i t.
Proof.
  unfold Procesador.cuerpo, horas_de_linea.
  destruct (re_search regex_horas linea) as [m|]; [|discriminate].
  destruct (strptime (group 1 m) FORMATO_HORA) as [t1|[]]; try discriminate.
  destruct (strptime (group 2 m) FORMATO_HORA) as [t2|[]]; try discriminate.
  destruct (tiempos base (dt_reloj t1) (dt_reloj t2)) as [t|e] eqn:Ht; [|discriminate].
  intros H; inversion H; subst p.
  exists (dt_reloj t1), (dt_reloj t2), t. auto.
Qed.

Lemma Ocr_procesar_pedido env lineas pedidos p :
  Ocr.procesar_lineas env lineas = Ok pedidos -> p ∈ pedidos ->
  exists base i linea,
    fecha_ancla env lineas = Some base /\ fecha_valida base = true
    /\ lineas !! i = Some linea
    /\ Ocr.cuerpo env lineas base i linea = Ok (Some p).
Proof.
  unfold Ocr.procesar_lineas, fecha_ancla.
  destruct (contexto_temporal lineas) as [fb ab].
  destruct (falso fb).
  { intros H; inversion H; subst. intros Hp. inversion Hp. }
  destruct (strptime _ FORMATO_FECHA) as [dt|e] eqn:Hs; [|discriminate].
  intros Hb Hp.
  destruct (bucle_pedidos_elem _ _ _ _ _ Hb p Hp) as [Hin|(j & l & Hj & Hl)].
  { inversion Hin. }
  exists (dt_fecha dt), j, l. repeat split; try assumption.
  eapply strptime_fecha_valida; eassumption.
Qed.

Lemma Procesador_procesar_pedido env lineas pedidos p :
  Procesador.procesar_lineas env lineas = Ok pedidos -> p ∈ pedidos ->
  exists base i linea,
    fecha_ancla env lineas = Some base /\ fecha_valida base = true
    /\ lineas !! i = Some linea
    /\ Procesador.cuerpo env lineas base i linea = Ok (Some p).
Proof.
  unfold Procesador.procesar_lineas, fecha_ancla.
  destruct (contexto_temporal lineas) as [fb ab].
  destruct (falso fb).
  { intros H; inversion H; subst. intros Hp. inversion Hp. }
  destruct (strptime _ FORMATO_FECHA) as [dt|[]] eqn:Hs; try discriminate.
  - intros Hb Hp.
    destruct (bucle_pedidos_elem _ _ _ _ _ Hb p Hp) as [Hin|(j & l & Hj & Hl)].
    { inversion Hin. }
    exists (dt_fecha dt), j, l. repeat split; try assumption.
    eapply strptime_fecha_valida; eassumption.
  - intros H; inversion H; subst. intros Hp. inversion Hp.
Qed.

(** Both copies of the extractor build an order the same way. *)
Lemma procesar_pedido env lineas pedidos p :
  Ocr.procesar_lineas env lineas = Ok pedidos
  \/ Procesador.procesar_lineas env lineas = Ok pedidos ->
  p ∈ pedidos ->
  exists base i linea h_ini h_fin t,
    fecha_ancla env lineas = Some base /\ fecha_valida base = true
    /\ lineas !! i = Some linea
    /\ horas_de_linea linea = Some (h_ini, h_fin)
    /\ tiempos base h_ini h_fin = Ok t
    /\ Hora_Aceptacion p = strftime env t.1 FORMATO_CANONICO
    /\ Hora_Entrega p = strftime env t.2 FORMATO_CANONICO.
Proof.
  intros [H|H] Hp.
  - destruct (Ocr_procesar_pedido _ _ _ _ H Hp) as (base & i & l & Ha & Hv & Hl & Hc).
    destruct (Ocr_cuerpo_pedido _ _ _ _ _ _ Hc) as (h1 & h2 & t & Hh & Ht & ->).
    exists base, i, l, h1, h2, t. repeat split; assumption.
  - destruct (Procesador_procesar_pedido _ _ _ _ H Hp) as (base & i & l & Ha & Hv & Hl & Hc).
    destruct (Procesador_cuerpo_pedido _ _ _ _ _ _ Hc) as (h1 & h2 & t & Hh & Ht & ->).
    exists base, i, l, h1, h2, t. repeat split; assumption.
Qed.



(** ** Enrichment from the history *)

Lemma unique_desde_elem (x : texto) (l vistos : list texto) :
  x ∈ unique_desde vistos l <-> x ∈ l /\ x ∉ vistos.
Proof.
  revert vistos. induction l as [|y l IH]; intros vistos; simpl.
  - split; [intros H; inversion H|intros [H _]; inversion H].
  - destruct (bool_decide_reflect (y ∈ vistos)) as [Hy|Hy].
    + rewrite IH, elem_of_cons. split; [tauto|].
      intros [[->|H] Hn]; [contradiction|tauto].
    + rewrite !elem_of_cons, IH, elem_of_cons. split.
      * intros [->|[H Hn]]; [tauto|]. split; [tauto|]. intros Hv. apply Hn. tauto.
      * intros [[->|H] Hn]; [tauto|].
        destruct (decide (x = y)) as [->|Hne]; [tauto|].
        right. split; [exact H|]. intros [?|?]; contradiction.
Qed.

Lemma unique_elem (x : texto) (l : list texto) : x ∈ unique l <-> x ∈ l.
Proof.
  unfold unique. rewrite unique_desde_elem. split; [tauto|].
  intros H. split; [exact H|]. intros Hn. inversion Hn.
Qed.

Section Aprender.

Context {A : Type} (datos : fila -> A).

Lemma paso_locales_otro (U : list fila) (m : gmap texto A) (k n : texto) :
  k <> n -> paso_locales datos U m k !! n = m !! n.
Proof.
  intros Hne. unfold paso_locales.
  destruct (last (filas_de k U)); [apply lookup_insert_ne; exact Hne|reflexivity].
Qed.

(** After the loop over [claves], a key that was visited holds the last
    of its rows. *)
Lemma bucle_locales_lookup (U : list fila) (claves : list texto) :
  forall (m : gmap texto A) (n : texto),
    foldl (paso_locales datos U) m claves !! n =
    match (if decide (n ∈ claves) then last (filas_de n U) else None) with
    | Some f => Some (datos f)
    | None => m !! n
    end.
Proof.
  induction claves as [|k ks IH]; intros m n; simpl.
  - destruct (decide (n ∈ [])) as [H|H]; [inversion H|reflexivity].
  - rewrite IH.
    destruct (decide (n ∈ ks)) as [Hin|Hin].
    + destruct (decide (n ∈ k :: ks)) as [_|Hn]; [|exfalso; apply Hn; right; exact Hin].
      destruct (last (filas_de n U)) as [f|] eqn:Hl; [reflexivity|].
      destruct (decide (k = n)) as [->|Hne].
      * unfold paso_locales. rewrite Hl. reflexivity.
      * apply paso_locales_otro; exact Hne.
    + destruct (decide (k = n)) as [->|Hne].
      * destruct (decide (n ∈ n :: ks)) as [_|Hn]; [|exfalso; apply Hn; left].
        unfold paso_locales.
        destruct (last (filas_de n U)) as [f|]; [apply lookup_insert_eq|reflexivity].
      * destruct (decide (n ∈ k :: ks)) as [Hn|_].
        { apply elem_of_cons in Hn as [->|Hn]; contradiction. }
        apply paso_locales_otro; exact Hne.
Qed.

Lemma filas_de_elem_nombre (n : texto) (U : list fila) (f : fila) :
  last (filas_de n U) = Some f -> n ∈ omap col_Nombre_Local U.
Proof.
  intros Hl. apply list_elem_of_omap. exists f.
  assert (f ∈ filas_de n U) as Hin.
  { apply last_Some in Hl as [l' ->]. apply elem_of_app. right. left. }
  unfold filas_de in Hin. apply list_elem_of_filter in Hin. tauto.
Qed.

(** What is learnt from the usable rows: under each vendor name, the last
    row that carries it. *)
Lemma aprender_locales_lookup (U : list fila) (n : texto) :
  aprender_locales datos U !! n = datos <$> last (filas_de n U).
Proof.
  unfold aprender_locales. rewrite bucle_locales_lookup.
  destruct (last (filas_de n U)) as [f|] eqn:Hl.
  - destruct (decide (n ∈ unique (omap col_Nombre_Local U))) as [_|Hn]; [reflexivity|].
    exfalso. apply Hn. apply unique_elem. eapply filas_de_elem_nombre. exact Hl.
  - destruct (decide _); reflexivity.
Qed.

End Aprender.

Lemma filas_de_con_nombre (n : texto) (df : list fila) :
  filas_de n (filter con_nombre df) = filas_de n df.
Proof.
  unfold filas_de, con_nombre. induction df as [|f df IH]; [reflexivity|].
  destruct (decide (is_Some (col_Nombre_Local f))) as [Hs|Hs].
  - rewrite (filter_cons_True (fun f => is_Some (col_Nombre_Local f)) f df Hs).
    destruct (decide (col_Nombre_Local f = Some n)) as [He|He].
    + rewrite !(filter_cons_True (fun f => col_Nombre_Local f = Some n) f _ He), IH.
      reflexivity.
    + rewrite !(filter_cons_False (fun f => col_Nombre_Local f = Some n) f _ He), IH.
      reflexivity.
  - rewrite (filter_cons_False (fun f => is_Some (col_Nombre_Local f)) f df Hs), IH.
    rewrite (filter_cons_False (fun f => col_Nombre_Local f = Some n) f df); [reflexivity|].
    intros He. apply Hs. rewrite He. eexists; reflexivity.
Qed.

(** The dictionary of ocr.py holds, under each vendor name, the last row
    that carries it. *)
Lemma diccionario_lookup (df : list fila) (n : texto) :
  obtener_diccionario_locales df !! n = datos_de <$> last (filas_de n df).
Proof.
  unfold obtener_diccionario_locales.
  rewrite aprender_locales_lookup, filas_de_con_nombre. reflexivity.
Qed.

(** The dictionary of procesador.py holds the last row that carries the
    name and has an address: a later row without address does not count. *)
Lemma diccionario_dir_lookup (df : list fila) (n : texto) :
  obtener_diccionario_locales_dir df !! n
  = datos_dir_de <$> last (filas_de n (filter con_nombre_y_direccion df)).
Proof. unfold obtener_diccionario_locales_dir. apply aprender_locales_lookup. Qed.

Lemma filas_de_ultima (n : texto) (antes despues : list fila) (f : fila) :
  col_Nombre_Local f = Some n ->
  Forall (fun g => col_Nombre_Local g <> Some n) despues ->
  last (filas_de n (antes ++ f :: despues)) = Some f.
Proof.
  intros Hf Hd. unfold filas_de.
  rewrite filter_app, (filter_cons_True (fun g => col_Nombre_Local g = Some n) f _ Hf).
  replace (filter (fun g => col_Nombre_Local g = Some n) despues) with (@nil fila).
  - apply last_snoc.
  - symmetry. induction Hd as [|g gs Hg _ IH]; [reflexivity|].
    rewrite (filter_cons_False (fun g => col_Nombre_Local g = Some n) g gs Hg). exact IH.
Qed.

Lemma filas_de_ninguna (n : texto) (df : list fila) :
  Forall (fun g => col_Nombre_Local g <> Some n) df -> filas_de n df = [].
Proof.
  intros Hd. unfold filas_de. induction Hd as [|g gs Hg _ IH]; [reflexivity|].
  rewrite (filter_cons_False (fun g => col_Nombre_Local g = Some n) g gs Hg). exact IH.
Qed.

(** C9: the lookup gives the business type, chain flag and postal code of
    the last row, in storage order, that carries the vendor name, whatever
    earlier rows say, and empty strings for a name that no row carries. *)
Theorem completar_datos_ultima_fila (nombre : texto) (df : list fila) :
  (forall antes f despues,
      df = antes ++ f :: despues ->
      col_Nombre_Local f = Some nombre ->
      Forall (fun g => col_Nombre_Local g <> Some nombre) despues ->
      completar_datos_local_desde_historico nombre df
      = DatosLocal (col_Tipo_Negocio f) (col_Cadena f) (col_CP_Local f))
  /\ (Forall (fun g => col_Nombre_Local g <> Some nombre) df ->
      completar_datos_local_desde_historico nombre df
      = DatosLocal (VTexto []) (VTexto []) (VTexto [])).
Proof.
  unfold completar_datos_local_desde_historico. rewrite diccionario_lookup. split.
  - intros antes f despues -> Hf Hd. rewrite (filas_de_ultima _ _ _ _ Hf Hd). reflexivity.
  - intros Hd. rewrite (filas_de_ninguna _ _ Hd). reflexivity.
Qed.

Lemma completar_datos_ultima_fila_witness :
  completar_datos_local_desde_historico (txt "Starbucks")
    ([Fila VNulo VNulo (Some (txt "Starbucks")) VNulo (VTexto (txt "Cafeteria"))
           (VTexto (txt "Si")) (VTexto (txt "1425"))]
     ++ Fila VNulo VNulo (Some (txt "Starbucks")) VNulo (VTexto (txt "Restaurante"))
             (VTexto (txt "No")) (VTexto (txt "1414"))
     :: [Fila VNulo VNulo (Some (txt "Kiosco")) VNulo (VTexto (txt "Kiosco"))
              (VTexto (txt "No")) (VTexto (txt "1000"))])
  = DatosLocal (VTexto (txt "Restaurante")) (VTexto (txt "No")) (VTexto (txt "1414"))
  /\ completar_datos_local_desde_historico (txt "Havanna")
       [Fila VNulo VNulo (Some (txt "Kiosco")) VNulo (VTexto (txt "Kiosco"))
             (VTexto (txt "No")) (VTexto (txt "1000"))]
     = DatosLocal (VTexto []) (VTexto []) (VTexto []).
Proof.
  split.
  - refine (proj1 (completar_datos_ultima_fila (txt "Starbucks") _)
      [Fila VNulo VNulo (Some (txt "Starbucks")) VNulo (VTexto (txt "Cafeteria"))
            (VTexto (txt "Si")) (VTexto (txt "1425"))]
      (Fila VNulo VNulo (Some (txt "Starbucks")) VNulo (VTexto (txt "Restaurante"))
            (VTexto (txt "No")) (VTexto (txt "1414")))
      [Fila VNulo VNulo (Some (txt "Kiosco")) VNulo (VTexto (txt "Kiosco"))
            (VTexto (txt "No")) (VTexto (txt "1000"))] eq_refl eq_refl _).
    constructor; [|constructor]. vm_compute. discriminate.
  - apply (proj2 (completar_datos_ultima_fila (txt "Havanna") _)).
    constructor; [|constructor]. vm_compute. discriminate.
Defined.

(** ** Signatures *)

Lemma es_vacio_false (s : texto) : es_vacio s = false <-> s <> [].
Proof. destruct s; simpl; split; congruence. Qed.

Lemma paso_firmas_elem (env : entorno) (firmas : gset texto) (r : fila) (s : texto) :
  s ∈ paso_firmas env firmas r <-> s ∈ firmas \/ firma_de_fila env r s.
Proof.
  unfold paso_firmas, firma_de_fila.
  destruct (es_vacio (normalizar_para_comparar env (col_Hora_Aceptacion r))) eqn:Ea;
    destruct (es_vacio (normalizar_para_comparar env (col_Hora_Entrega r))) eqn:Ee;
    simpl; rewrite ?elem_of_union, ?elem_of_singleton;
    try apply es_vacio_false in Ea; try apply es_vacio_false in Ee;
    try (destruct (normalizar_para_comparar env (col_Hora_Aceptacion r)); [|discriminate]);
    try (destruct (normalizar_para_comparar env (col_Hora_Entrega r)); [|discriminate]);
    tauto.
Qed.

Lemma bucle_firmas_elem (env : entorno) (df : list fila) :
  forall (firmas : gset texto) (s : texto),
    s ∈ foldl (paso_firmas env) firmas df
    <-> s ∈ firmas \/ exists r, r ∈ df /\ firma_de_fila env r s.
Proof.
  induction df as [|r df IH]; intros firmas s; simpl.
  - split; [tauto|]. intros [H|(r & Hr & _)]; [exact H|inversion Hr].
  - rewrite IH, paso_firmas_elem. split.
    + intros [[H|H]|(r' & Hr & H)]; [tauto| |].
      * right. exists r. split; [left|exact H].
      * right. exists r'. split; [right; exact Hr|exact H].
    + intros [H|(r' & Hr & H)]; [tauto|].
      apply elem_of_cons in Hr as [->|Hr]; [tauto|].
      right. exists r'. tauto.
Qed.

(** The signatures of a table are those of its rows whose two normalised
    timestamps are not empty. *)
Lemma firmas_existentes_elem (env : entorno) (df : list fila) (s : texto) :
  s ∈ obtener_firmas_existentes env df <-> exists r, r ∈ df /\ firma_de_fila env r s.
Proof.
  unfold obtener_firmas_existentes. rewrite bucle_firmas_elem. split.
  - intros [H|H]; [|exact H]. exfalso. revert H. apply not_elem_of_empty.
  - intros H. right. exact H.
Qed.

Lemma firma_sin_aceptacion (he ha' he' : texto) :
  firma [] he = firma ha' he' -> ha' <> [] -> head ha' = Some "_"%char.
Proof.
  unfold firma. destruct ha' as [|c ha']; [congruence|]. simpl.
  intros H _. inversion H. reflexivity.
Qed.

Lemma firma_sin_entrega (ha ha' he' : texto) :
  firma ha [] = firma ha' he' -> he' <> [] -> last he' = Some "_"%char.
Proof.
  unfold firma. intros H Hne.
  destruct (exists_last Hne) as (q & c & ->).
  change (txt "_" ++ []) with ["_"%char] in H.
  change (txt "_" ++ q ++ [c]) with (("_"%char :: q) ++ [c]) in H.
  rewrite app_assoc in H. apply app_inj_tail in H as [_ <-].
  apply last_snoc.
Qed.

(** C6, as stated, fails: a stored free-form timestamp that begins with an
    underscore gives a signature that an order without acceptance time
    also has. *)
Lemma firma_vacia_puede_coincidir :
  ~ (forall env df ha he,
        ha = [] \/ he = [] ->
        pedido_ya_existe ha he (obtener_firmas_existentes env df) = false).
Proof.
  intros H.
  specialize (H (Entorno 2026 true)
                [Fila (VTexto (txt "_")) (VTexto (txt "x")) None VNulo VNulo VNulo VNulo]
                [] (txt "_x") (or_introl eq_refl)).
  vm_compute in H. discriminate.
Qed.

(** C6, amended: the signature set holds exactly the signatures
    [accept + "_" + delivery] of the rows whose two normalised timestamps
    are not empty; [pedido_ya_existe] is membership of the concatenation;
    the signature of 05/03/2024 23:50 and 06/03/2024 00:15 is found in the
    set that holds it and a timestamp one minute off is not; and an order
    with an empty acceptance or delivery is not found in the set of a
    table in which no normalised acceptance begins with an underscore and
    no normalised delivery ends with one. *)
Theorem firmas_y_duplicados (env : entorno) :
  (forall df s,
      s ∈ obtener_firmas_existentes env df <->
      exists r, r ∈ df
        /\ normalizar_para_comparar env (col_Hora_Aceptacion r) <> []
        /\ normalizar_para_comparar env (col_Hora_Entrega r) <> []
        /\ s = normalizar_para_comparar env (col_Hora_Aceptacion r) ++ txt "_"
               ++ normalizar_para_comparar env (col_Hora_Entrega r))
  /\ (forall ha he (firmas : gset texto),
      pedido_ya_existe ha he firmas = true <-> ha ++ txt "_" ++ he ∈ firmas)
  /\ pedido_ya_existe (txt "05/03/2024 23:50") (txt "06/03/2024 00:15")
       {[ txt "05/03/2024 23:50_06/03/2024 00:15" ]} = true
  /\ pedido_ya_existe (txt "05/03/2024 23:51") (txt "06/03/2024 00:15")
       {[ txt "05/03/2024 23:50_06/03/2024 00:15" ]} = false
  /\ pedido_ya_existe (txt "05/03/2024 23:49") (txt "06/03/2024 00:15")
       {[ txt "05/03/2024 23:50_06/03/2024 00:15" ]} = false
  /\ pedido_ya_existe (txt "05/03/2024 23:50") (txt "06/03/2024 00:16")
       {[ txt "05/03/2024 23:50_06/03/2024 00:15" ]} = false
  /\ pedido_ya_existe (txt "05/03/2024 23:50") (txt "06/03/2024 00:14")
       {[ txt "05/03/2024 23:50_06/03/2024 00:15" ]} = false
  /\ (forall df ha he,
      Forall (fun r =>
                head (normalizar_para_comparar env (col_Hora_Aceptacion r)) <> Some "_"%char
                /\ last (normalizar_para_comparar env (col_Hora_Entrega r)) <> Some "_"%char)
             df ->
      ha = [] \/ he = [] ->
      pedido_ya_existe ha he (obtener_firmas_existentes env df) = false).
Proof.
  split; [intros df s; apply firmas_existentes_elem|].
  split; [intros ha he firmas; unfold pedido_ya_existe, firma; apply bool_decide_eq_true|].
  repeat (split; [vm_compute; reflexivity|]).
  intros df ha he Hdf Hv. unfold pedido_ya_existe. apply bool_decide_eq_false.
  rewrite firmas_existentes_elem. intros (r & Hr & Ha & He & Hs).
  rewrite Forall_forall in Hdf. destruct (Hdf r Hr) as [Hh Hl].
  destruct Hv as [->| ->].
  - apply Hh. eapply firma_sin_aceptacion; eassumption.
  - apply Hl. eapply firma_sin_entrega; eassumption.
Qed.

Lemma firmas_y_duplicados_witness :
  pedido_ya_existe [] (txt "06/03/2024 00:15")
    (obtener_firmas_existentes (Entorno 2026 true)
       [Fila (VTexto (txt "05/03/2024 23:50")) (VTexto (txt "2024-03-06 00:15:00"))
             None VNulo VNulo VNulo VNulo]) = false.
Proof.
  apply (proj2 (proj2 (proj2 (proj2 (proj2 (proj2 (proj2
           (firmas_y_duplicados (Entorno 2026 true))))))))).
  - constructor; [|constructor]. vm_compute. split; discriminate.
  - left. reflexivity.
Defined.

(** ** Lines and dates that do not parse *)

Lemma strptime_solo_ValueError (s f : texto) (e : excepcion) :
  strptime s f = Lanza e -> e = ValueError.
Proof.
  unfold strptime. destruct (patron f); [|congruence].
  destruct (re_match r s); [|congruence].
  destruct (negb _); [congruence|].
  destruct (datetime_valido _); congruence.
Qed.

(** The loop stops at the first line on which the body raises. *)
Lemma bucle_pedidos_lanza cuerpo (pendientes : list texto) :
  forall i pedidos j linea e,
    pendientes !! j = Some linea ->
    cuerpo (i + j)%nat linea = Lanza e ->
    exists e', bucle_pedidos cuerpo i pendientes pedidos = Lanza e'.
Proof.
  induction pendientes as [|l resto IH]; intros i pedidos j linea e Hj Hc; [discriminate|].
  simpl. destruct j as [|j]; simpl in Hj.
  - inversion Hj; subst l. rewrite Nat.add_0_r in Hc. rewrite Hc. eauto.
  - replace (i + S j)%nat with (S i + j)%nat in Hc by lia.
    destruct (cuerpo i l) as [[q|]|e0]; eauto.
Qed.

Lemma fecha_ancla_contexto env lineas base :
  fecha_ancla env lineas = Some base ->
  exists fb ab dt,
    contexto_temporal lineas = (fb, ab) /\ falso fb = false
    /\ strptime (default [] fb ++ txt "/" ++ anio_o_actual env ab) FORMATO_FECHA = Ok dt
    /\ base = dt_fecha dt.
Proof.
  unfold fecha_ancla. destruct (contexto_temporal lineas) as [fb ab].
  destruct (falso fb) eqn:Hf; [discriminate|].
  destruct (strptime _ FORMATO_FECHA) as [dt|e] eqn:Hs; [|discriminate].
  intros H; inversion H. exists fb, ab, dt. auto.
Qed.

(** What the batch script does with a clock time that does not parse. *)
Lemma Procesador_salta_hora_invalida env lineas base i linea m :
  re_search regex_horas linea = Some m ->
  strptime (group 1 m) FORMATO_HORA = Lanza ValueError
  \/ strptime (group 2 m) FORMATO_HORA = Lanza ValueError ->
  Procesador.cuerpo env lineas base i linea = Ok None.
Proof.
  intros Hm H. unfold Procesador.cuerpo. rewrite Hm.
  destruct H as [H|H]; rewrite H; [reflexivity|].
  destruct (strptime (group 1 m) FORMATO_HORA) as [t|e] eqn:H1; [reflexivity|].
  rewrite (strptime_solo_ValueError _ _ _ H1). reflexivity.
Qed.

(** What ocr.py does with it. *)
Lemma Ocr_lanza_hora_invalida env lineas base i linea m :
  re_search regex_horas linea = Some m ->
  strptime (group 1 m) FORMATO_HORA = Lanza ValueError
  \/ strptime (group 2 m) FORMATO_HORA = Lanza ValueError ->
  Ocr.cuerpo env lineas base i linea = Lanza ValueError.
Proof.
  intros Hm H. unfold Ocr.cuerpo. rewrite Hm.
  destruct H as [H|H]; rewrite H; [reflexivity|].
  destruct (strptime (group 1 m) FORMATO_HORA) as [t|e] eqn:H1; [reflexivity|].
  rewrite (strptime_solo_ValueError _ _ _ H1). reflexivity.
Qed.

(** C1 (defect of ocr.py): on an image with a date anchor, a line that
    holds a time range one of whose clock times does not parse makes
    ocr.py raise, so that no order of the image is returned; the batch
    script skips that line and returns the orders of the other lines.  On
    the lines below, hour 25 makes ocr.py raise [ValueError] while the
    batch script returns the order of the last line. *)
Theorem hora_invalida_interrumpe_ocr :
  (forall env lineas base i linea m,
      fecha_ancla env lineas = Some base ->
      lineas !! i = Some linea ->
      re_search regex_horas linea = Some m ->
      strptime (group 1 m) FORMATO_HORA = Lanza ValueError
      \/ strptime (group 2 m) FORMATO_HORA = Lanza ValueError ->
      (exists e, Ocr.procesar_lineas env lineas = Lanza e)
      /\ Procesador.cuerpo env lineas base i linea = Ok None)
  /\ (forall env,
      let lineas := [ txt "vie, 5 de dic de 2025"; txt "Cafe Martinez"; txt "25:00 - 12:30";
                      txt "Completado"; txt "Havanna"; txt "12:00 - 12:30" ] in
      Ocr.procesar_lineas env lineas = Lanza ValueError
      /\ Procesador.procesar_lineas env lineas
         = Ok [Pedido (txt "05/12/2025 12:00") (txt "05/12/2025 12:30") (txt "Havanna")]).
Proof.
  split.
  - intros env lineas base i linea m Ha Hi Hm Hs. split.
    + destruct (fecha_ancla_contexto _ _ _ Ha) as (fb & ab & dt & Hc & Hf & Hd & ->).
      unfold Ocr.procesar_lineas. rewrite Hc, Hf, Hd.
      eapply bucle_pedidos_lanza; [exact Hi|].
      simpl. eapply Ocr_lanza_hora_invalida; eassumption.
    + eapply Procesador_salta_hora_invalida; eassumption.
  - intros [y []]; vm_compute; split; reflexivity.
Qed.

Lemma hora_invalida_interrumpe_ocr_witness :
  (exists e,
      Ocr.procesar_lineas (Entorno 2026 true)
        [ txt "vie, 5 de dic de 2025"; txt "Cafe Martinez"; txt "25:00 - 12:30";
          txt "Completado"; txt "Havanna"; txt "12:00 - 12:30" ] = Lanza e)
  /\ Procesador.cuerpo (Entorno 2026 true)
       [ txt "vie, 5 de dic de 2025"; txt "Cafe Martinez"; txt "25:00 - 12:30";
         txt "Completado"; txt "Havanna"; txt "12:00 - 12:30" ]
       (Fecha 2025 12 5) 2 (txt "25:00 - 12:30") = Ok None.
Proof.
  refine (proj1 hora_invalida_interrumpe_ocr (Entorno 2026 true) _ (Fecha 2025 12 5) 2%nat
            (txt "25:00 - 12:30")
            (Coincidencia 0 13 (txt "25:00 - 12:30") [(2%nat, txt "12:30"); (1%nat, txt "25:00")])
            _ _ _ _).
  - vm_compute. reflexivity.
  - reflexivity.
  - vm_compute. reflexivity.
  - left. vm_compute. reflexivity.
Defined.

(** C2 (defect of ocr.py): when the day, month and year of the anchor do
    not make a calendar date, ocr.py raises [ValueError] where the batch
    script returns no orders; so for the 31st of April. *)
Theorem fecha_invalida_interrumpe_ocr :
  (forall env lineas fb ab,
      contexto_temporal lineas = (fb, ab) ->
      falso fb = false ->
      strptime (default [] fb ++ txt "/" ++ anio_o_actual env ab) FORMATO_FECHA
      = Lanza ValueError ->
      Ocr.procesar_lineas env lineas = Lanza ValueError
      /\ Procesador.procesar_lineas env lineas = Ok [])
  /\ (forall env,
      let lineas := [ txt "mar, 31 de abr de 2024"; txt "Cafe Martinez";
                      txt "12:00 - 12:30" ] in
      contexto_temporal lineas = (Some (txt "31/04"), Some (txt "2024"))
      /\ Ocr.procesar_lineas env lineas = Lanza ValueError
      /\ Procesador.procesar_lineas env lineas = Ok []).
Proof.
  split.
  - intros env lineas fb ab Hc Hf Hs.
    unfold Ocr.procesar_lineas, Procesador.procesar_lineas. rewrite Hc, Hf, Hs.
    split; reflexivity.
  - intros [y []]; vm_compute; repeat split; reflexivity.
Qed.

Lemma fecha_invalida_interrumpe_ocr_witness :
  Ocr.procesar_lineas (Entorno 2026 true)
    [ txt "mar, 31 de abr de 2024"; txt "Cafe Martinez"; txt "12:00 - 12:30" ]
  = Lanza ValueError
  /\ Procesador.procesar_lineas (Entorno 2026 true)
       [ txt "mar, 31 de abr de 2024"; txt "Cafe Martinez"; txt "12:00 - 12:30" ] = Ok [].
Proof.
  refine (proj1 fecha_invalida_interrumpe_ocr (Entorno 2026 true) _
            (Some (txt "31/04")) (Some (txt "2024")) _ _ _).
  - vm_compute. reflexivity.
  - reflexivity.
  - vm_compute. reflexivity.
Defined.

(** ** Stripping blanks *)

Lemma lstrip_idem (s : texto) : lstrip (lstrip s) = lstrip s.
Proof.
  induction s as [|c s IH]; [reflexivity|]. simpl.
  destruct (es_espacio c) eqn:E; [exact IH|]. simpl. rewrite E. reflexivity.
Qed.

Lemma lstrip_cabeza (s : texto) (c : ascii) (r : texto) :
  lstrip s = c :: r -> es_espacio c = false.
Proof.
  induction s as [|x s IH]; [discriminate|]. simpl.
  destruct (es_espacio x) eqn:E; [exact IH|]. intros H; inversion H; subst. exact E.
Qed.

Lemma lstrip_fijo (c : ascii) (r : texto) :
  es_espacio c = false -> lstrip (c :: r) = c :: r.
Proof. intros H. simpl. rewrite H. reflexivity. Qed.

Lemma lstrip_snoc (s : texto) (c : ascii) :
  es_espacio c = false -> lstrip (s ++ [c]) = lstrip s ++ [c].
Proof.
  intros H. induction s as [|x s IH]; simpl; [rewrite H; reflexivity|].
  destruct (es_espacio x); [exact IH|reflexivity].
Qed.

Lemma rstrip_cons (c : ascii) (r : texto) :
  es_espacio c = false -> rstrip (c :: r) = c :: rstrip r.
Proof.
  intros H. unfold rstrip. simpl. rewrite (lstrip_snoc _ _ H), rev_app_distr. reflexivity.
Qed.

Lemma rstrip_idem (s : texto) : rstrip (rstrip s) = rstrip s.
Proof. unfold rstrip. rewrite rev_involutive, lstrip_idem. reflexivity. Qed.

Lemma rstrip_snoc_fijo (s : texto) (c : ascii) :
  es_espacio c = false -> rstrip (s ++ [c]) = s ++ [c].
Proof.
  intros H. unfold rstrip. rewrite rev_app_distr. simpl. rewrite H. simpl.
  rewrite rev_involutive. reflexivity.
Qed.

Lemma str_strip_idem (s : texto) : str_strip (str_strip s) = str_strip s.
Proof.
  unfold str_strip. destruct (lstrip s) as [|c r] eqn:E; [reflexivity|].
  pose proof (lstrip_cabeza _ _ _ E) as Hc.
  rewrite (rstrip_cons _ _ Hc), (lstrip_fijo _ _ Hc), (rstrip_cons _ _ Hc), rstrip_idem.
  reflexivity.
Qed.

(** A text that neither begins nor ends with a blank is its own strip. *)
Lemma str_strip_fijo (c : ascii) (r : texto) :
  es_espacio c = false ->
  (forall x, last (c :: r) = Some x -> es_espacio x = false) ->
  str_strip (c :: r) = c :: r.
Proof.
  intros Hc Hl. unfold str_strip. rewrite (lstrip_fijo _ _ Hc).
  destruct (exists_last (l := c :: r)) as (q & x & Hq); [discriminate|].
  rewrite Hq. apply rstrip_snoc_fijo. apply Hl. rewrite Hq. apply last_snoc.
Qed.

Lemma str_strip_cabeza (s : texto) (c : ascii) (r : texto) :
  str_strip s = c :: r -> es_espacio c = false.
Proof.
  unfold str_strip. destruct (lstrip s) as [|x t] eqn:E; [discriminate|].
  pose proof (lstrip_cabeza _ _ _ E) as Hx. rewrite (rstrip_cons _ _ Hx).
  intros H; inversion H; subst. exact Hx.
Qed.

Lemma rstrip_ultimo (s : texto) (x : ascii) :
  last (rstrip s) = Some x -> es_espacio x = false.
Proof.
  unfold rstrip. intros H.
  destruct (lstrip (rev s)) as [|c r] eqn:E; [discriminate|].
  simpl in H. rewrite last_snoc in H. inversion H; subst.
  eapply lstrip_cabeza; eassumption.
Qed.

Lemma str_strip_ultimo (s : texto) (x : ascii) :
  last (str_strip s) = Some x -> es_espacio x = false.
Proof. apply rstrip_ultimo. Qed.

(** ** Digits *)

Ltac enumerar v :=
  match goal with
  | H : ?a <= v <= ?b |- _ =>
      let t := eval compute in (a <=? b) in
      match t with
      | false => exfalso; lia
      | true =>
          let a' := eval compute in (a + 1) in
          let E := fresh "E" in
          assert (E : v = a \/ a' <= v <= b) by lia; clear H;
          destruct E as [->|H]; [ | enumerar v ]
      end
  end.

Lemma digito_es_digito (v : Z) : 0 <= v <= 9 -> es_digito (digito v) = true.
Proof. intros H. enumerar v; reflexivity. Qed.

Lemma digito_no_es_espacio (v : Z) : 0 <= v <= 9 -> es_espacio (digito v) = false.
Proof. intros H. enumerar v; reflexivity. Qed.

Lemma valor_digito_digito (v : Z) : 0 <= v <= 9 -> valor_digito (digito v) = v.
Proof. intros H. enumerar v; reflexivity. Qed.

Lemma es_digito_no_espacio (c : ascii) : es_digito c = true -> es_espacio c = false.
Proof. destruct c as [[] [] [] [] [] [] [] []]; vm_compute; congruence. Qed.

Lemma es_digito_distinto (c x : ascii) :
  es_digito c = true -> es_digito x = false -> Ascii.eqb c x = false.
Proof.
  intros Hc Hx. destruct (Ascii.eqb_spec c x) as [->|]; [congruence|reflexivity].
Qed.

Lemma a_entero_dos_digitos (v : Z) : 0 <= v <= 99 -> a_entero (dos_digitos v) = v.
Proof. intros H. enumerar v; vm_compute; reflexivity. Qed.

Lemma a_entero_digitos (ds : texto) :
  Forall (fun c => es_digito c = true) ds ->
  a_entero ds = fold_left (fun acc c => 10 * acc + valor_digito c) ds 0.
Proof.
  intros H. unfold a_entero. destruct ds as [|c r]; [reflexivity|].
  rewrite str_strip_fijo; [reflexivity| |].
  - apply es_digito_no_espacio. inversion H; assumption.
  - intros x Hx. apply es_digito_no_espacio.
    rewrite Forall_forall in H. apply H. apply last_Some in Hx as [l' ->].
    apply elem_of_app. right. left.
Qed.

Lemma a_entero_cuatro_digitos (y : Z) :
  0 <= y <= 9999 -> a_entero (cuatro_digitos y) = y.
Proof.
  intros H. unfold cuatro_digitos.
  assert (0 <= y / 1000 <= 9) as H1 by (Z.to_euclidean_division_equations; lia).
  assert (0 <= y / 100 mod 10 <= 9) as H2 by (Z.to_euclidean_division_equations; lia).
  assert (0 <= y / 10 mod 10 <= 9) as H3 by (Z.to_euclidean_division_equations; lia).
  assert (0 <= y mod 10 <= 9) as H4 by (Z.to_euclidean_division_equations; lia).
  rewrite a_entero_digitos
    by (repeat constructor; apply digito_es_digito; assumption).
  simpl. rewrite !valor_digito_digito by assumption.
  Z.to_euclidean_division_equations; lia.
Qed.

(** ** The fields of [strptime] on zero-padded text *)

Ltac calcular_digitos :=
  repeat match goal with
  | |- context [dos_digitos ?v] =>
      let t := eval vm_compute in (dos_digitos v) in change (dos_digitos v) with t
  end.

Ltac descartar_digito k Hk :=
  repeat match goal with
  | |- context [k ?st] => rewrite (Hk st _ _ eq_refl eq_refl)
  end.

Ltac campo_resuelto k Hk pos :=
  calcular_digitos;
  cbv -[Nat.add Nat.sub take];
  descartar_digito k Hk;
  replace (pos + 1 + 1 - pos)%nat with 2%nat by lia;
  replace (pos + 1 + 1)%nat with (pos + 2)%nat by lia;
  cbv [take];
  match goal with
  | |- match k ?st with _ => _ end = _ => destruct (k st); reflexivity
  | |- _ => reflexivity
  end.

Lemma casar_re_M {R} (k : estado -> option R) pos rest gs v :
  0 <= v <= 59 -> falla_en_digito k ->
  casar re_M (Estado pos (dos_digitos v ++ rest) gs) k
  = k (Estado (pos + 2) rest ((g_M, dos_digitos v) :: gs)).
Proof.
  intros H Hk. enumerar v; campo_resuelto k Hk pos.
Qed.

Lemma casar_re_d {R} (k : estado -> option R) pos rest gs v :
  1 <= v <= 31 -> falla_en_digito k ->
  casar re_d (Estado pos (dos_digitos v ++ rest) gs) k
  = k (Estado (pos + 2) rest ((g_d, dos_digitos v) :: gs)).
Proof.
  intros H Hk. enumerar v; campo_resuelto k Hk pos.
Qed.

Lemma casar_re_m {R} (k : estado -> option R) pos rest gs v :
  1 <= v <= 12 -> falla_en_digito k ->
  casar re_m (Estado pos (dos_digitos v ++ rest) gs) k
  = k (Estado (pos + 2) rest ((g_m, dos_digitos v) :: gs)).
Proof.
  intros H Hk. enumerar v; campo_resuelto k Hk pos.
Qed.

Lemma casar_re_H {R} (k : estado -> option R) pos rest gs v :
  0 <= v <= 23 -> falla_en_digito k ->
  casar re_H (Estado pos (dos_digitos v ++ rest) gs) k
  = k (Estado (pos + 2) rest ((g_H, dos_digitos v) :: gs)).
Proof.
  intros H Hk. enumerar v; campo_resuelto k Hk pos.
Qed.

(** The last field of a format: the first alternative that fits is taken
    when the rest of the match accepts it. *)
Lemma casar_re_M_exito {R} (k : estado -> option R) pos rest gs v x :
  0 <= v <= 59 ->
  k (Estado (pos + 2) rest ((g_M, dos_digitos v) :: gs)) = Some x ->
  casar re_M (Estado pos (dos_digitos v ++ rest) gs) k = Some x.
Proof.
  intros H. enumerar v; calcular_digitos; cbv -[Nat.add Nat.sub take];
    replace (pos + 1 + 1 - pos)%nat with 2%nat by lia;
    replace (pos + 1 + 1)%nat with (pos + 2)%nat by lia;
    cbv [take]; intros ->; reflexivity.
Qed.

Lemma casar_Seq {R} (r1 r2 : regex) (st : estado) (k : estado -> option R) :
  casar (Seq r1 r2) st k = casar r1 st (fun st' => casar r2 st' k).
Proof. reflexivity. Qed.

Lemma casar_Eps {R} (st : estado) (k : estado -> option R) : casar Eps st k = k st.
Proof. reflexivity. Qed.

Lemma casar_Lit {R} (k : estado -> option R) c pos rest gs :
  casar (Lit c) (Estado pos (c :: rest) gs) k = k (Estado (pos + 1) rest gs).
Proof. simpl. rewrite Ascii.eqb_refl. reflexivity. Qed.

Lemma casar_Lit_fin {R} (k : estado -> option R) c pos gs :
  casar (Lit c) (Estado pos [] gs) k = None.
Proof. reflexivity. Qed.

Lemma casar_re_Y {R} (k : estado -> option R) pos c1 c2 c3 c4 rest gs :
  es_digito c1 = true -> es_digito c2 = true ->
  es_digito c3 = true -> es_digito c4 = true ->
  casar re_Y (Estado pos (c1 :: c2 :: c3 :: c4 :: rest) gs) k
  = k (Estado (pos + 4) rest ((g_Y, [c1; c2; c3; c4]) :: gs)).
Proof.
  intros H1 H2 H3 H4.
  cbv -[es_digito Nat.add Nat.sub take]. rewrite H1, H2, H3, H4.
  replace (pos + 1 + 1 + 1 + 1 - pos)%nat with 4%nat by lia.
  replace (pos + 1 + 1 + 1 + 1)%nat with (pos + 4)%nat by lia.
  reflexivity.
Qed.

(** [\d\d\d\d] needs four digits. *)
Lemma casar_re_Y_falla {R} (k : estado -> option R) pos s gs (i : nat) :
  (i < 4)%nat ->
  match s !! i with Some c => es_digito c = false | None => True end ->
  casar re_Y (Estado pos s gs) k = None.
Proof.
  intros Hi Hs. cbv -[es_digito Nat.add Nat.sub take].
  destruct s as [|c1 [|c2 [|c3 [|c4 r]]]];
    destruct i as [|[|[|[|i]]]]; try lia; simpl in Hs;
    repeat match goal with
    | |- context [es_digito ?c] => destruct (es_digito c) eqn:?
    end; congruence.
Qed.

Lemma casar_blanco {R} (k : estado -> option R) pos b c rest gs :
  es_espacio b = true -> es_espacio c = false ->
  casar (Rep es_espacio 1 None) (Estado pos (b :: c :: rest) gs) k
  = k (Estado (pos + 1) (c :: rest) gs).
Proof.
  intros Hb Hc. simpl. rewrite Hb, Hc. simpl.
  unfold avanzar. simpl. destruct (k _); reflexivity.
Qed.

Lemma falla_Lit {R} (k : estado -> option R) (x : ascii) (r : regex) :
  es_digito x = false -> falla_en_digito (fun st => casar (Seq (Lit x) r) st k).
Proof.
  intros Hx st c t Hst Hc. simpl. rewrite Hst.
  rewrite (es_digito_distinto _ _ Hc Hx). reflexivity.
Qed.

Lemma falla_blanco {R} (k : estado -> option R) (r : regex) :
  falla_en_digito (fun st => casar (Seq (Rep es_espacio 1 None) r) st k).
Proof.
  intros st c t Hst Hc. simpl. rewrite Hst. simpl.
  rewrite (es_digito_no_espacio _ Hc). reflexivity.
Qed.

(** ** [strptime] on the text [strftime] writes *)

Lemma strftime_canonico (env : entorno) (dt : datetime) :
  strftime env dt FORMATO_CANONICO
  = dos_digitos (dia (dt_fecha dt)) ++ "/"%char
    :: dos_digitos (mes (dt_fecha dt)) ++ "/"%char
    :: texto_anio env (anio (dt_fecha dt)) ++ " "%char
    :: dos_digitos (hora (dt_reloj dt)) ++ ":"%char
    :: dos_digitos (minuto (dt_reloj dt)) ++ [].
Proof. reflexivity. Qed.

Lemma patron_3 :
  patron (txt "%d/%m/%Y %H:%M")
  = Some (sec [re_d; Lit "/"; re_m; Lit "/"; re_Y; Rep es_espacio 1 None;
               re_H; Lit ":"; re_M]).
Proof. reflexivity. Qed.

Lemma patron_1 :
  patron (txt "%d/%m/%Y %H:%M:%S")
  = Some (sec [re_d; Lit "/"; re_m; Lit "/"; re_Y; Rep es_espacio 1 None;
               re_H; Lit ":"; re_M; Lit ":"; re_S]).
Proof. reflexivity. Qed.

Lemma patron_2 :
  patron (txt "%Y-%m-%d %H:%M:%S")
  = Some (sec [re_Y; Lit "-"; re_m; Lit "-"; re_d; Rep es_espacio 1 None;
               re_H; Lit ":"; re_M; Lit ":"; re_S]).
Proof. reflexivity. Qed.

Lemma patron_4 :
  patron (txt "%Y-%m-%d %H:%M")
  = Some (sec [re_Y; Lit "-"; re_m; Lit "-"; re_d; Rep es_espacio 1 None;
               re_H; Lit ":"; re_M]).
Proof. reflexivity. Qed.

(** The day and the month, each followed by a slash. *)
Lemma casar_dia_mes {R} (k : estado -> option R) (cola : regex) d m resto :
  1 <= d <= 31 -> 1 <= m <= 12 ->
  casar (Seq re_d (Seq (Lit "/") (Seq re_m (Seq (Lit "/") cola))))
        (Estado 0 (dos_digitos d ++ "/"%char :: dos_digitos m ++ "/"%char :: resto) []) k
  = casar cola (Estado 6 resto [(g_m, dos_digitos m); (g_d, dos_digitos d)]) k.
Proof.
  intros Hd Hm.
  rewrite casar_Seq, casar_re_d by (try assumption; apply falla_Lit; reflexivity).
  rewrite casar_Seq, casar_Lit.
  rewrite casar_Seq, casar_re_m by (try assumption; apply falla_Lit; reflexivity).
  rewrite casar_Seq, casar_Lit. reflexivity.
Qed.

(** A four-digit year, blanks, the hour and a colon. *)
Lemma casar_anio_hora {R} (k : estado -> option R) (cola : regex)
    c1 c2 c3 c4 H resto pos gs :
  es_digito c1 = true -> es_digito c2 = true ->
  es_digito c3 = true -> es_digito c4 = true ->
  0 <= H <= 23 ->
  casar (Seq re_Y (Seq (Rep es_espacio 1 None) (Seq re_H (Seq (Lit ":") cola))))
        (Estado pos ([c1; c2; c3; c4] ++ " "%char :: dos_digitos H ++ ":"%char :: resto) gs) k
  = casar cola
      (Estado (pos + 8) resto ((g_H, dos_digitos H) :: (g_Y, [c1; c2; c3; c4]) :: gs)) k.
Proof.
  intros H1 H2 H3 H4 HH.
  assert (0 <= H / 10 <= 9) as Hq by (Z.to_euclidean_division_equations; lia).
  cbv [app]. rewrite casar_Seq, casar_re_Y by assumption.
  cbv [dos_digitos].
  rewrite casar_Seq, casar_blanco
    by (try reflexivity; apply digito_no_es_espacio; assumption).
  change (digito (H / 10) :: digito (H mod 10) :: ":"%char :: resto)
    with (dos_digitos H ++ ":"%char :: resto).
  rewrite casar_Seq, casar_re_H by (try assumption; apply falla_Lit; reflexivity).
  rewrite casar_Seq, casar_Lit.
  replace (pos + 4 + 1 + 2 + 1)%nat with (pos + 8)%nat by lia. reflexivity.
Qed.

Section Canonico.

Variables d m H M : Z.
Variables c1 c2 c3 c4 : ascii.
Hypothesis Hd : 1 <= d <= 31.
Hypothesis Hm : 1 <= m <= 12.
Hypothesis HH : 0 <= H <= 23.
Hypothesis HM : 0 <= M <= 59.
Hypothesis H1 : es_digito c1 = true.
Hypothesis H2 : es_digito c2 = true.
Hypothesis H3 : es_digito c3 = true.
Hypothesis H4 : es_digito c4 = true.

Let s : texto :=
  dos_digitos d ++ "/"%char :: dos_digitos m ++ "/"%char
  :: [c1; c2; c3; c4] ++ " "%char :: dos_digitos H ++ ":"%char :: dos_digitos M ++ [].

Lemma strptime_canonico_3 :
  strptime s (txt "%d/%m/%Y %H:%M")
  = let dt := Datetime (Fecha (a_entero [c1; c2; c3; c4]) m d) (Reloj H M 0) in
    if datetime_valido dt then Ok dt else Lanza ValueError.
Proof.
  unfold strptime. rewrite patron_3. unfold re_match, casar_en, s. cbv [sec foldr].
  rewrite casar_dia_mes by assumption.
  rewrite casar_anio_hora by assumption.
  rewrite casar_Seq.
  erewrite casar_re_M_exito; [|assumption|reflexivity].
  cbv [m_fin m_grupos e_pos e_grupos campo buscar_grupo g_Y g_m g_d g_H g_M g_S Nat.eqb].
  rewrite !a_entero_dos_digitos by lia.
  reflexivity.
Qed.

Lemma strptime_canonico_1 :
  strptime s (txt "%d/%m/%Y %H:%M:%S") = Lanza ValueError.
Proof.
  unfold strptime. rewrite patron_1. unfold re_match, casar_en, s. cbv [sec foldr].
  rewrite casar_dia_mes by assumption.
  rewrite casar_anio_hora by assumption.
  rewrite casar_Seq, casar_re_M by (try assumption; apply falla_Lit; reflexivity).
  reflexivity.
Qed.

Lemma strptime_canonico_2 :
  strptime s (txt "%Y-%m-%d %H:%M:%S") = Lanza ValueError.
Proof.
  unfold strptime. rewrite patron_2. unfold re_match, casar_en, s. cbv [sec foldr].
  rewrite casar_Seq, (casar_re_Y_falla _ _ _ _ 2); [reflexivity|lia|reflexivity].
Qed.

End Canonico.

(** ** The text of a year *)

Lemma decimal_desde_uno (n : nat) (v : Z) (acc : texto) :
  0 <= v < 10 -> decimal_desde (S n) v acc = digito v :: acc.
Proof.
  intros H. simpl. rewrite (Z.mod_small v 10), (Z.div_small v 10) by lia. reflexivity.
Qed.

Lemma decimal_desde_paso (n : nat) (v : Z) (acc : texto) :
  10 <= v -> decimal_desde (S n) v acc = decimal_desde n (v / 10) (digito (v mod 10) :: acc).
Proof.
  intros H. simpl.
  destruct (Z.eqb_spec (v / 10) 0) as [E|E]; [|reflexivity].
  exfalso. Z.to_euclidean_division_equations; lia.
Qed.

Lemma str_int_4 (y : Z) : 1000 <= y <= 9999 -> str_int y = cuatro_digitos y.
Proof.
  intros H. unfold str_int, cuatro_digitos.
  destruct (Z.ltb_spec y 0); [lia|].
  destruct (Z.to_nat y) as [|[|[|n]]] eqn:E; try lia.
  rewrite !decimal_desde_paso by (Z.to_euclidean_division_equations; lia).
  rewrite decimal_desde_uno by (Z.to_euclidean_division_equations; lia).
  replace (y / 10 / 10 / 10) with (y / 1000) by (Z.to_euclidean_division_equations; lia).
  replace (y / 10 / 10) with (y / 100) by (Z.to_euclidean_division_equations; lia).
  reflexivity.
Qed.

Lemma str_int_3 (y : Z) :
  100 <= y <= 999 -> str_int y = [digito (y / 100); digito (y / 10 mod 10); digito (y mod 10)].
Proof.
  intros H. unfold str_int.
  destruct (Z.ltb_spec y 0); [lia|].
  destruct (Z.to_nat y) as [|[|n]] eqn:E; try lia.
  rewrite !decimal_desde_paso by (Z.to_euclidean_division_equations; lia).
  rewrite decimal_desde_uno by (Z.to_euclidean_division_equations; lia).
  replace (y / 10 / 10) with (y / 100) by (Z.to_euclidean_division_equations; lia).
  reflexivity.
Qed.

Lemma str_int_2 (y : Z) :
  10 <= y <= 99 -> str_int y = [digito (y / 10); digito (y mod 10)].
Proof.
  intros H. unfold str_int.
  destruct (Z.ltb_spec y 0); [lia|].
  destruct (Z.to_nat y) as [|n] eqn:E; try lia.
  rewrite !decimal_desde_paso by (Z.to_euclidean_division_equations; lia).
  rewrite decimal_desde_uno by (Z.to_euclidean_division_equations; lia).
  reflexivity.
Qed.

Lemma str_int_1 (y : Z) : 0 <= y <= 9 -> str_int y = [digito y].
Proof.
  intros H. unfold str_int.
  destruct (Z.ltb_spec y 0); [lia|].
  rewrite decimal_desde_uno by lia. reflexivity.
Qed.

Lemma cuatro_digitos_son_digitos (y : Z) :
  0 <= y <= 9999 ->
  es_digito (digito (y / 1000)) = true /\ es_digito (digito (y / 100 mod 10)) = true
  /\ es_digito (digito (y / 10 mod 10)) = true /\ es_digito (digito (y mod 10)) = true.
Proof.
  intros H. repeat split; apply digito_es_digito;
    Z.to_euclidean_division_equations; lia.
Qed.

(** The text of a year is four digits, or fewer digits followed by
    nothing: a platform that does not pad writes the year 999 as 999. *)
Lemma texto_anio_casos (env : entorno) (y : Z) :
  1 <= y <= 9999 ->
  texto_anio env y = cuatro_digitos y
  \/ exists ds, texto_anio env y = ds /\ (length ds < 4)%nat
                /\ Forall (fun c => es_digito c = true) ds.
Proof.
  intros H. unfold texto_anio. destruct (anio_con_ceros env); [left; reflexivity|].
  destruct (Z_lt_le_dec y 10); [|destruct (Z_lt_le_dec y 100); [|destruct (Z_lt_le_dec y 1000)]].
  - right. eexists. rewrite str_int_1 by lia. split; [reflexivity|]. split; [simpl; lia|].
    repeat constructor. apply digito_es_digito. lia.
  - right. eexists. rewrite str_int_2 by lia. split; [reflexivity|]. split; [simpl; lia|].
    repeat constructor; apply digito_es_digito; Z.to_euclidean_division_equations; lia.
  - right. eexists. rewrite str_int_3 by lia. split; [reflexivity|]. split; [simpl; lia|].
    repeat constructor; apply digito_es_digito; Z.to_euclidean_division_equations; lia.
  - left. apply str_int_4. lia.
Qed.

(** ** Normalising a timestamp that is already normal *)

(** A text whose year has fewer than four digits matches no format. *)
Lemma strptime_anio_corto (d m : Z) (ds resto : texto) (f : texto) :
  1 <= d <= 31 -> 1 <= m <= 12 ->
  (length ds < 4)%nat ->
  In f formatos ->
  strptime (dos_digitos d ++ "/"%char :: dos_digitos m ++ "/"%char
            :: ds ++ " "%char :: resto) f
  = Lanza ValueError.
Proof.
  intros Hd Hm Hl Hf. unfold strptime.
  destruct Hf as [<-|[<-|[<-|[<-|[]]]]].
  - rewrite patron_1. unfold re_match, casar_en. cbv [sec foldr].
    rewrite casar_dia_mes by assumption.
    rewrite casar_Seq, (casar_re_Y_falla _ _ _ _ (length ds)); [reflexivity|exact Hl|].
    rewrite lookup_app_r, Nat.sub_diag by lia. reflexivity.
  - rewrite patron_2. unfold re_match, casar_en. cbv [sec foldr].
    rewrite casar_Seq, (casar_re_Y_falla _ _ _ _ 2); [reflexivity|lia|reflexivity].
  - rewrite patron_3. unfold re_match, casar_en. cbv [sec foldr].
    rewrite casar_dia_mes by assumption.
    rewrite casar_Seq, (casar_re_Y_falla _ _ _ _ (length ds)); [reflexivity|exact Hl|].
    rewrite lookup_app_r, Nat.sub_diag by lia. reflexivity.
  - rewrite patron_4. unfold re_match, casar_en. cbv [sec foldr].
    rewrite casar_Seq, (casar_re_Y_falla _ _ _ _ 2); [reflexivity|lia|reflexivity].
Qed.

Lemma datetime_valido_iff (dt : datetime) :
  datetime_valido dt = true <->
  (1 <= anio (dt_fecha dt) <= 9999 /\ 1 <= mes (dt_fecha dt) <= 12
   /\ 1 <= dia (dt_fecha dt) <= dias_del_mes (anio (dt_fecha dt)) (mes (dt_fecha dt)))
  /\ (0 <= hora (dt_reloj dt) <= 23 /\ 0 <= minuto (dt_reloj dt) <= 59
      /\ 0 <= segundo (dt_reloj dt) <= 59).
Proof.
  unfold datetime_valido. rewrite andb_true_iff, fecha_valida_iff, reloj_valido_iff.
  reflexivity.
Qed.

Lemma strftime_no_vacio_ni_blanco (env : entorno) (dt : datetime) :
  datetime_valido dt = true ->
  es_vacio (strftime env dt FORMATO_CANONICO) = false
  /\ str_strip (strftime env dt FORMATO_CANONICO) = strftime env dt FORMATO_CANONICO.
Proof.
  intros Hv. apply datetime_valido_iff in Hv. destruct Hv as ((Hy & Hm & Hd) & (HH & HM & HS)).
  pose proof (dias_del_mes_cota (anio (dt_fecha dt)) (mes (dt_fecha dt))) as Hc.
  rewrite strftime_canonico. cbv [dos_digitos]. simpl. split; [reflexivity|].
  apply str_strip_fijo.
  - apply digito_no_es_espacio. Z.to_euclidean_division_equations; lia.
  - intros x Hx.
    rewrite !last_cons, last_app in Hx. simpl in Hx.
    inversion Hx; subst x.
    apply digito_no_es_espacio. Z.to_euclidean_division_equations; lia.
Qed.

Lemma probar_formatos_falla (env : entorno) (t : texto) (fs : list texto) :
  (forall f, In f fs -> strptime t f = Lanza ValueError) ->
  probar_formatos env t fs = t.
Proof.
  induction fs as [|f fs IH]; intros H; [reflexivity|].
  simpl. rewrite (H f (or_introl eq_refl)). apply IH. intros g Hg. apply H. right. exact Hg.
Qed.

(** [strftime] writes what [normalizar_para_comparar] leaves as it is. *)
Lemma normalizar_strftime (env : entorno) (dt : datetime) :
  datetime_valido dt = true ->
  normalizar_para_comparar env (VTexto (strftime env dt FORMATO_CANONICO))
  = strftime env dt FORMATO_CANONICO.
Proof.
  intros Hv. destruct (strftime_no_vacio_ni_blanco env dt Hv) as [Hne Hst].
  unfold normalizar_para_comparar. rewrite Hne, Hst. clear Hne Hst.
  apply datetime_valido_iff in Hv. destruct Hv as ((Hy & Hm & Hd) & (HH & HM & HS)).
  pose proof (dias_del_mes_cota (anio (dt_fecha dt)) (mes (dt_fecha dt))) as Hc.
  destruct dt as [[y m d] [H M S]].
  cbn [anio mes dia hora minuto segundo dt_fecha dt_reloj] in *.
  destruct (texto_anio_casos env y Hy) as [Ht|(ds & Ht & Hl & Hds)].
  - destruct (cuatro_digitos_son_digitos y) as (D1 & D2 & D3 & D4); [lia|].
    unfold formatos, probar_formatos.
    rewrite !strftime_canonico.
    cbn [anio mes dia hora minuto segundo dt_fecha dt_reloj]. rewrite Ht.
    unfold cuatro_digitos.
    rewrite strptime_canonico_1, strptime_canonico_2, strptime_canonico_3
      by (try assumption; lia).
    change [digito (y / 1000); digito (y / 100 mod 10); digito (y / 10 mod 10);
            digito (y mod 10)] with (cuatro_digitos y).
    rewrite a_entero_cuatro_digitos by lia.
    cbv zeta.
    replace (datetime_valido (Datetime (Fecha y m d) (Reloj H M 0))) with true.
    + rewrite strftime_canonico.
      cbn [anio mes dia hora minuto segundo dt_fecha dt_reloj]. rewrite Ht. reflexivity.
    + symmetry. apply datetime_valido_iff.
      cbn [anio mes dia hora minuto segundo dt_fecha dt_reloj]. lia.
  - apply probar_formatos_falla. intros f Hf.
    rewrite strftime_canonico.
    cbn [anio mes dia hora minuto segundo dt_fecha dt_reloj]. rewrite Ht.
    apply strptime_anio_corto; try assumption; lia.
Qed.

(** ** Idempotence of the normalisation *)

Lemma probar_formatos_casos (env : entorno) (t : texto) (fs : list texto) :
  probar_formatos env t fs = t
  \/ exists dt, datetime_valido dt = true
                /\ probar_formatos env t fs = strftime env dt FORMATO_CANONICO.
Proof.
  induction fs as [|f fs IH]; [left; reflexivity|]. simpl.
  destruct (strptime t f) as [dt|e] eqn:E; [|exact IH].
  right. exists dt. split; [|reflexivity]. eapply strptime_valido; eassumption.
Qed.

Lemma probar_formatos_normal (env : entorno) (t : texto) :
  str_strip t = t ->
  normalizar_para_comparar env (VTexto (probar_formatos env t formatos))
  = probar_formatos env t formatos.
Proof.
  intros Ht. destruct (probar_formatos_casos env t formatos) as [E|(dt & Hv & E)].
  - rewrite E. unfold normalizar_para_comparar. rewrite Ht.
    destruct t; [reflexivity|]. simpl es_vacio. cbv iota. exact E.
  - rewrite E. apply normalizar_strftime. exact Hv.
Qed.

(** C7: normalising twice is normalising once, for a missing value, an
    empty or any other string, a date-time and any other value; a missing
    value and the empty string give the empty string, and a string that
    no format parses gives its stripped text. *)
Theorem normalizar_es_idempotente (env : entorno) :
  (forall v, valor_bien_formado v ->
     normalizar_para_comparar env (VTexto (normalizar_para_comparar env v))
     = normalizar_para_comparar env v)
  /\ normalizar_para_comparar env VNulo = []
  /\ normalizar_para_comparar env (VTexto []) = []
  /\ (forall s,
        (forall f, In f formatos -> strptime (str_strip s) f = Lanza ValueError) ->
        normalizar_para_comparar env (VTexto s) = str_strip s).
Proof.
  split; [|split; [reflexivity|split; [reflexivity|]]].
  - intros [|s|dt|s] Hv.
    + reflexivity.
    + destruct s as [|c s]; [reflexivity|].
      change (normalizar_para_comparar env (VTexto (c :: s)))
        with (probar_formatos env (str_strip (c :: s)) formatos).
      apply probar_formatos_normal. apply str_strip_idem.
    + apply normalizar_strftime. exact Hv.
    + change (normalizar_para_comparar env (VOtro s))
        with (probar_formatos env (str_strip s) formatos).
      apply probar_formatos_normal. apply str_strip_idem.
  - intros s H. unfold normalizar_para_comparar.
    destruct s as [|c s]; [reflexivity|]. simpl es_vacio. cbv iota.
    apply probar_formatos_falla. exact H.
Qed.

Lemma normalizar_es_idempotente_witness :
  normalizar_para_comparar (Entorno 2026 false)
    (VTexto (normalizar_para_comparar (Entorno 2026 false)
               (VFecha (Datetime (Fecha 999 3 5) (Reloj 23 50 7)))))
  = normalizar_para_comparar (Entorno 2026 false)
      (VFecha (Datetime (Fecha 999 3 5) (Reloj 23 50 7)))
  /\ normalizar_para_comparar (Entorno 2026 false) (VTexto (txt "  hola ")) = txt "hola".
Proof.
  split.
  - apply (proj1 (normalizar_es_idempotente (Entorno 2026 false))). reflexivity.
  - apply (proj2 (proj2 (proj2 (normalizar_es_idempotente (Entorno 2026 false))))
             (txt "  hola ")).
    intros f [<-|[<-|[<-|[<-|[]]]]]; vm_compute; reflexivity.
Defined.

(** ** The timestamps of an extracted order *)

Lemma horas_de_linea_validas (linea : texto) (h_ini h_fin : reloj) :
  horas_de_linea linea = Some (h_ini, h_fin) ->
  reloj_valido h_ini = true /\ reloj_valido h_fin = true.
Proof.
  unfold horas_de_linea. destruct (re_search regex_horas linea) as [m|]; [|discriminate].
  destruct (strptime (group 1 m) FORMATO_HORA) as [t1|] eqn:E1; [|discriminate].
  destruct (strptime (group 2 m) FORMATO_HORA) as [t2|] eqn:E2; [|discriminate].
  intros H; inversion H; subst.
  split; eapply strptime_reloj_valido; eassumption.
Qed.

(** The two timestamps of an extracted order are written by [strftime]
    from a date and a time of day. *)
Lemma pedido_bien_formado env lineas pedidos p :
  Ocr.procesar_lineas env lineas = Ok pedidos
  \/ Procesador.procesar_lineas env lineas = Ok pedidos ->
  p ∈ pedidos ->
  exists dt_acep dt_entr,
    datetime_valido dt_acep = true /\ datetime_valido dt_entr = true
    /\ Hora_Aceptacion p = strftime env dt_acep FORMATO_CANONICO
    /\ Hora_Entrega p = strftime env dt_entr FORMATO_CANONICO.
Proof.
  intros H Hp.
  destruct (procesar_pedido _ _ _ _ H Hp)
    as (base & i & l & h1 & h2 & t & Ha & Hv & Hl & Hh & Ht & HA & HE).
  destruct (horas_de_linea_validas _ _ _ Hh) as [Hv1 Hv2].
  destruct (tiempos_ok _ _ _ _ Hv Ht) as (E1 & E2 & _ & Hv' & _).
  exists t.1, t.2. repeat split; try assumption.
  - rewrite E1. unfold datetime_valido. simpl. rewrite Hv, Hv1. reflexivity.
  - unfold datetime_valido. rewrite Hv', E2, Hv2. reflexivity.
Qed.

Lemma digito_no_es_guion (c : ascii) : es_digito c = true -> c <> "_"%char.
Proof. intros H ->. discriminate. Qed.

Lemma dos_digitos_sin_guion (v : Z) :
  0 <= v <= 99 -> Forall (fun c => c <> "_"%char) (dos_digitos v).
Proof.
  intros H. unfold dos_digitos.
  repeat constructor; apply digito_no_es_guion, digito_es_digito;
    Z.to_euclidean_division_equations; lia.
Qed.

Lemma texto_anio_sin_guion (env : entorno) (y : Z) :
  1 <= y <= 9999 -> Forall (fun c => c <> "_"%char) (texto_anio env y).
Proof.
  intros H. destruct (texto_anio_casos env y H) as [->|(ds & -> & _ & Hd)].
  - destruct (cuatro_digitos_son_digitos y) as (D1 & D2 & D3 & D4); [lia|].
    unfold cuatro_digitos. repeat constructor; apply digito_no_es_guion; assumption.
  - eapply Forall_impl; [exact Hd|]. intros c Hc. apply digito_no_es_guion. exact Hc.
Qed.

Lemma strftime_sin_guion (env : entorno) (dt : datetime) :
  datetime_valido dt = true ->
  Forall (fun c => c <> "_"%char) (strftime env dt FORMATO_CANONICO).
Proof.
  intros Hv. apply datetime_valido_iff in Hv. destruct Hv as ((Hy & Hm & Hd) & (HH & HM & HS)).
  pose proof (dias_del_mes_cota (anio (dt_fecha dt)) (mes (dt_fecha dt))) as Hc.
  rewrite strftime_canonico.
  repeat first
    [ apply Forall_app; split
    | apply Forall_cons; split; [discriminate|]
    | apply Forall_nil
    | apply dos_digitos_sin_guion; lia
    | apply texto_anio_sin_guion; lia ].
  exact I.
Qed.

(** Without underscores in the two parts, a signature has one reading. *)
Lemma firma_inyectiva (ha he ha' he' : texto) :
  Forall (fun c => c <> "_"%char) ha -> Forall (fun c => c <> "_"%char) he ->
  firma ha he = firma ha' he' -> ha = ha' /\ he = he'.
Proof.
  unfold firma. intros Ha He. revert ha'.
  induction Ha as [|c ha Hc _ IH]; intros ha' H.
  - destruct ha' as [|c' ha']; simpl in H.
    + inversion H. auto.
    + inversion H; subst c'. exfalso.
      assert ("_"%char ∈ he) as Hin.
      { match goal with E : he = _ |- _ => rewrite E end.
        apply elem_of_app. right. left. }
      rewrite Forall_forall in He. exact (He _ Hin eq_refl).
  - destruct ha' as [|c' ha']; simpl in H.
    + inversion H. congruence.
    + inversion H; subst c'. destruct (IH ha') as [-> ->]; [assumption|]. auto.
Qed.

(** C10: the two timestamps of every extracted order are written by
    [strftime] with the canonical format from a valid date-time, so that
    the normalisation leaves each as it is; the signature of the raw texts
    is the signature of the normalised ones; and the membership test on
    the raw texts finds the order in the set of a table exactly when a row
    of the table normalises to these two timestamps. *)
Theorem firma_de_pedido_extraido env lineas pedidos p :
  Ocr.procesar_lineas env lineas = Ok pedidos
  \/ Procesador.procesar_lineas env lineas = Ok pedidos ->
  p ∈ pedidos ->
  (exists dt_acep dt_entr,
      datetime_valido dt_acep = true /\ datetime_valido dt_entr = true
      /\ Hora_Aceptacion p = strftime env dt_acep FORMATO_CANONICO
      /\ Hora_Entrega p = strftime env dt_entr FORMATO_CANONICO)
  /\ normalizar_para_comparar env (VTexto (Hora_Aceptacion p)) = Hora_Aceptacion p
  /\ normalizar_para_comparar env (VTexto (Hora_Entrega p)) = Hora_Entrega p
  /\ firma (normalizar_para_comparar env (VTexto (Hora_Aceptacion p)))
           (normalizar_para_comparar env (VTexto (Hora_Entrega p)))
     = firma (Hora_Aceptacion p) (Hora_Entrega p)
  /\ (forall df,
        pedido_ya_existe (Hora_Aceptacion p) (Hora_Entrega p)
          (obtener_firmas_existentes env df) = true
        <-> exists r, r ∈ df
              /\ normalizar_para_comparar env (col_Hora_Aceptacion r) = Hora_Aceptacion p
              /\ normalizar_para_comparar env (col_Hora_Entrega r) = Hora_Entrega p).
Proof.
  intros H Hp.
  destruct (pedido_bien_formado _ _ _ _ H Hp) as (da & de & Hva & Hve & Ea & Ee).
  assert (normalizar_para_comparar env (VTexto (Hora_Aceptacion p)) = Hora_Aceptacion p)
    as Na by (rewrite Ea; apply normalizar_strftime; exact Hva).
  assert (normalizar_para_comparar env (VTexto (Hora_Entrega p)) = Hora_Entrega p)
    as Ne by (rewrite Ee; apply normalizar_strftime; exact Hve).
  split; [exists da, de; auto|].
  split; [exact Na|]. split; [exact Ne|]. split; [rewrite Na, Ne; reflexivity|].
  intros df. unfold pedido_ya_existe. rewrite bool_decide_eq_true, firmas_existentes_elem.
  destruct (strftime_no_vacio_ni_blanco env da Hva) as [Nva _].
  destruct (strftime_no_vacio_ni_blanco env de Hve) as [Nve _].
  rewrite <- Ea in Nva. rewrite <- Ee in Nve.
  split.
  - intros (r & Hr & _ & _ & Hf).
    apply firma_inyectiva in Hf as [E1 E2].
    + exists r. auto.
    + rewrite Ea. apply strftime_sin_guion. exact Hva.
    + rewrite Ee. apply strftime_sin_guion. exact Hve.
  - intros (r & Hr & E1 & E2). exists r. split; [exact Hr|].
    unfold firma_de_fila. rewrite E1, E2. repeat split.
    + apply es_vacio_false. exact Nva.
    + apply es_vacio_false. exact Nve.
Qed.

Lemma firma_de_pedido_extraido_witness :
  normalizar_para_comparar (Entorno 2026 false) (VTexto (txt "05/03/2024 23:50"))
  = txt "05/03/2024 23:50"
  /\ normalizar_para_comparar (Entorno 2026 false) (VTexto (txt "06/03/2024 00:15"))
     = txt "06/03/2024 00:15".
Proof.
  pose proof (firma_de_pedido_extraido (Entorno 2026 false)
    [txt "mar, 5 de mar de 2024"; txt "Starbucks"; txt "23:50 - 00:15"]
    [Pedido (txt "05/03/2024 23:50") (txt "06/03/2024 00:15") (txt "Starbucks")]
    (Pedido (txt "05/03/2024 23:50") (txt "06/03/2024 00:15") (txt "Starbucks"))) as H.
  destruct H as (_ & Ha & He & _).
  - left. vm_compute. reflexivity.
  - apply list_elem_of_here.
  - split; [exact Ha|exact He].
Defined.

(** ** Removing a run of characters *)

Lemma retroceder_primero {R} (k : nat -> option R) (lo extra : nat) (x : R) :
  k (lo + extra)%nat = Some x -> retroceder k lo extra = Some x.
Proof. intros H. destruct extra; simpl; rewrite H; reflexivity. Qed.

Lemma retroceder_ninguno {R} (k : nat -> option R) (lo extra : nat) :
  (forall j, (lo <= j <= lo + extra)%nat -> k j = None) -> retroceder k lo extra = None.
Proof.
  induction extra as [|e IH]; intros H; simpl.
  - rewrite H by lia. reflexivity.
  - rewrite H by lia. apply IH. intros j Hj. apply H. lia.
Qed.

Lemma corrida_quitar (p : ascii -> bool) (s : texto) :
  drop (corrida p None s) s = quitar_inicio p s.
Proof.
  induction s as [|c s IH]; [reflexivity|]. simpl.
  destruct (p c); [exact IH|reflexivity].
Qed.

Lemma corrida_cota (p : ascii -> bool) (s : texto) : (corrida p None s <= length s)%nat.
Proof.
  induction s as [|c s IH]; simpl; [lia|]. destruct (p c); simpl; lia.
Qed.

Lemma corrida_todo (p : ascii -> bool) (s : texto) :
  corrida p None s = length s <-> forallb p s = true.
Proof.
  induction s as [|c s IH]; simpl; [tauto|].
  destruct (p c); simpl; [rewrite <- IH; lia|].
  split; [lia|discriminate].
Qed.

(** Inside the run, what follows is not the end of the text. *)
Lemma corrida_resto (p : ascii -> bool) (s : texto) (j : nat) :
  (j < corrida p None s)%nat ->
  exists c r, drop j s = c :: r /\ p c = true.
Proof.
  revert j. induction s as [|c s IH]; intros j Hj; simpl in Hj; [lia|].
  destruct (p c) eqn:E; [|lia].
  destruct j as [|j]; [exists c, s; auto|].
  simpl. apply IH. lia.
Qed.

Lemma quitar_inicio_todo (p : ascii -> bool) (s : texto) :
  forallb p s = true -> quitar_inicio p s = [].
Proof.
  induction s as [|c s IH]; [reflexivity|]. simpl.
  destruct (p c); [exact IH|discriminate].
Qed.

Lemma quitar_inicio_snoc (p : ascii -> bool) (s : texto) (c : ascii) :
  quitar_inicio p (s ++ [c])
  = if forallb p (s ++ [c]) then [] else quitar_inicio p s ++ [c].
Proof.
  induction s as [|x s IH]; simpl.
  - destruct (p c); reflexivity.
  - destruct (p x); simpl; [exact IH|].
    reflexivity.
Qed.

Lemma forallb_rev (p : ascii -> bool) (s : texto) : forallb p (rev s) = forallb p s.
Proof.
  induction s as [|c s IH]; [reflexivity|]. simpl.
  rewrite forallb_app, IH. simpl. rewrite andb_true_r. apply andb_comm.
Qed.

Lemma quitar_final_cons (p : ascii -> bool) (c : ascii) (s : texto) :
  quitar_final p (c :: s) = if forallb p (c :: s) then [] else c :: quitar_final p s.
Proof.
  unfold quitar_final. simpl rev. rewrite quitar_inicio_snoc.
  change (rev s ++ [c]) with (rev (c :: s)). rewrite forallb_rev.
  destruct (forallb p (c :: s)); [reflexivity|].
  rewrite rev_app_distr. reflexivity.
Qed.

Lemma quitar_inicio_elem (p : ascii -> bool) (s : texto) (x : ascii) :
  x ∈ quitar_inicio p s -> x ∈ s.
Proof.
  induction s as [|c s IH]; simpl; [tauto|].
  destruct (p c); [|tauto]. intros H. right. apply IH. exact H.
Qed.

(** ** The two substitutions that clean a name *)

Lemma re_sub_inicio_lejos (s : texto) :
  forall pos j, re_sub_desde regex_inicio_nombre (S pos) j s = drop j s.
Proof.
  induction s as [|c s IH]; intros pos j; [destruct j; reflexivity|].
  destruct j as [|j]; simpl.
  - rewrite IH. reflexivity.
  - apply IH.
Qed.

(** [re.sub(r'^[\W_]+', '', s)] removes the leading run of the class. *)
Lemma re_sub_inicio (s : texto) :
  re_sub_vacio regex_inicio_nombre s = quitar_inicio es_simbolo_inicial s.
Proof.
  unfold re_sub_vacio. destruct s as [|c s]; [reflexivity|].
  cbn [re_sub_desde]. unfold casar_en, regex_inicio_nombre. cbn [sec foldr casar e_pos Nat.eqb].
  cbn [e_resto corrida quitar_inicio].
  destruct (es_simbolo_inicial c) eqn:E.
  - cbn [Nat.ltb Nat.leb].
    erewrite retroceder_primero; [|reflexivity].
    cbn [m_fin avanzar e_pos Nat.add Nat.sub].
    replace (1 + (S (corrida es_simbolo_inicial None s) - 1) - 0)%nat
      with (S (corrida es_simbolo_inicial None s)) by lia.
    rewrite re_sub_inicio_lejos, Nat.sub_0_r. apply corrida_quitar.
  - cbn [Nat.ltb Nat.leb]. rewrite re_sub_inicio_lejos. reflexivity.
Qed.

Lemma casar_fin_de_texto {R} (k : estado -> option R) (st : estado) :
  casar (Seq Eol Eps) st k
  = match e_resto st with
    | [] => k st
    | [c] => if Ascii.eqb c salto then k st else None
    | _ => None
    end.
Proof. reflexivity. Qed.

Lemma casar_Rep {R} (k : estado -> option R) p lo hi (st : estado) :
  casar (Rep p lo hi) st k
  = if (corrida p hi (e_resto st) <? lo)%nat then None
    else retroceder (fun j => k (avanzar j st)) lo (corrida p hi (e_resto st) - lo).
Proof. reflexivity. Qed.

Lemma casar_final_todo (pos : nat) (u : texto) :
  u <> [] -> forallb es_basura_final u = true ->
  exists m, casar_en regex_final_nombre pos u = Some m /\ m_fin m = (pos + length u)%nat.
Proof.
  intros Hne Hall. apply corrida_todo in Hall.
  unfold casar_en, regex_final_nombre. cbn [sec foldr].
  rewrite casar_Seq, casar_Rep. cbn [e_resto]. rewrite Hall.
  destruct u as [|c u]; [congruence|]. cbn [length Nat.ltb Nat.leb].
  eexists. split.
  - apply retroceder_primero. rewrite casar_fin_de_texto.
    cbn [avanzar e_resto].
    replace (1 + (S (length u) - 1))%nat with (length (c :: u)) by (simpl; lia).
    rewrite drop_all. reflexivity.
  - cbn [m_fin avanzar e_pos length]. lia.
Qed.

Lemma casar_final_no (pos : nat) (u : texto) :
  salto ∉ u -> forallb es_basura_final u = false ->
  casar_en regex_final_nombre pos u = None.
Proof.
  intros Hs Hall.
  assert (corrida es_basura_final None u < length u)%nat as Hn.
  { pose proof (corrida_cota es_basura_final u) as Hc.
    destruct (Nat.eq_dec (corrida es_basura_final None u) (length u)) as [E|E]; [|lia].
    apply corrida_todo in E. congruence. }
  unfold casar_en, regex_final_nombre. cbn [sec foldr].
  rewrite casar_Seq, casar_Rep. cbn [e_resto].
  destruct (Nat.ltb_spec (corrida es_basura_final None u) 1) as [|H1]; [reflexivity|].
  apply retroceder_ninguno. intros j Hj. rewrite casar_fin_de_texto.
  cbn [avanzar e_resto].
  destruct (drop j u) as [|c [|c' r]] eqn:E; [| |reflexivity].
  - exfalso. apply (f_equal length) in E. rewrite length_drop in E. simpl in E. lia.
  - destruct (Ascii.eqb_spec c salto) as [->|]; [|reflexivity].
    exfalso. apply Hs. rewrite <- (take_drop j u), E. apply elem_of_app. right. left.
Qed.

Lemma re_sub_desde_salta_todo (r : regex) (s : texto) :
  forall pos, re_sub_desde r pos (length s) s = [].
Proof. induction s as [|c s IH]; intros pos; [reflexivity|]. simpl. apply IH. Qed.

(** [re.sub(r'[^\w\s\(\)]+$', '', s)] removes the trailing run of the
    class from a text without a line break. *)
Lemma re_sub_final (s : texto) :
  salto ∉ s ->
  forall pos, re_sub_desde regex_final_nombre pos 0 s = quitar_final es_basura_final s.
Proof.
  induction s as [|c s IH]; intros Hs pos; [reflexivity|].
  rewrite quitar_final_cons. cbn [re_sub_desde].
  destruct (forallb es_basura_final (c :: s)) eqn:Hall.
  - destruct (casar_final_todo pos (c :: s)) as (m & -> & Hm); [discriminate|exact Hall|].
    rewrite Hm. replace (pos + length (c :: s) - pos)%nat with (S (length s)) by (simpl; lia).
    apply re_sub_desde_salta_todo.
  - rewrite (casar_final_no pos (c :: s) Hs Hall). f_equal. apply IH.
    intros H. apply Hs. right. exact H.
Qed.

(** ** The name of an order *)

Lemma split_lineas_sin_salto (s : texto) (l : texto) :
  l ∈ split_lineas s -> salto ∉ l.
Proof.
  revert l. induction s as [|c s IH]; intros l Hl; simpl in Hl.
  - apply list_elem_of_singleton in Hl. subst l. apply not_elem_of_nil.
  - destruct (Ascii.eqb_spec c salto) as [->|Hc].
    + apply elem_of_cons in Hl as [->|Hl]; [apply not_elem_of_nil|apply IH; exact Hl].
    + destruct (split_lineas s) as [|l0 ls].
      * apply list_elem_of_singleton in Hl. subst l.
        intros H. apply list_elem_of_singleton in H. congruence.
      * apply elem_of_cons in Hl as [->|Hl].
        -- intros H. apply elem_of_cons in H as [H|H]; [congruence|].
           revert H. apply IH. left.
        -- apply IH. right. exact Hl.
Qed.

Lemma lstrip_elem (s : texto) (x : ascii) : x ∈ lstrip s -> x ∈ s.
Proof.
  induction s as [|c s IH]; simpl; [tauto|].
  destruct (es_espacio c); [|tauto]. intros H. right. apply IH. exact H.
Qed.

Lemma str_strip_elem (s : texto) (x : ascii) : x ∈ str_strip s -> x ∈ s.
Proof.
  unfold str_strip, rstrip. intros H.
  apply list_elem_of_In, in_rev, list_elem_of_In, lstrip_elem in H.
  apply list_elem_of_In, in_rev, list_elem_of_In in H.
  apply lstrip_elem. exact H.
Qed.

(** No line of an image holds a line break. *)
Lemma lineas_de_sin_salto (t : texto) (l : texto) : l ∈ lineas_de t -> salto ∉ l.
Proof.
  unfold lineas_de. intros H. apply list_elem_of_fmap in H as (l0 & -> & H).
  apply list_elem_of_filter in H as [_ H].
  intros Hs. apply str_strip_elem in Hs. exact (split_lineas_sin_salto t l0 H Hs).
Qed.

Lemma nth_sin_salto (lineas : list texto) (j : nat) :
  (forall l, l ∈ lineas -> salto ∉ l) -> salto ∉ nth j lineas [].
Proof.
  intros H. destruct (nth_in_or_default j lineas []) as [Hin| ->].
  - apply H. apply list_elem_of_In. exact Hin.
  - apply not_elem_of_nil.
Qed.

(** On lines without line breaks, the code builds the name the amended
    description gives. *)
Lemma reconstruir_nombre_descrito es_separador (lineas : list texto) (i : nat) :
  (forall l, l ∈ lineas -> salto ∉ l) ->
  reconstruir_nombre es_separador lineas i
  = nombre_descrito es_simbolo_inicial es_separador lineas i.
Proof.
  intros Hs. destruct i as [|i]; [vm_compute; reflexivity|].
  unfold reconstruir_nombre, nombre_descrito.
  change (0 <? S i)%nat with true. cbv iota.
  set (ens := if (1 <? S i)%nat && negb (es_separador (nth (S i - 2) lineas []))
              then nth (S i - 2) lineas [] ++ txt " " ++ nth (S i - 1) lineas []
              else nth (S i - 1) lineas []).
  assert (salto ∉ ens) as He.
  { subst ens. destruct (_ && _).
    - intros H. apply elem_of_app in H as [H|H]; [exact (nth_sin_salto _ _ Hs H)|].
      apply elem_of_cons in H as [H|H]; [discriminate|].
      exact (nth_sin_salto _ _ Hs H).
    - apply nth_sin_salto; exact Hs. }
  rewrite re_sub_inicio. unfold re_sub_vacio. rewrite re_sub_final; [reflexivity|].
  intros H. apply He. eapply quitar_inicio_elem. exact H.
Qed.

(** C5, as stated, fails: the code also strips underscores, which are word
    characters, from the start of a name. *)
Lemma nombre_pierde_guion_inicial :
  ~ (forall es_separador lineas i,
        reconstruir_nombre es_separador lineas i
        = nombre_descrito no_es_palabra es_separador lineas i).
Proof.
  intros H.
  specialize (H Ocr.es_separador [txt "_Kiosco 24"; txt "12:00 - 12:30"] 1%nat).
  vm_compute in H. discriminate.
Qed.

Lemma horas_de_linea_hay (linea : texto) (h : reloj * reloj) :
  horas_de_linea linea = Some h -> hay (re_search regex_horas linea) = true.
Proof.
  unfold horas_de_linea. destruct (re_search regex_horas linea); [reflexivity|discriminate].
Qed.

(** C5, amended: the name of the order on line [i] is the literal
    Desconocido when [i] is 0; otherwise line [i-1], with line [i-2] and a
    space in front when that line exists and is not a separator; from this
    the leading run of characters that are not word characters or are
    underscores is stripped, then the trailing run of characters that are
    neither word characters, blanks nor parentheses, and the result is
    trimmed.  This is the name of every order either extractor returns,
    and it gives El Local Bueno and Starbucks on the two examples. *)
Theorem nombre_reconstruido :
  (forall es_separador t i,
      reconstruir_nombre es_separador (lineas_de t) i
      = nombre_descrito es_simbolo_inicial es_separador (lineas_de t) i)
  /\ (forall env t pedidos p,
      Ocr.procesar_imagen_ocr env (Some t) = Ok pedidos -> p ∈ pedidos ->
      exists i linea,
        lineas_de t !! i = Some linea
        /\ hay (re_search regex_horas linea) = true
        /\ Nombre_Local p
           = nombre_descrito es_simbolo_inicial Ocr.es_separador (lineas_de t) i)
  /\ (forall env t pedidos p,
      Procesador.procesar_imagen_ocr env (Some t) = Ok pedidos -> p ∈ pedidos ->
      exists i linea,
        lineas_de t !! i = Some linea
        /\ hay (re_search regex_horas linea) = true
        /\ Nombre_Local p
           = nombre_descrito es_simbolo_inicial Procesador.es_separador (lineas_de t) i)
  /\ reconstruir_nombre Ocr.es_separador
       [txt "El Local"; txt "Bueno"; txt "12:00 - 12:30"] 2 = txt "El Local Bueno"
  /\ reconstruir_nombre Ocr.es_separador
       [txt "Completado"; txt "Starbucks"; txt "19:45 - 20:10"] 2 = txt "Starbucks"
  /\ reconstruir_nombre Procesador.es_separador
       [txt "El Local"; txt "Bueno"; txt "12:00 - 12:30"] 2 = txt "El Local Bueno"
  /\ reconstruir_nombre Procesador.es_separador
       [txt "Completado"; txt "Starbucks"; txt "19:45 - 20:10"] 2 = txt "Starbucks"
  /\ reconstruir_nombre Ocr.es_separador [txt "12:00 - 12:30"] 0 = txt "Desconocido".
Proof.
  split; [|split; [|split; [|repeat split; vm_compute; reflexivity]]].
  - intros es_separador t i. apply reconstruir_nombre_descrito.
    intros l Hl. eapply lineas_de_sin_salto. exact Hl.
  - intros env t pedidos p H Hp. simpl in H.
    destruct (Ocr_procesar_pedido _ _ _ _ H Hp) as (base & i & l & Ha & Hv & Hl & Hc).
    destruct (Ocr_cuerpo_pedido _ _ _ _ _ _ Hc) as (h1 & h2 & tt & Hh & Ht & ->).
    exists i, l. split; [exact Hl|]. split; [eapply horas_de_linea_hay; exact Hh|].
    simpl. apply reconstruir_nombre_descrito.
    intros l' Hl'. eapply lineas_de_sin_salto. exact Hl'.
  - intros env t pedidos p H Hp. simpl in H.
    destruct (Procesador_procesar_pedido _ _ _ _ H Hp) as (base & i & l & Ha & Hv & Hl & Hc).
    destruct (Procesador_cuerpo_pedido _ _ _ _ _ _ Hc) as (h1 & h2 & tt & Hh & Ht & ->).
    exists i, l. split; [exact Hl|]. split; [eapply horas_de_linea_hay; exact Hh|].
    simpl. apply reconstruir_nombre_descrito.
    intros l' Hl'. eapply lineas_de_sin_salto. exact Hl'.
Qed.

Lemma nombre_reconstruido_witness :
  exists i linea,
    lineas_de (txt "vie, 5 de dic de 2025" ++ [salto] ++ txt "_Kiosco 24!" ++ [salto]
               ++ txt "12:00 - 12:30") !! i = Some linea
    /\ hay (re_search regex_horas linea) = true
    /\ txt "Kiosco 24"
       = nombre_descrito es_simbolo_inicial Ocr.es_separador
           (lineas_de (txt "vie, 5 de dic de 2025" ++ [salto] ++ txt "_Kiosco 24!" ++ [salto]
                       ++ txt "12:00 - 12:30")) i.
Proof.
  apply (proj1 (proj2 nombre_reconstruido) (Entorno 2026 true)
           (txt "vie, 5 de dic de 2025" ++ [salto] ++ txt "_Kiosco 24!" ++ [salto]
            ++ txt "12:00 - 12:30")
           [Pedido (txt "05/12/2025 12:00") (txt "05/12/2025 12:30") (txt "Kiosco 24")]
           (Pedido (txt "05/12/2025 12:00") (txt "05/12/2025 12:30") (txt "Kiosco 24"))).
  - vm_compute. reflexivity.
  - apply list_elem_of_here.
Defined.

(** ** The line classifier *)

Lemma minuscula_espacio (c : ascii) : es_espacio (minuscula c) = es_espacio c.
Proof. destruct c as [[] [] [] [] [] [] [] []]; vm_compute; reflexivity. Qed.

Lemma minuscula_digito (c : ascii) : es_digito (minuscula c) = es_digito c.
Proof. destruct c as [[] [] [] [] [] [] [] []]; vm_compute; reflexivity. Qed.

Lemma minuscula_palabra (c : ascii) : es_palabra (minuscula c) = es_palabra c.
Proof. destruct c as [[] [] [] [] [] [] [] []]; vm_compute; reflexivity. Qed.

Lemma minuscula_coma (c : ascii) : Ascii.eqb (minuscula c) "," = Ascii.eqb c ",".
Proof. destruct c as [[] [] [] [] [] [] [] []]; vm_compute; reflexivity. Qed.

Lemma minuscula_blanco (c : ascii) : Ascii.eqb (minuscula c) " " = Ascii.eqb c " ".
Proof. destruct c as [[] [] [] [] [] [] [] []]; vm_compute; reflexivity. Qed.

Lemma lstrip_lower (s : texto) : lstrip (str_lower s) = str_lower (lstrip s).
Proof.
  induction s as [|c s IH]; [reflexivity|]. simpl.
  rewrite minuscula_espacio. destruct (es_espacio c); [exact IH|reflexivity].
Qed.

Lemma str_strip_lower (s : texto) : str_strip (str_lower s) = str_lower (str_strip s).
Proof.
  unfold str_strip, rstrip. rewrite lstrip_lower. unfold str_lower at 1.
  rewrite <- map_rev. fold (str_lower (rev (lstrip s))).
  rewrite lstrip_lower. unfold str_lower. rewrite map_rev. reflexivity.
Qed.

Lemma todos_digitos_lower (t : texto) :
  forallb es_digito (str_lower t) = forallb es_digito t.
Proof.
  induction t as [|c t IH]; [reflexivity|]. simpl. rewrite minuscula_digito, IH. reflexivity.
Qed.

Lemma tiene_dos_digitos_lower (t : texto) :
  tiene_dos_digitos (str_lower t) = tiene_dos_digitos t.
Proof.
  induction t as [|a t IH]; [reflexivity|].
  destruct t as [|b t]; [reflexivity|].
  change (tiene_dos_digitos (str_lower (a :: b :: t)))
    with ((es_digito (minuscula a) && es_digito (minuscula b))
          || tiene_dos_digitos (str_lower (b :: t))).
  rewrite IH, !minuscula_digito. reflexivity.
Qed.

Lemma empieza_con_dia_lower (t : texto) :
  empieza_con_dia (str_lower t) = empieza_con_dia t.
Proof.
  destruct t as [|a [|b [|c [|x [|y [|d r]]]]]]; try reflexivity.
  unfold empieza_con_dia, str_lower. cbn [map].
  rewrite !minuscula_palabra, minuscula_coma, minuscula_blanco, minuscula_digito.
  reflexivity.
Qed.

Lemma corrida_cero (p : ascii -> bool) (s : texto) : corrida p (Some 0%nat) s = 0%nat.
Proof. destruct s; reflexivity. Qed.

Lemma casar_dos_digitos (pos : nat) (u : texto) :
  hay (casar_en regex_dos_digitos pos u)
  = match u with
    | a :: b :: _ => es_digito a && es_digito b
    | _ => false
    end.
Proof.
  unfold casar_en, regex_dos_digitos. cbn [sec foldr].
  rewrite casar_Seq, casar_Rep. cbn [e_resto].
  destruct u as [|a [|b r]]; cbn [corrida];
    repeat match goal with
    | |- context [es_digito ?c] => destruct (es_digito c)
    end; rewrite ?corrida_cero; reflexivity.
Qed.

(** [re.search(r"\d{2}", t)] finds two digits side by side. *)
Lemma buscar_dos_digitos (t : texto) :
  forall pos, hay (buscar_desde regex_dos_digitos pos t) = tiene_dos_digitos t.
Proof.
  induction t as [|a t IH]; intros pos.
  - reflexivity.
  - cbn [buscar_desde]. pose proof (casar_dos_digitos pos (a :: t)) as H.
    destruct (casar_en regex_dos_digitos pos (a :: t)) as [m|].
    + simpl in H. destruct t as [|b t]; [discriminate|].
      cbn [tiene_dos_digitos]. rewrite <- H. reflexivity.
    + rewrite IH. simpl in H. destruct t as [|b t]; [reflexivity|].
      cbn [tiene_dos_digitos]. rewrite <- H. reflexivity.
Qed.

Lemma casar_Bol_0 {R} (k : estado -> option R) (s : texto) gs :
  casar Bol (Estado 0 s gs) k = k (Estado 0 s gs).
Proof. reflexivity. Qed.

(** [re.match(r"^\d{7,}$", t)] on a text that does not end in a line
    break. *)
Lemma casar_id_largo (t : texto) :
  last t <> Some salto ->
  hay (re_match regex_id_largo t) = forallb es_digito t && (7 <=? length t)%nat.
Proof.
  intros Hl. unfold re_match, casar_en, regex_id_largo. cbn [sec foldr].
  rewrite casar_Seq, casar_Bol_0, casar_Seq, casar_Rep. cbn [e_resto].
  pose proof (corrida_cota es_digito t) as Hc.
  destruct (forallb es_digito t) eqn:Hall.
  - apply corrida_todo in Hall. rewrite Hall.
    destruct (Nat.ltb_spec (length t) 7) as [H7|H7].
    + destruct (Nat.leb_spec 7 (length t)); [lia|reflexivity].
    + destruct (Nat.leb_spec 7 (length t)); [|lia].
      erewrite retroceder_primero; [reflexivity|].
      rewrite casar_fin_de_texto. cbn [avanzar e_resto].
      replace (7 + (length t - 7))%nat with (length t) by lia.
      rewrite drop_all. reflexivity.
  - cbn [andb]. destruct (Nat.ltb_spec (corrida es_digito None t) 7) as [H7|H7]; [reflexivity|].
    assert (corrida es_digito None t < length t)%nat as Hn.
    { destruct (Nat.eq_dec (corrida es_digito None t) (length t)) as [E|E]; [|lia].
      apply corrida_todo in E. congruence. }
    rewrite retroceder_ninguno; [reflexivity|].
    intros j Hj. rewrite casar_fin_de_texto. cbn [avanzar e_resto].
    destruct (drop j t) as [|c [|c' r]] eqn:E; [| |reflexivity].
    + exfalso. apply (f_equal length) in E. rewrite length_drop in E. simpl in E. lia.
    + destruct (Ascii.eqb_spec c salto) as [->|]; [|reflexivity].
      exfalso. apply Hl. rewrite <- (take_drop j t), E. apply last_snoc.
Qed.

Lemma retroceder_0 {R} (k : nat -> option R) (lo : nat) : retroceder k lo 0 = k lo.
Proof. simpl. rewrite Nat.add_0_r. destruct (k lo); reflexivity. Qed.

Lemma casar_Lit_cons {R} (k : estado -> option R) c x pos s gs :
  casar (Lit c) (Estado pos (x :: s) gs) k
  = if Ascii.eqb x c then k (Estado (pos + 1) s gs) else None.
Proof. reflexivity. Qed.

(** [re.match(r"^\w{3}, \d+", t)] *)
Lemma casar_dia_abreviado (t : texto) :
  hay (re_match regex_dia_abreviado t) = empieza_con_dia t.
Proof.
  unfold re_match, casar_en, regex_dia_abreviado, empieza_con_dia. cbn [sec foldr].
  rewrite casar_Seq, casar_Bol_0, casar_Seq, casar_Rep. cbn [e_resto].
  destruct t as [|a [|b [|c [|x [|y [|d t]]]]]]; cbn [corrida];
    repeat match goal with
    | |- context [es_palabra ?c] => destruct (es_palabra c)
    end;
    rewrite ?corrida_cero; cbn [Nat.ltb Nat.leb Nat.sub andb]; try reflexivity;
    rewrite retroceder_0; unfold avanzar; cbn [e_resto e_pos e_grupos skipn];
    rewrite casar_Seq; try reflexivity;
    rewrite casar_Lit_cons; (destruct (Ascii.eqb x ","); [|reflexivity]);
    rewrite casar_Seq; try reflexivity;
    rewrite casar_Lit_cons; (destruct (Ascii.eqb y " "); [|reflexivity]);
    rewrite casar_Seq, casar_Rep; cbn [e_resto corrida andb]; try reflexivity.
  destruct (es_digito d); [|reflexivity].
  cbn [Nat.ltb Nat.leb]. erewrite retroceder_primero; reflexivity.
Qed.

Lemma str_strip_sin_salto_final (s : texto) : last (str_strip s) <> Some salto.
Proof. intros H. apply str_strip_ultimo in H. discriminate. Qed.

(** The three tests of the classifier that go through a regular
    expression, on the lower-cased trimmed line. *)
Lemma pruebas_del_clasificador (linea : texto) :
  let t := str_strip linea in
  let t' := str_strip (str_lower linea) in
  t' = str_lower t
  /\ hay (re_match regex_id_largo t') = forallb es_digito t && (7 <=? length t)%nat
  /\ hay (re_search regex_dos_digitos t') = tiene_dos_digitos t
  /\ hay (re_match regex_dia_abreviado t') = empieza_con_dia t.
Proof.
  intros t t'. assert (t' = str_lower t) as E by apply str_strip_lower.
  split; [exact E|]. split; [|split].
  - rewrite casar_id_largo by apply str_strip_sin_salto_final.
    rewrite E, todos_digitos_lower. unfold str_lower. rewrite length_map. reflexivity.
  - unfold re_search. rewrite buscar_dos_digitos, E. apply tiene_dos_digitos_lower.
  - rewrite casar_dia_abreviado, E. apply empieza_con_dia_lower.
Qed.

Lemma Ocr_es_separador_descrito (linea : texto) :
  Ocr.es_separador linea = separador_descrito str_lower linea.
Proof.
  destruct (pruebas_del_clasificador linea) as (E & H1 & H2 & H3).
  unfold Ocr.es_separador, separador_descrito. cbv zeta.
  rewrite H1, H2, H3, E.
  destruct (forallb es_digito (str_strip linea) && (7 <=? length (str_strip linea))%nat);
    [reflexivity|].
  destruct (existsb _ palabras_clave); [reflexivity|].
  destruct (contiene (txt "semana") _ && tiene_dos_digitos _); [reflexivity|].
  destruct (empieza_con_dia _); reflexivity.
Qed.

Lemma Procesador_es_separador_Ocr (linea : texto) :
  Procesador.es_separador linea = Ocr.es_separador linea.
Proof.
  unfold Procesador.es_separador, Ocr.es_separador, palabras_clave. cbv zeta.
  cbn [existsb].
  set (t := str_strip (str_lower linea)).
  destruct (hay (re_match regex_id_largo t)); [reflexivity|].
  destruct (contiene (txt "pedido agrupado") t); [reflexivity|].
  destruct (contiene (txt "completado") t); [reflexivity|].
  destruct (contiene (txt "cancelado") t); [reflexivity|].
  destruct (contiene (txt "ver detalles") t); [reflexivity|].
  destruct (contiene (txt "horas conectado") t);
    destruct (contiene (txt "promedio") t);
    destruct (contiene (txt "ars") t);
    destruct (contiene (txt "semana") t && hay (re_search regex_dos_digitos t));
    destruct (hay (re_match regex_dia_abreviado t)); reflexivity.
Qed.

(** C8, as stated, fails: the code looks for "semana" in the lower-cased
    line, so that a capital S does not hide it. *)
Lemma semana_con_mayuscula :
  ~ (forall linea, Ocr.es_separador linea = separador_descrito (fun t => t) linea).
Proof.
  intros H. specialize (H (txt "Semana 49")). vm_compute in H. discriminate.
Qed.

(** C8, amended: the classifier is a total function of the line alone,
    and it answers true exactly when the trimmed line is made of digits
    only and has seven or more of them, or holds, whatever the case of the
    letters, one of the seven keywords, or holds "semana", whatever the
    case of the letters, and two digits side by side, or begins with three
    word characters, a comma, a space and a digit; so do both copies of
    the classifier, and 1234567, vie, 5 and Pedido Agrupado are
    separators while Starbucks Palermo is not. *)
Theorem es_separador_caracterizado :
  (forall linea, Ocr.es_separador linea = separador_descrito str_lower linea)
  /\ (forall linea, Procesador.es_separador linea = separador_descrito str_lower linea)
  /\ Ocr.es_separador (txt "1234567") = true
  /\ Ocr.es_separador (txt "Starbucks Palermo") = false
  /\ Ocr.es_separador (txt "vie, 5") = true
  /\ Ocr.es_separador (txt "Pedido Agrupado") = true
  /\ Ocr.es_separador (txt "Semana 49") = true.
Proof.
  split; [exact Ocr_es_separador_descrito|].
  split; [intros linea; rewrite Procesador_es_separador_Ocr; apply Ocr_es_separador_descrito|].
  repeat split; vm_compute; reflexivity.
Qed.

(** ** What a match is made of *)

Lemma retroceder_algun {R} (k : nat -> option R) (lo extra : nat) (x : R) :
  retroceder k lo extra = Some x ->
  exists j, (lo <= j <= lo + extra)%nat /\ k j = Some x.
Proof.
  induction extra as [|e IH]; simpl.
  - destruct (k (lo + 0)%nat) eqn:E; [|discriminate].
    intros H; inversion H; subst. exists (lo + 0)%nat. split; [lia|exact E].
  - destruct (k (lo + S e)%nat) eqn:E.
    + intros H; inversion H; subst. exists (lo + S e)%nat. split; [lia|exact E].
    + intros H. destruct (IH H) as (j & Hj & Hk). exists j. split; [lia|exact Hk].
Qed.

Lemma corrida_prefijo (p : ascii -> bool) (hi : option nat) (s : texto) (j : nat) :
  (j <= corrida p hi s)%nat ->
  Forall (fun c => p c = true) (take j s) /\ length (take j s) = j
  /\ match hi with Some h => (j <= h)%nat | None => True end.
Proof.
  revert hi j. induction s as [|c s IH]; intros hi j Hj.
  - destruct hi as [[|h]|]; simpl in Hj; assert (j = 0)%nat as -> by lia;
      repeat split; try constructor; lia.
  - destruct j as [|j].
    { repeat split; [constructor|]. destruct hi; [lia|exact I]. }
    destruct hi as [[|h]|]; simpl in Hj; try lia.
    + destruct (p c) eqn:E; [|lia].
      destruct (IH (Some h) j) as (H1 & H2 & H3); [lia|].
      simpl. repeat split; [constructor; assumption|lia|simpl in H3; lia].
    + destruct (p c) eqn:E; [|lia].
      destruct (IH None j) as (H1 & H2 & _); [lia|].
      simpl. repeat split; [constructor; assumption|lia].
Qed.

(** A match that succeeds took a text of the pattern from the front of
    the input, captured its groups, and went on behind it. *)
Lemma casar_coincide {R} (r : regex) :
  forall (st : estado) (k : estado -> option R) (x : R),
    casar r st k = Some x ->
    exists w gs st',
      e_resto st = w ++ e_resto st'
      /\ e_pos st' = (e_pos st + length w)%nat
      /\ e_grupos st' = gs ++ e_grupos st
      /\ coincide r w gs
      /\ k st' = Some x.
Proof.
  induction r as [|c|c|p|p lo hi|r1 IH1 r2 IH2|r1 IH1 r2 IH2|n r IH| |];
    intros st k x H; simpl in H.
  - exists [], [], st. simpl. rewrite Nat.add_0_r. repeat split; auto.
  - destruct (e_resto st) as [|c' t] eqn:E; [discriminate|].
    destruct (Ascii.eqb_spec c' c) as [->|]; [|discriminate].
    exists [c], [], (avanzar 1 st). unfold avanzar in *. rewrite E in H |- *.
    simpl in *. repeat split; auto.
  - destruct (e_resto st) as [|c' t] eqn:E; [discriminate|].
    destruct (Ascii.eqb_spec (minuscula c') (minuscula c)) as [Hc|]; [|discriminate].
    exists [c'], [], (avanzar 1 st). unfold avanzar in *. rewrite E in H |- *.
    simpl in *. repeat split; eauto.
  - destruct (e_resto st) as [|c' t] eqn:E; [discriminate|].
    destruct (p c') eqn:Hp; [|discriminate].
    exists [c'], [], (avanzar 1 st). unfold avanzar in *. rewrite E in H |- *.
    simpl in *. repeat split; eauto.
  - destruct (Nat.ltb_spec (corrida p hi (e_resto st)) lo) as [|Hlo]; [discriminate|].
    apply retroceder_algun in H as (j & Hj & Hk).
    destruct (corrida_prefijo p hi (e_resto st) j) as (H1 & H2 & H3); [lia|].
    exists (take j (e_resto st)), [], (avanzar j st). unfold avanzar. simpl.
    rewrite take_drop, H2. repeat split; auto. lia.
  - apply IH1 in H as (w1 & gs1 & st1 & E1 & P1 & G1 & C1 & H).
    apply IH2 in H as (w2 & gs2 & st2 & E2 & P2 & G2 & C2 & H).
    exists (w1 ++ w2), (gs2 ++ gs1), st2.
    rewrite E1, E2, P2, P1, G2, G1, length_app, <- !app_assoc.
    repeat split; try lia; auto. exists w1, w2, gs1, gs2. auto.
  - destruct (casar r1 st k) eqn:E1.
    + inversion H; subst. apply IH1 in E1 as (w & gs & st' & ? & ? & ? & ? & ?).
      exists w, gs, st'. simpl. auto 10.
    + apply IH2 in H as (w & gs & st' & ? & ? & ? & ? & ?).
      exists w, gs, st'. simpl. auto 10.
  - apply IH in H as (w & gs & st' & E & P & G & C & H).
    assert (Hg : con_grupo n st st' = Estado (e_pos st') (e_resto st') ((n, w) :: e_grupos st')).
    { unfold con_grupo. rewrite P, E.
      replace (e_pos st + length w - e_pos st)%nat with (length w) by lia.
      rewrite take_app_length. reflexivity. }
    exists w, ((n, w) :: gs), (con_grupo n st st'). rewrite Hg in H |- *. simpl.
    rewrite G in H |- *. repeat split; auto. exists gs. auto.
  - destruct (e_pos st =? 0)%nat; [|discriminate].
    exists [], [], st. simpl. rewrite Nat.add_0_r. repeat split; auto.
  - exists [], [], st. simpl. rewrite Nat.add_0_r. repeat split; auto.
    destruct (e_resto st) as [|c [|c' t]]; try discriminate; [exact H|].
    destruct (Ascii.eqb c salto); [exact H|discriminate].
Qed.

Lemma casar_en_coincide (r : regex) (pos : nat) (s : texto) (m : coincidencia) :
  casar_en r pos s = Some m ->
  exists w post,
    s = w ++ post /\ coincide r w (m_grupos m)
    /\ m_ini m = pos /\ m_fin m = (pos + length w)%nat /\ m_cero m = w.
Proof.
  unfold casar_en. intros H.
  apply casar_coincide in H as (w & gs & st' & E & P & G & C & H).
  simpl in E, P, G. inversion H; subst m; simpl.
  exists w, (e_resto st'). rewrite G, app_nil_r, P. repeat split; auto.
  replace (pos + length w - pos)%nat with (length w) by lia.
  rewrite E. apply take_app_length.
Qed.

(** What [re.search] finds is a text of the pattern inside the line. *)
Lemma buscar_desde_coincide (r : regex) (s : texto) :
  forall pos m,
    buscar_desde r pos s = Some m ->
    exists pre w post,
      s = pre ++ w ++ post /\ coincide r w (m_grupos m) /\ m_cero m = w
      /\ m_ini m = (pos + length pre)%nat /\ m_fin m = (m_ini m + length w)%nat.
Proof.
  induction s as [|c s IH]; intros pos m H; simpl in H.
  - destruct (casar_en r pos []) eqn:E; [|discriminate]. inversion H; subst.
    apply casar_en_coincide in E as (w & post & Es & C & Hi & Hf & H0).
    exists [], w, post. simpl. rewrite Hi, Nat.add_0_r. auto.
  - destruct (casar_en r pos (c :: s)) eqn:E.
    + inversion H; subst.
      apply casar_en_coincide in E as (w & post & Es & C & Hi & Hf & H0).
      exists [], w, post. simpl. rewrite Hi, Nat.add_0_r. auto.
    + apply IH in H as (pre & w & post & Es & C & H0 & Hi & Hf).
      exists (c :: pre), w, post. simpl. rewrite Es. repeat split; auto. lia.
Qed.

Lemma re_search_coincide (r : regex) (s : texto) (m : coincidencia) :
  re_search r s = Some m ->
  exists pre w post,
    s = pre ++ w ++ post /\ coincide r w (m_grupos m) /\ m_cero m = w.
Proof.
  intros H. apply buscar_desde_coincide in H as (pre & w & post & ? & ? & ? & _).
  eauto 6.
Qed.

Lemma coincide_re_d (w : texto) (gs : list (nat * texto)) :
  coincide re_d w gs -> gs = [(g_d, w)] /\ (1 <= length w <= 2)%nat.
Proof.
  unfold re_d. cbn [coincide]. intros (gs' & -> & H).
  repeat match goal with
  | H : exists _, _ |- _ => destruct H
  | H : _ /\ _ |- _ => destruct H
  | H : _ \/ _ |- _ => destruct H
  end; subst; simpl; split; (reflexivity || lia).
Qed.

Lemma coincide_re_m (w : texto) (gs : list (nat * texto)) :
  coincide re_m w gs -> gs = [(g_m, w)] /\ (1 <= length w <= 2)%nat.
Proof.
  unfold re_m. cbn [coincide]. intros (gs' & -> & H).
  repeat match goal with
  | H : exists _, _ |- _ => destruct H
  | H : _ /\ _ |- _ => destruct H
  | H : _ \/ _ |- _ => destruct H
  end; subst; simpl; split; (reflexivity || lia).
Qed.

Lemma coincide_re_Y (w : texto) (gs : list (nat * texto)) :
  coincide re_Y w gs ->
  gs = [(g_Y, w)] /\ length w = 4%nat /\ Forall (fun c => es_digito c = true) w.
Proof.
  unfold re_Y. cbn [coincide]. intros (gs' & -> & H).
  repeat match goal with
  | H : exists _, _ |- _ => destruct H
  | H : _ /\ _ |- _ => destruct H
  end; subst; simpl. repeat split. repeat constructor; assumption.
Qed.

Lemma patron_fecha :
  patron FORMATO_FECHA = Some (sec [re_d; Lit "/"; re_m; Lit "/"; re_Y]).
Proof. reflexivity. Qed.

(** A text that parses as a date is a day, a month and four digits of
    year between slashes, and the year of the date is read from them. *)
Lemma strptime_fecha_partes (s : texto) (dt : datetime) :
  strptime s FORMATO_FECHA = Ok dt ->
  exists wd wm wY,
    s = wd ++ "/"%char :: wm ++ "/"%char :: wY
    /\ (1 <= length wd <= 2)%nat /\ (1 <= length wm <= 2)%nat
    /\ length wY = 4%nat /\ Forall (fun c => es_digito c = true) wY
    /\ anio (dt_fecha dt) = a_entero wY
    /\ mes (dt_fecha dt) = a_entero wm /\ dia (dt_fecha dt) = a_entero wd.
Proof.
  unfold strptime. rewrite patron_fecha. cbv [sec foldr].
  destruct (re_match _ s) as [m|] eqn:E; [|discriminate].
  destruct (Nat.eqb_spec (length s) (m_fin m)) as [Hl|]; [|discriminate]. simpl.
  match goal with |- (if datetime_valido ?d then _ else _) = _ -> _ =>
    destruct (datetime_valido d) end; [|discriminate].
  intros H; inversion H; subst dt; clear H. simpl.
  apply casar_en_coincide in E as (w & post & Es & C & _ & Hf & _).
  assert (post = []) as ->.
  { apply nil_length_inv. rewrite Es, length_app in Hl. lia. }
  rewrite app_nil_r in Es. subst w.
  unfold campo. destruct (m_grupos m) as [|g gs] eqn:Eg; cbn [coincide] in C.
  - destruct C as (w1 & w2 & gs1 & gs2 & _ & Eg1 & C1 & _).
    apply coincide_re_d in C1 as [-> _]. destruct gs2; discriminate.
  - destruct C as (wd & w2 & gs1 & gs2 & -> & Eg1 & Cd & (l1 & w3 & ? & gs3 & -> & -> & [-> ->]
        & (wm & w4 & gs4 & gs5 & -> & -> & Cm & (l2 & w5 & ? & gs6 & -> & -> & [-> ->]
        & (wY & w6 & gs7 & gs8 & -> & -> & CY & [-> ->]))))).
    apply coincide_re_d in Cd as [-> Hd]. apply coincide_re_m in Cm as [-> Hm].
    apply coincide_re_Y in CY as (-> & HY & HdY).
    simpl in Eg1. inversion Eg1; subst. simpl.
    exists wd, wm, wY. rewrite app_nil_r. repeat split; auto; lia.
Qed.

(** ** The date anchor *)

Ltac desarmar :=
  repeat match goal with
  | H : exists _, _ |- _ => destruct H
  | H : _ /\ _ |- _ => destruct H
  end; subst.

(** The day [regex_fecha] captures is one or two digits. *)
Lemma regex_fecha_dia (linea : texto) (m : coincidencia) :
  re_search regex_fecha linea = Some m ->
  Forall (fun c => es_digito c = true) (group 2 m)
  /\ (1 <= length (group 2 m) <= 2)%nat.
Proof.
  intros H. apply re_search_coincide in H as (pre & w & post & _ & C & _).
  unfold group. destruct (m_grupos m) as [|g gs];
    unfold regex_fecha in C; cbv [sec foldr] in C; cbn [coincide] in C; desarmar;
    try discriminate.
  match goal with H : _ :: _ = _ |- _ => simpl in H; inversion H; subst; clear H end.
  simpl. split; [assumption|lia].
Qed.

(** The year [regex_anio] finds is 20 and two digits. *)
Lemma regex_anio_texto (linea : texto) (m : coincidencia) :
  re_search regex_anio linea = Some m ->
  exists c d,
    Forall (fun x => es_digito x = true) [c; d] /\ group 0 m = ["2"; "0"; c; d]%char.
Proof.
  intros H. apply re_search_coincide in H as (pre & w & post & _ & C & H0).
  unfold group. rewrite H0.
  unfold regex_anio in C; cbv [sec foldr] in C; cbn [coincide] in C; desarmar.
  match goal with H : Forall _ ?l |- _ =>
    destruct l as [|c [|d [|e l']]]; simpl in *; try lia end.
  exists c, d. split; [assumption|reflexivity].
Qed.

Lemma zfill_2_digitos (w : texto) :
  Forall (fun c => es_digito c = true) w -> (1 <= length w <= 2)%nat ->
  exists a b, Forall (fun c => es_digito c = true) [a; b] /\ zfill 2 w = [a; b].
Proof.
  intros H Hl. destruct w as [|a [|b [|c w]]]; simpl in Hl; try lia.
  - inversion H; subst. exists "0"%char, a. split; [repeat constructor; assumption|].
    unfold zfill. rewrite !(es_digito_distinto a) by (assumption || reflexivity).
    reflexivity.
  - inversion H as [|? ? Ha Hb]; subst. exists a, b. split; [exact H|].
    unfold zfill. rewrite !(es_digito_distinto a) by (assumption || reflexivity).
    reflexivity.
Qed.

(** Every month of the table, and the default, is two digits. *)
Lemma mes_dos_digitos (k : texto) :
  exists c d,
    Forall (fun x => es_digito x = true) [c; d]
    /\ default (txt "01") (meses !! k) = [c; d].
Proof.
  destruct (meses !! k) as [v|] eqn:E; simpl.
  - unfold meses in E. apply elem_of_list_to_map_2 in E.
    repeat (apply elem_of_cons in E as [E|E];
            [inversion E; subst; eexists _, _; split; [|reflexivity];
             repeat constructor|]).
    inversion E.
  - eexists _, _. split; [|reflexivity]. repeat constructor.
Qed.

Lemma paso_contexto_formado (st : option texto * option texto) (linea : texto) :
  contexto_formado st -> contexto_formado (paso_contexto st linea).
Proof.
  intros [H1 H2]. unfold paso_contexto. split; cbn [fst snd].
  - destruct (falso st.1) eqn:Hf; [|exact H1].
    destruct (re_search regex_fecha linea) as [m|] eqn:E; [|exact H1].
    right. destruct (regex_fecha_dia _ _ E) as [Hd Hl].
    destruct (zfill_2_digitos _ Hd Hl) as (a & b & Hab & ->).
    destruct (mes_dos_digitos (take 3 (str_lower (group 3 m)))) as (c & d & Hcd & ->).
    exists a, b, c, d. split; [|reflexivity].
    inversion Hab as [|? ? Ha Hb']; inversion Hb' as [|? ? Hb _]; subst.
    inversion Hcd as [|? ? Hc Hd']; inversion Hd' as [|? ? Hd'' _]; subst.
    repeat constructor; assumption.
  - destruct (falso st.2) eqn:Hf; [|exact H2].
    destruct (re_search regex_anio linea) as [m|] eqn:E; [|exact H2].
    right. destruct (regex_anio_texto _ _ E) as (c & d & Hcd & ->).
    exists c, d. auto.
Qed.

Lemma contexto_temporal_formado (lineas : list texto) :
  contexto_formado (contexto_temporal lineas).
Proof.
  unfold contexto_temporal.
  assert (H : contexto_formado (None, None)) by (split; left; reflexivity).
  revert H. generalize (@None texto, @None texto).
  induction lineas as [|l ls IH]; intros st H; [exact H|].
  simpl. apply IH. apply paso_contexto_formado. exact H.
Qed.

Lemma decimal_desde_largo (n : nat) :
  forall v acc, (length acc <= length (decimal_desde n v acc))%nat.
Proof.
  induction n as [|n IH]; intros v acc; simpl; [lia|].
  destruct (v / 10 =? 0); [simpl; lia|].
  specialize (IH (v / 10) (digito (v mod 10) :: acc)). simpl in IH. lia.
Qed.

Lemma str_int_largo (y : Z) : 10000 <= y -> (5 <= length (str_int y))%nat.
Proof.
  intros H. unfold str_int. destruct (Z.ltb_spec y 0); [lia|].
  destruct (Z.to_nat y) as [|[|[|[|n]]]] eqn:E; try lia.
  rewrite !decimal_desde_paso by (Z.to_euclidean_division_equations; lia).
  match goal with |- (_ <= length (decimal_desde (S ?n) ?v ?acc))%nat =>
    pose proof (decimal_desde_largo n (v / 10) (digito (v mod 10) :: acc)) as Hl;
    cbn [decimal_desde]; destruct (v / 10 =? 0) end;
    simpl in Hl |- *; lia.
Qed.

(** The text of an integer is four digits only between 1000 and 9999. *)
Lemma str_int_cuatro (y : Z) :
  length (str_int y) = 4%nat -> Forall (fun c => es_digito c = true) (str_int y) ->
  1000 <= y <= 9999.
Proof.
  intros Hl Hd.
  destruct (Z_lt_le_dec y 0) as [Hn|Hn].
  { unfold str_int in Hd. destruct (Z.ltb_spec y 0); [|lia].
    inversion Hd as [|? ? Hc _]. vm_compute in Hc. discriminate. }
  destruct (Z_lt_le_dec y 10); [rewrite str_int_1 in Hl by lia; discriminate|].
  destruct (Z_lt_le_dec y 100); [rewrite str_int_2 in Hl by lia; discriminate|].
  destruct (Z_lt_le_dec y 1000); [rewrite str_int_3 in Hl by lia; discriminate|].
  destruct (Z_lt_le_dec y 10000); [lia|].
  pose proof (str_int_largo y). lia.
Qed.

Lemma a_entero_veinte (c d : ascii) :
  es_digito c = true -> es_digito d = true ->
  2000 <= a_entero ["2"; "0"; c; d]%char <= 2099.
Proof.
  intros Hc Hd. rewrite a_entero_digitos by (repeat constructor; assumption).
  cbv [fold_left].
  assert (forall x, es_digito x = true -> 0 <= valor_digito x <= 9) as Hv.
  { intros x Hx. destruct x as [[] [] [] [] [] [] [] []]; vm_compute in Hx;
      try discriminate; vm_compute; split; discriminate. }
  pose proof (Hv c Hc). pose proof (Hv d Hd).
  change (valor_digito "2") with 2. change (valor_digito "0") with 0. lia.
Qed.

(** The year an anchor carries is the one read from the lines, between
    2000 and 2099, or else the current one; it has four digits. *)
Lemma fecha_ancla_anio (env : entorno) (lineas : list texto) (base : fecha) :
  fecha_ancla env lineas = Some base ->
  1000 <= anio base <= 9999
  /\ match (contexto_temporal lineas).2 with
     | None => anio base = anio_actual env
     | Some ab => anio base = a_entero ab /\ 2000 <= anio base <= 2099
     end.
Proof.
  intros H. destruct (fecha_ancla_contexto _ _ _ H) as (fb & ab & dt & Hc & Hf & Hs & ->).
  pose proof (contexto_temporal_formado lineas) as [H1 H2]. rewrite Hc in H1, H2 |- *.
  cbn [fst snd] in H1, H2 |- *.
  destruct H1 as [->|(a & b & c & d & Hd & ->)]; [discriminate|].
  cbn [default] in Hs.
  apply strptime_fecha_partes in Hs as (wd & wm & wY & Es & Hld & Hlm & HlY & HY & -> & _ & _).
  inversion Hd as [|? ? Ha Hd1]; inversion Hd1 as [|? ? Hb Hd2];
    inversion Hd2 as [|? ? Hc' Hd3]; inversion Hd3 as [|? ? Hd' _]; subst.
  destruct wd as [|x1 [|x2 [|x3 wd]]]; simpl in Hld; try lia;
    simpl in Es; inversion Es; subst; clear Es;
    try (vm_compute in Hb; discriminate).
  destruct wm as [|z1 [|z2 [|z3 wm]]]; simpl in Hlm; try lia;
    match goal with H : _ :: _ :: _ = _ |- _ => simpl in H; inversion H; subst; clear H end;
    try (vm_compute in Hd'; discriminate).
  unfold anio_o_actual in *.
  destruct H2 as [->|(c0 & d0 & Hcd & ->)]; cbn [falso es_vacio default from_option id] in *.
  - pose proof (str_int_cuatro _ HlY HY) as Hy.
    rewrite str_int_4 by exact Hy. rewrite a_entero_cuatro_digitos by lia.
    split; [exact Hy|reflexivity].
  - inversion Hcd as [|? ? Hc0 Hr]; inversion Hr as [|? ? Hd0 _]; subst.
    pose proof (a_entero_veinte c0 d0 Hc0 Hd0). split; [lia|]. split; [reflexivity|lia].
Qed.

(** ** The timestamps an image gives *)

Lemma mas_un_dia_anio (f f' : fecha) : mas_un_dia f = Ok f' -> anio f <= anio f'.
Proof.
  unfold mas_un_dia.
  destruct (dia f <? dias_del_mes (anio f) (mes f)); [|destruct (mes f <? 12);
    [|destruct (anio f <? 9999); [|discriminate]]];
    intros H; inversion H; subst f'; simpl; lia.
Qed.

Lemma texto_anio_cuatro (env : entorno) (y : Z) :
  1000 <= y <= 9999 -> texto_anio env y = cuatro_digitos y.
Proof.
  intros H. unfold texto_anio. destruct (anio_con_ceros env); [reflexivity|].
  apply str_int_4. exact H.
Qed.

Lemma dos_digitos_son_digitos (v : Z) :
  0 <= v <= 99 -> Forall (fun c => es_digito c = true) (dos_digitos v).
Proof.
  intros H. unfold dos_digitos.
  repeat constructor; apply digito_es_digito; Z.to_euclidean_division_equations; lia.
Qed.

(** From the year 1000 on, [strftime] writes the canonical shape on every
    platform. *)
Lemma strftime_forma_canonica (env : entorno) (dt : datetime) :
  datetime_valido dt = true -> 1000 <= anio (dt_fecha dt) ->
  forma_canonica (strftime env dt FORMATO_CANONICO).
Proof.
  intros Hv Hy. apply datetime_valido_iff in Hv.
  destruct Hv as ((Hy' & Hm & Hd) & (HH & HM & HS)).
  pose proof (dias_del_mes_cota (anio (dt_fecha dt)) (mes (dt_fecha dt))) as Hc.
  rewrite strftime_canonico, texto_anio_cuatro by lia.
  unfold dos_digitos, cuatro_digitos, forma_canonica.
  do 12 eexists. split; [|simpl; reflexivity].
  repeat constructor; apply digito_es_digito; Z.to_euclidean_division_equations; lia.
Qed.

(** From the year 1000 on, what [strftime] writes in the canonical format
    parses back to the same date and time, the seconds apart. *)
Lemma strptime_strftime (env : entorno) (dt : datetime) :
  datetime_valido dt = true -> 1000 <= anio (dt_fecha dt) ->
  strptime (strftime env dt FORMATO_CANONICO) FORMATO_CANONICO
  = Ok (Datetime (dt_fecha dt) (Reloj (hora (dt_reloj dt)) (minuto (dt_reloj dt)) 0)).
Proof.
  intros Hv Hy. pose proof Hv as Hv0. apply datetime_valido_iff in Hv.
  destruct Hv as ((Hy' & Hm & Hd) & (HH & HM & HS)).
  pose proof (dias_del_mes_cota (anio (dt_fecha dt)) (mes (dt_fecha dt))) as Hc.
  rewrite strftime_canonico, texto_anio_cuatro by lia.
  destruct (cuatro_digitos_son_digitos (anio (dt_fecha dt))) as (Y1 & Y2 & Y3 & Y4); [lia|].
  unfold cuatro_digitos at 1.
  rewrite (strptime_canonico_3 (dia (dt_fecha dt)) (mes (dt_fecha dt))
             (hora (dt_reloj dt)) (minuto (dt_reloj dt))) by (assumption || lia).
  fold (cuatro_digitos (anio (dt_fecha dt))).
  rewrite a_entero_cuatro_digitos by lia. cbv zeta.
  destruct dt as [[y m d] [h n s]]; simpl in *.
  replace (datetime_valido _) with true; [reflexivity|].
  symmetry. apply datetime_valido_iff. simpl. lia.
Qed.

Lemma coincide_re_H (w : texto) (gs : list (nat * texto)) :
  coincide re_H w gs -> gs = [(g_H, w)].
Proof.
  unfold re_H. cbn [coincide]. intros (gs' & -> & H).
  repeat match goal with
  | H : exists _, _ |- _ => destruct H
  | H : _ /\ _ |- _ => destruct H
  | H : _ \/ _ |- _ => destruct H
  end; subst; reflexivity.
Qed.

Lemma coincide_re_M (w : texto) (gs : list (nat * texto)) :
  coincide re_M w gs -> gs = [(g_M, w)].
Proof.
  unfold re_M. cbn [coincide]. intros (gs' & -> & H).
  repeat match goal with
  | H : exists _, _ |- _ => destruct H
  | H : _ /\ _ |- _ => destruct H
  | H : _ \/ _ |- _ => destruct H
  end; subst; reflexivity.
Qed.

Lemma patron_hora : patron FORMATO_HORA = Some (sec [re_H; Lit ":"; re_M]).
Proof. reflexivity. Qed.

(** A clock time read with hours and minutes has no seconds. *)
Lemma strptime_hora_sin_segundos (s : texto) (dt : datetime) :
  strptime s FORMATO_HORA = Ok dt -> segundo (dt_reloj dt) = 0.
Proof.
  unfold strptime. rewrite patron_hora. cbv [sec foldr].
  destruct (re_match _ s) as [m|] eqn:E; [|discriminate].
  destruct (negb _); [discriminate|].
  match goal with |- (if datetime_valido ?d then _ else _) = _ -> _ =>
    destruct (datetime_valido d) end; [|discriminate].
  intros H; inversion H; subst dt; clear H. simpl.
  apply casar_en_coincide in E as (w & post & _ & C & _).
  unfold campo. generalize dependent (m_grupos m). intros gs C. cbn [coincide] in C.
  destruct C as (w1 & w2 & gs1 & gs2 & _ & -> & C1 & (l1 & w3 & ? & gs3 & _ & -> & [_ ->]
      & (w4 & w5 & gs4 & gs5 & _ & -> & C2 & [_ ->]))).
  apply coincide_re_H in C1 as ->. apply coincide_re_M in C2 as ->.
  reflexivity.
Qed.

Lemma horas_de_linea_sin_segundos (linea : texto) (h_ini h_fin : reloj) :
  horas_de_linea linea = Some (h_ini, h_fin) -> segundo h_ini = 0 /\ segundo h_fin = 0.
Proof.
  unfold horas_de_linea. destruct (re_search regex_horas linea) as [m|]; [|discriminate].
  destruct (strptime (group 1 m) FORMATO_HORA) as [t1|] eqn:E1; [|discriminate].
  destruct (strptime (group 2 m) FORMATO_HORA) as [t2|] eqn:E2; [|discriminate].
  intros H; inversion H; subst.
  split; eapply strptime_hora_sin_segundos; eassumption.
Qed.

(** The two date-times behind an extracted order: on or after the year
    1000, without seconds, the delivery not before the acceptance. *)
Lemma pedido_fechas env lineas pedidos p :
  Ocr.procesar_lineas env lineas = Ok pedidos
  \/ Procesador.procesar_lineas env lineas = Ok pedidos ->
  p ∈ pedidos ->
  exists base dt_acep dt_entr,
    fecha_ancla env lineas = Some base
    /\ dt_fecha dt_acep = base
    /\ datetime_valido dt_acep = true /\ datetime_valido dt_entr = true
    /\ 1000 <= anio (dt_fecha dt_acep) /\ 1000 <= anio (dt_fecha dt_entr)
    /\ segundo (dt_reloj dt_acep) = 0 /\ segundo (dt_reloj dt_entr) = 0
    /\ dt_leb dt_acep dt_entr = true
    /\ Hora_Aceptacion p = strftime env dt_acep FORMATO_CANONICO
    /\ Hora_Entrega p = strftime env dt_entr FORMATO_CANONICO.
Proof.
  intros H Hp.
  destruct (procesar_pedido _ _ _ _ H Hp)
    as (base & i & l & h1 & h2 & t & Ha & Hv & Hl & Hh & Ht & HA & HE).
  destruct (horas_de_linea_validas _ _ _ Hh) as [Hv1 Hv2].
  destruct (horas_de_linea_sin_segundos _ _ _ Hh) as [Hs1 Hs2].
  destruct (tiempos_ok _ _ _ _ Hv Ht) as (E1 & E2 & Hle & Hv' & Hd).
  destruct (fecha_ancla_anio _ _ _ Ha) as [Hy _].
  exists base, t.1, t.2.
  assert (anio base <= anio (dt_fecha t.2)) as Hy2.
  { destruct (reloj_ltb h2 h1).
    - destruct Hd as [Hd _]. apply mas_un_dia_anio in Hd. exact Hd.
    - rewrite Hd. lia. }
  split; [exact Ha|]. split; [rewrite E1; reflexivity|].
  split; [rewrite E1; unfold datetime_valido; simpl; rewrite Hv, Hv1; reflexivity|].
  split; [unfold datetime_valido; rewrite Hv', E2, Hv2; reflexivity|].
  split; [rewrite E1; simpl; lia|]. split; [lia|].
  split; [rewrite E1; exact Hs1|]. split; [rewrite E2; exact Hs2|].
  split; [exact Hle|]. split; assumption.
Qed.

Lemma Ocr_imagen_lineas env imagen pedidos p :
  Ocr.procesar_imagen_ocr env imagen = Ok pedidos -> p ∈ pedidos ->
  exists t, imagen = Some t /\ Ocr.procesar_lineas env (lineas_de t) = Ok pedidos.
Proof.
  destruct imagen as [t|]; simpl; [eauto|].
  intros H; inversion H; subst. intros Hp. inversion Hp.
Qed.

Lemma Procesador_imagen_lineas env imagen pedidos p :
  Procesador.procesar_imagen_ocr env imagen = Ok pedidos -> p ∈ pedidos ->
  exists t, imagen = Some t /\ Procesador.procesar_lineas env (lineas_de t) = Ok pedidos.
Proof.
  destruct imagen as [t|]; simpl; [eauto|].
  intros H; inversion H; subst. intros Hp. inversion Hp.
Qed.

Lemma imagen_lineas env imagen pedidos p :
  Ocr.procesar_imagen_ocr env imagen = Ok pedidos
  \/ Procesador.procesar_imagen_ocr env imagen = Ok pedidos ->
  p ∈ pedidos ->
  exists t, imagen = Some t
    /\ (Ocr.procesar_lineas env (lineas_de t) = Ok pedidos
        \/ Procesador.procesar_lineas env (lineas_de t) = Ok pedidos).
Proof.
  intros [H|H] Hp.
  - destruct (Ocr_imagen_lineas _ _ _ _ H Hp) as (t & -> & Hl). eauto.
  - destruct (Procesador_imagen_lineas _ _ _ _ H Hp) as (t & -> & Hl). eauto.
Qed.

(** X1: every order that either copy of the extractor returns carries
    its two timestamps in the shape DD/MM/YYYY HH:MM: two digits of day,
    two of month, four of year, a blank, two digits of hour and two of
    minute, whether or not the platform pads a short year. *)
Theorem sellos_en_forma_canonica env imagen pedidos p :
  Ocr.procesar_imagen_ocr env imagen = Ok pedidos
  \/ Procesador.procesar_imagen_ocr env imagen = Ok pedidos ->
  p ∈ pedidos ->
  forma_canonica (Hora_Aceptacion p) /\ forma_canonica (Hora_Entrega p).
Proof.
  intros H Hp. destruct (imagen_lineas _ _ _ _ H Hp) as (t & _ & Hl).
  destruct (pedido_fechas _ _ _ _ Hl Hp)
    as (base & da & de & _ & _ & Hva & Hve & Hya & Hye & _ & _ & _ & -> & ->).
  split; apply strftime_forma_canonica; assumption.
Qed.

Lemma sellos_en_forma_canonica_witness :
  forma_canonica (txt "05/03/2024 23:50") /\ forma_canonica (txt "06/03/2024 00:15").
Proof.
  apply (sellos_en_forma_canonica (Entorno 2026 false)
    (Some (txt "mar, 5 de mar de 2024" ++ salto :: txt "Starbucks"
           ++ salto :: txt "23:50 - 00:15"))
    [Pedido (txt "05/03/2024 23:50") (txt "06/03/2024 00:15") (txt "Starbucks")]
    (Pedido (txt "05/03/2024 23:50") (txt "06/03/2024 00:15") (txt "Starbucks"))).
  - left. vm_compute. reflexivity.
  - apply list_elem_of_here.
Defined.

(** X2: the timestamps of an extracted order parse back under the
    canonical format, as the form of the application does with them, to
    date-times that [strftime] writes as the same texts; the delivery read
    back is not before the acceptance read back. *)
Theorem sellos_se_vuelven_a_leer env imagen pedidos p :
  Ocr.procesar_imagen_ocr env imagen = Ok pedidos
  \/ Procesador.procesar_imagen_ocr env imagen = Ok pedidos ->
  p ∈ pedidos ->
  exists dt_acep dt_entr,
    strptime (Hora_Aceptacion p) FORMATO_CANONICO = Ok dt_acep
    /\ strptime (Hora_Entrega p) FORMATO_CANONICO = Ok dt_entr
    /\ strftime env dt_acep FORMATO_CANONICO = Hora_Aceptacion p
    /\ strftime env dt_entr FORMATO_CANONICO = Hora_Entrega p
    /\ dt_leb dt_acep dt_entr = true.
Proof.
  intros H Hp. destruct (imagen_lineas _ _ _ _ H Hp) as (t & _ & Hl).
  destruct (pedido_fechas _ _ _ _ Hl Hp)
    as (base & da & de & _ & _ & Hva & Hve & Hya & Hye & Hsa & Hse & Hle & -> & ->).
  exists da, de.
  rewrite (strptime_strftime env da Hva Hya), (strptime_strftime env de Hve Hye).
  destruct da as [fa [ha ma sa]], de as [fe [he me se]]. simpl in Hsa, Hse. subst sa se.
  auto.
Qed.

Lemma sellos_se_vuelven_a_leer_witness :
  exists dt_acep dt_entr,
    strptime (txt "05/03/2024 23:50") FORMATO_CANONICO = Ok dt_acep
    /\ strptime (txt "06/03/2024 00:15") FORMATO_CANONICO = Ok dt_entr
    /\ strftime (Entorno 2026 false) dt_acep FORMATO_CANONICO = txt "05/03/2024 23:50"
    /\ strftime (Entorno 2026 false) dt_entr FORMATO_CANONICO = txt "06/03/2024 00:15"
    /\ dt_leb dt_acep dt_entr = true.
Proof.
  apply (sellos_se_vuelven_a_leer (Entorno 2026 false)
    (Some (txt "mar, 5 de mar de 2024" ++ salto :: txt "Starbucks"
           ++ salto :: txt "23:50 - 00:15"))
    [Pedido (txt "05/03/2024 23:50") (txt "06/03/2024 00:15") (txt "Starbucks")]
    (Pedido (txt "05/03/2024 23:50") (txt "06/03/2024 00:15") (txt "Starbucks"))).
  - left. vm_compute. reflexivity.
  - apply list_elem_of_here.
Defined.

(** ** The anchor and the text of the timestamps *)

Lemma es_digito_digito (c : ascii) :
  es_digito c = true -> 0 <= valor_digito c <= 9 /\ digito (valor_digito c) = c.
Proof.
  intros H. destruct c as [[] [] [] [] [] [] [] []]; vm_compute in H; try discriminate;
    (split; [vm_compute; split; discriminate|reflexivity]).
Qed.

Lemma dos_digitos_a_entero (a b : ascii) :
  es_digito a = true -> es_digito b = true -> dos_digitos (a_entero [a; b]) = [a; b].
Proof.
  intros Ha Hb. rewrite a_entero_digitos by (repeat constructor; assumption).
  cbv [fold_left].
  destruct (es_digito_digito a Ha) as [Ra Ea], (es_digito_digito b Hb) as [Rb Eb].
  unfold dos_digitos.
  replace ((10 * (10 * 0 + valor_digito a) + valor_digito b) / 10) with (valor_digito a)
    by (Z.to_euclidean_division_equations; lia).
  replace ((10 * (10 * 0 + valor_digito a) + valor_digito b) mod 10) with (valor_digito b)
    by (Z.to_euclidean_division_equations; lia).
  rewrite Ea, Eb. reflexivity.
Qed.

Lemma cuatro_digitos_a_entero (a b c d : ascii) :
  es_digito a = true -> es_digito b = true -> es_digito c = true -> es_digito d = true ->
  cuatro_digitos (a_entero [a; b; c; d]) = [a; b; c; d].
Proof.
  intros Ha Hb Hc Hd. rewrite a_entero_digitos by (repeat constructor; assumption).
  cbv [fold_left].
  destruct (es_digito_digito a Ha) as [Ra Ea], (es_digito_digito b Hb) as [Rb Eb],
    (es_digito_digito c Hc) as [Rc Ec], (es_digito_digito d Hd) as [Rd Ed].
  unfold cuatro_digitos.
  set (va := valor_digito a) in *. set (vb := valor_digito b) in *.
  set (vc := valor_digito c) in *. set (vd := valor_digito d) in *.
  replace ((10 * (10 * (10 * (10 * 0 + va) + vb) + vc) + vd) / 1000) with va
    by (Z.to_euclidean_division_equations; lia).
  replace ((10 * (10 * (10 * (10 * 0 + va) + vb) + vc) + vd) / 100 mod 10) with vb
    by (Z.to_euclidean_division_equations; lia).
  replace ((10 * (10 * (10 * (10 * 0 + va) + vb) + vc) + vd) / 10 mod 10) with vc
    by (Z.to_euclidean_division_equations; lia).
  replace ((10 * (10 * (10 * (10 * 0 + va) + vb) + vc) + vd) mod 10) with vd
    by (Z.to_euclidean_division_equations; lia).
  rewrite Ea, Eb, Ec, Ed. reflexivity.
Qed.

(** The anchor date, written with padded day and month and four digits of
    year, is the text the first loop assembled. *)
Lemma fecha_ancla_texto (env : entorno) (lineas : list texto) (base : fecha) :
  fecha_ancla env lineas = Some base ->
  exists fb ab,
    contexto_temporal lineas = (Some fb, ab)
    /\ fb = dos_digitos (dia base) ++ "/"%char :: dos_digitos (mes base)
    /\ anio_o_actual env ab = cuatro_digitos (anio base).
Proof.
  intros H. destruct (fecha_ancla_contexto _ _ _ H) as (fb & ab & dt & Hc & Hf & Hs & ->).
  pose proof (contexto_temporal_formado lineas) as [H1 _]. rewrite Hc in H1.
  cbn [fst snd] in H1.
  destruct H1 as [->|(a & b & c & d & Hd & ->)]; [discriminate|].
  cbn [default] in Hs.
  apply strptime_fecha_partes in Hs
    as (wd & wm & wY & Es & Hld & Hlm & HlY & HY & -> & -> & ->).
  inversion Hd as [|? ? Ha Hd1]; inversion Hd1 as [|? ? Hb Hd2];
    inversion Hd2 as [|? ? Hc' Hd3]; inversion Hd3 as [|? ? Hd' _]; subst.
  destruct wd as [|x1 [|x2 [|x3 wd]]]; simpl in Hld; try lia;
    simpl in Es; inversion Es; subst; clear Es;
    try (vm_compute in Hb; discriminate).
  destruct wm as [|z1 [|z2 [|z3 wm]]]; simpl in Hlm; try lia;
    match goal with H : _ :: _ :: _ = _ |- _ => simpl in H; inversion H; subst; clear H end;
    try (vm_compute in Hd'; discriminate).
  eexists _, ab. split; [exact Hc|].
  rewrite !dos_digitos_a_entero by assumption. split; [reflexivity|].
  destruct (anio_o_actual env ab) as [|y1 [|y2 [|y3 [|y4 [|y5 r]]]]]; try discriminate.
  inversion HY as [|? ? Y1 HY1]; inversion HY1 as [|? ? Y2 HY2];
    inversion HY2 as [|? ? Y3 HY3]; inversion HY3 as [|? ? Y4 _]; subst.
  rewrite cuatro_digitos_a_entero by assumption. reflexivity.
Qed.

(** Once the first loop holds a date, or a year, no later line changes it. *)
Lemma contexto_fecha_fija (lineas : list texto) :
  forall st, falso st.1 = false -> (foldl paso_contexto st lineas).1 = st.1.
Proof.
  induction lineas as [|l ls IH]; intros st H; [reflexivity|].
  simpl. assert ((paso_contexto st l).1 = st.1) as E.
  { unfold paso_contexto. cbn [fst]. rewrite H. reflexivity. }
  rewrite IH; rewrite E; [reflexivity|exact H].
Qed.

Lemma contexto_anio_fijo (lineas : list texto) :
  forall st, falso st.2 = false -> (foldl paso_contexto st lineas).2 = st.2.
Proof.
  induction lineas as [|l ls IH]; intros st H; [reflexivity|].
  simpl. assert ((paso_contexto st l).2 = st.2) as E.
  { unfold paso_contexto. cbn [snd]. rewrite H. reflexivity. }
  rewrite IH; rewrite E; [reflexivity|exact H].
Qed.

Lemma contexto_sin_anio (lineas : list texto) (st : option texto * option texto) :
  Forall (fun l => re_search regex_anio l = None) lineas ->
  st.2 = None -> (foldl paso_contexto st lineas).2 = None.
Proof.
  intros H. revert st. induction H as [|l ls Hl _ IH]; intros st Hst; [exact Hst|].
  simpl. apply IH. unfold paso_contexto. cbn [snd]. rewrite Hst. simpl. rewrite Hl.
  reflexivity.
Qed.

Lemma contexto_primera_fecha (antes despues : list texto) (l : texto) (m : coincidencia) :
  Forall (fun x => re_search regex_fecha x = None) antes ->
  re_search regex_fecha l = Some m ->
  (contexto_temporal (antes ++ l :: despues)).1
  = Some (zfill 2 (group 2 m) ++ txt "/"
          ++ default (txt "01") (meses !! take 3 (str_lower (group 3 m)))).
Proof.
  intros Ha Hm. unfold contexto_temporal. rewrite foldl_app. simpl.
  pose proof (contexto_sin_fecha antes (None, None) Ha eq_refl) as E.
  set (st := foldl paso_contexto (None, None) antes) in *.
  assert ((paso_contexto st l).1
          = Some (zfill 2 (group 2 m) ++ txt "/"
                  ++ default (txt "01") (meses !! take 3 (str_lower (group 3 m))))) as E1.
  { unfold paso_contexto. cbn [fst]. rewrite E. simpl. rewrite Hm. reflexivity. }
  rewrite contexto_fecha_fija; [exact E1|]. rewrite E1.
  destruct (regex_fecha_dia _ _ Hm) as [Hd Hl].
  destruct (zfill_2_digitos _ Hd Hl) as (a & b & _ & ->). reflexivity.
Qed.

Lemma contexto_primer_anio (antes despues : list texto) (l : texto) (m : coincidencia) :
  Forall (fun x => re_search regex_anio x = None) antes ->
  re_search regex_anio l = Some m ->
  (contexto_temporal (antes ++ l :: despues)).2 = Some (group 0 m).
Proof.
  intros Ha Hm. unfold contexto_temporal. rewrite foldl_app. simpl.
  pose proof (contexto_sin_anio antes (None, None) Ha eq_refl) as E.
  set (st := foldl paso_contexto (None, None) antes) in *.
  assert ((paso_contexto st l).2 = Some (group 0 m)) as E1.
  { unfold paso_contexto. cbn [snd]. rewrite E. simpl. rewrite Hm. reflexivity. }
  rewrite contexto_anio_fijo; [exact E1|]. rewrite E1.
  destruct (regex_anio_texto _ _ Hm) as (c & d & _ & ->). reflexivity.
Qed.

(** The text of an acceptance timestamp. *)
Lemma sello_de_aceptacion env lineas pedidos p :
  Ocr.procesar_lineas env lineas = Ok pedidos
  \/ Procesador.procesar_lineas env lineas = Ok pedidos ->
  p ∈ pedidos ->
  exists fb ab h,
    contexto_temporal lineas = (Some fb, ab)
    /\ length fb = 5%nat /\ length (anio_o_actual env ab) = 4%nat
    /\ Hora_Aceptacion p
       = fb ++ "/"%char :: anio_o_actual env ab ++ " "%char
         :: dos_digitos (hora h) ++ ":"%char :: dos_digitos (minuto h).
Proof.
  intros H Hp.
  destruct (pedido_fechas _ _ _ _ H Hp)
    as (base & da & de & Ha & Hb & Hva & _ & Hya & _ & _ & _ & _ & -> & _).
  destruct (fecha_ancla_texto _ _ _ Ha) as (fb & ab & Hc & -> & Ey).
  exists (dos_digitos (dia base) ++ "/"%char :: dos_digitos (mes base)), ab, (dt_reloj da).
  split; [exact Hc|]. split; [reflexivity|]. rewrite Ey. split; [reflexivity|].
  rewrite strftime_canonico, Hb, texto_anio_cuatro.
  - reflexivity.
  - apply datetime_valido_iff in Hva. rewrite Hb in Hva, Hya. lia.
Qed.

(** X3: the day and the month of every acceptance timestamp are those
    of the first line that matches the date pattern: its day padded to two
    digits, and the month of the table under the first three letters of
    its month in lower case, 01 when the table does not have them.  Date
    lines further down change nothing. *)
Theorem primera_fecha_manda env t pedidos p antes l despues m :
  Ocr.procesar_imagen_ocr env (Some t) = Ok pedidos
  \/ Procesador.procesar_imagen_ocr env (Some t) = Ok pedidos ->
  p ∈ pedidos ->
  lineas_de t = antes ++ l :: despues ->
  Forall (fun x => re_search regex_fecha x = None) antes ->
  re_search regex_fecha l = Some m ->
  take 5 (Hora_Aceptacion p)
  = zfill 2 (group 2 m) ++ txt "/"
    ++ default (txt "01") (meses !! take 3 (str_lower (group 3 m))).
Proof.
  intros H Hp El Ha Hm. simpl in H.
  destruct (sello_de_aceptacion _ _ _ _ H Hp) as (fb & ab & h & Hc & Hl & _ & ->).
  rewrite take_app_length' by (symmetry; exact Hl).
  pose proof (contexto_primera_fecha antes despues l m Ha Hm) as E.
  rewrite <- El, Hc in E. simpl in E. inversion E. reflexivity.
Qed.

Lemma primera_fecha_manda_witness :
  take 5 (txt "05/01/2024 23:50") = txt "05/01".
Proof.
  apply (primera_fecha_manda (Entorno 2026 false)
    (txt "mar, 5 de xyz de 2024" ++ salto :: txt "Starbucks"
     ++ salto :: txt "23:50 - 00:15" ++ salto :: txt "jue, 7 de mar")
    [Pedido (txt "05/01/2024 23:50") (txt "06/01/2024 00:15") (txt "Starbucks")]
    (Pedido (txt "05/01/2024 23:50") (txt "06/01/2024 00:15") (txt "Starbucks"))
    [] (txt "mar, 5 de xyz de 2024")
    [txt "Starbucks"; txt "23:50 - 00:15"; txt "jue, 7 de mar"]
    (Coincidencia 0 13 (txt "mar, 5 de xyz")
       [(3%nat, txt "xyz"); (2%nat, txt "5"); (1%nat, txt "mar")])).
  - left. vm_compute. reflexivity.
  - apply list_elem_of_here.
  - vm_compute. reflexivity.
  - constructor.
  - vm_compute. reflexivity.
Defined.

(** X4: the year of every acceptance timestamp is the first text 20YY
    found in the lines, wherever it stands, and the current year when no
    line holds one. *)
Theorem anio_de_los_sellos env t pedidos p :
  Ocr.procesar_imagen_ocr env (Some t) = Ok pedidos
  \/ Procesador.procesar_imagen_ocr env (Some t) = Ok pedidos ->
  p ∈ pedidos ->
  (Forall (fun x => re_search regex_anio x = None) (lineas_de t) ->
   take 4 (drop 6 (Hora_Aceptacion p)) = str_int (anio_actual env))
  /\ (forall antes l despues m,
        lineas_de t = antes ++ l :: despues ->
        Forall (fun x => re_search regex_anio x = None) antes ->
        re_search regex_anio l = Some m ->
        take 4 (drop 6 (Hora_Aceptacion p)) = group 0 m).
Proof.
  intros H Hp. simpl in H.
  destruct (sello_de_aceptacion _ _ _ _ H Hp) as (fb & ab & h & Hc & Hl & Hy & ->).
  assert (forall r, take 4 (drop 6 (fb ++ "/"%char :: anio_o_actual env ab ++ r))
                    = anio_o_actual env ab) as E.
  { intros r. change ("/"%char :: anio_o_actual env ab ++ r)
      with (["/"%char] ++ anio_o_actual env ab ++ r).
    rewrite app_assoc, drop_app_length' by (rewrite length_app, Hl; reflexivity).
    apply take_app_length'. symmetry. exact Hy. }
  rewrite E. split.
  - intros Hn. pose proof (contexto_sin_anio (lineas_de t) (None, None) Hn eq_refl) as En.
    fold (contexto_temporal (lineas_de t)) in En. rewrite Hc in En. simpl in En. subst ab.
    reflexivity.
  - intros antes l despues m El Ha Hm.
    pose proof (contexto_primer_anio antes despues l m Ha Hm) as En.
    rewrite <- El, Hc in En. simpl in En. subst ab.
    destruct (regex_anio_texto _ _ Hm) as (c & d & _ & Eg). unfold group in Eg |- *.
    unfold anio_o_actual. rewrite Eg. reflexivity.
Qed.

Lemma anio_de_los_sellos_witness :
  take 4 (drop 6 (txt "05/03/2026 23:50")) = str_int 2026
  /\ take 4 (drop 6 (txt "05/03/2024 23:50")) = txt "2024".
Proof.
  split.
  - refine (proj1 (anio_de_los_sellos (Entorno 2026 false)
      (txt "mar, 5 de mar" ++ salto :: txt "Starbucks" ++ salto :: txt "23:50 - 00:15")
      [Pedido (txt "05/03/2026 23:50") (txt "06/03/2026 00:15") (txt "Starbucks")]
      (Pedido (txt "05/03/2026 23:50") (txt "06/03/2026 00:15") (txt "Starbucks"))
      _ _) _).
    + left. vm_compute. reflexivity.
    + apply list_elem_of_here.
    + replace (lineas_de _) with [txt "mar, 5 de mar"; txt "Starbucks"; txt "23:50 - 00:15"]
        by (vm_compute; reflexivity).
      repeat (constructor; [vm_compute; reflexivity|]). constructor.
  - refine (proj2 (anio_de_los_sellos (Entorno 2026 false)
      (txt "mar, 5 de mar" ++ salto :: txt "Starbucks" ++ salto :: txt "23:50 - 00:15"
       ++ salto :: txt "Total 2024")
      [Pedido (txt "05/03/2024 23:50") (txt "06/03/2024 00:15") (txt "Starbucks")]
      (Pedido (txt "05/03/2024 23:50") (txt "06/03/2024 00:15") (txt "Starbucks"))
      _ _)
      [txt "mar, 5 de mar"; txt "Starbucks"; txt "23:50 - 00:15"] (txt "Total 2024") []
      (Coincidencia 6 10 (txt "2024") []) _ _ _).
    + left. vm_compute. reflexivity.
    + apply list_elem_of_here.
    + vm_compute. reflexivity.
    + repeat (constructor; [vm_compute; reflexivity|]). constructor.
    + vm_compute. reflexivity.
Defined.

(** ** The two copies of the extractor side by side *)

Lemma armar_pedido_mismo env lineas i t :
  armar_pedido env Procesador.es_separador lineas i t
  = armar_pedido env Ocr.es_separador lineas i t.
Proof.
  unfold armar_pedido, reconstruir_nombre. rewrite Procesador_es_separador_Ocr. reflexivity.
Qed.

Lemma Ocr_cuerpo_Procesador env lineas base i l x :
  Ocr.cuerpo env lineas base i l = Ok x -> Procesador.cuerpo env lineas base i l = Ok x.
Proof.
  unfold Ocr.cuerpo, Procesador.cuerpo.
  destruct (re_search regex_horas l) as [m|]; [|trivial].
  destruct (strptime (group 1 m) FORMATO_HORA) as [t1|e1]; [|discriminate].
  destruct (strptime (group 2 m) FORMATO_HORA) as [t2|e2]; [|discriminate].
  destruct (tiempos base (dt_reloj t1) (dt_reloj t2)) as [t|e]; [|discriminate].
  rewrite armar_pedido_mismo. trivial.
Qed.

Lemma bucle_pedidos_mismo c1 c2 (pendientes : list texto) :
  (forall i l x, c1 i l = Ok x -> c2 i l = Ok x) ->
  forall i pedidos res,
    bucle_pedidos c1 i pendientes pedidos = Ok res ->
    bucle_pedidos c2 i pendientes pedidos = Ok res.
Proof.
  intros Hc. induction pendientes as [|l resto IH]; intros i pedidos res H; [exact H|].
  simpl in H |- *. destruct (c1 i l) as [x|e] eqn:E; [|discriminate].
  rewrite (Hc _ _ _ E). destruct x; apply IH; exact H.
Qed.

(** X5: whenever the extractor of the application returns, the one of
    the batch script returns the same orders from the same image. *)
Theorem Ocr_y_Procesador_coinciden env imagen pedidos :
  Ocr.procesar_imagen_ocr env imagen = Ok pedidos ->
  Procesador.procesar_imagen_ocr env imagen = Ok pedidos.
Proof.
  destruct imagen as [t|]; [|trivial]. simpl.
  unfold Ocr.procesar_lineas, Procesador.procesar_lineas.
  destruct (contexto_temporal (lineas_de t)) as [fb ab].
  destruct (falso fb); [trivial|].
  destruct (strptime _ FORMATO_FECHA) as [dt|e]; [|discriminate].
  apply bucle_pedidos_mismo. apply Ocr_cuerpo_Procesador.
Qed.

Lemma Ocr_y_Procesador_coinciden_witness :
  Procesador.procesar_imagen_ocr (Entorno 2026 false)
    (Some (txt "mar, 5 de mar de 2024" ++ salto :: txt "Starbucks"
           ++ salto :: txt "23:50 - 00:15"))
  = Ok [Pedido (txt "05/03/2024 23:50") (txt "06/03/2024 00:15") (txt "Starbucks")].
Proof.
  apply Ocr_y_Procesador_coinciden. vm_compute. reflexivity.
Defined.

(** ** What can be raised *)









(** ** How many orders *)




(** ** The cleaned name *)

Lemma es_palabra_no_espacio (c : ascii) : es_palabra c = true -> es_espacio c = false.
Proof. destruct c as [[] [] [] [] [] [] [] []]; vm_compute; congruence. Qed.

Lemma quitar_inicio_cabeza (p : ascii -> bool) (s : texto) (c : ascii) (r : texto) :
  quitar_inicio p s = c :: r -> p c = false.
Proof.
  induction s as [|x s IH]; [discriminate|]. simpl.
  destruct (p x) eqn:E; [exact IH|]. intros H; inversion H; subst. exact E.
Qed.

(** What the cleaning leaves is trimmed and, unless empty, begins with a
    word character that is not the underscore. *)
Lemma limpieza_cabeza (s : texto) :
  let n := str_strip (quitar_final es_basura_final (quitar_inicio es_simbolo_inicial s)) in
  n = [] \/ exists c r, n = c :: r /\ es_palabra c = true /\ c <> "_"%char.
Proof.
  cbv zeta. destruct (quitar_inicio es_simbolo_inicial s) as [|c u] eqn:E; [left; reflexivity|].
  right. apply quitar_inicio_cabeza in E. unfold es_simbolo_inicial in E.
  apply orb_false_iff in E as [Hw Hg]. apply negb_false_iff in Hw.
  rewrite quitar_final_cons. cbn [forallb]. unfold es_basura_final at 1.
  rewrite Hw. cbn [orb negb andb].
  unfold str_strip. rewrite lstrip_fijo, rstrip_cons by (apply es_palabra_no_espacio; exact Hw).
  eexists _, _. split; [reflexivity|]. split; [exact Hw|].
  intros ->. discriminate.
Qed.

Lemma nombre_de_pedido env t pedidos p :
  Ocr.procesar_imagen_ocr env (Some t) = Ok pedidos
  \/ Procesador.procesar_imagen_ocr env (Some t) = Ok pedidos ->
  p ∈ pedidos ->
  exists es_separador i,
    Nombre_Local p = reconstruir_nombre es_separador (lineas_de t) i.
Proof.
  simpl. intros [H|H] Hp.
  - destruct (Ocr_procesar_pedido _ _ _ _ H Hp) as (base & i & l & _ & _ & _ & Hc).
    destruct (Ocr_cuerpo_pedido _ _ _ _ _ _ Hc) as (h1 & h2 & tt & _ & _ & ->). eauto.
  - destruct (Procesador_procesar_pedido _ _ _ _ H Hp) as (base & i & l & _ & _ & _ & Hc).
    destruct (Procesador_cuerpo_pedido _ _ _ _ _ _ Hc) as (h1 & h2 & tt & _ & _ & ->). eauto.
Qed.

(** X8: the vendor name of every extracted order is trimmed, and unless
    it is empty it begins with a letter or a digit: a word character other
    than the underscore. *)
Theorem nombre_empieza_con_letra env t pedidos p :
  Ocr.procesar_imagen_ocr env (Some t) = Ok pedidos
  \/ Procesador.procesar_imagen_ocr env (Some t) = Ok pedidos ->
  p ∈ pedidos ->
  str_strip (Nombre_Local p) = Nombre_Local p
  /\ (Nombre_Local p = []
      \/ exists c r, Nombre_Local p = c :: r /\ es_palabra c = true /\ c <> "_"%char).
Proof.
  intros H Hp. destruct (nombre_de_pedido _ _ _ _ H Hp) as (es & i & ->).
  split; [apply str_strip_idem|].
  rewrite reconstruir_nombre_descrito by (apply lineas_de_sin_salto).
  destruct i as [|i].
  - right. eexists _, _. split; [reflexivity|]. split; [reflexivity|discriminate].
  - apply limpieza_cabeza.
Qed.

Lemma nombre_empieza_con_letra_witness :
  str_strip (txt "Kiosco 24") = txt "Kiosco 24"
  /\ (txt "Kiosco 24" = []
      \/ exists c r, txt "Kiosco 24" = c :: r /\ es_palabra c = true /\ c <> "_"%char).
Proof.
  apply (nombre_empieza_con_letra (Entorno 2026 true)
    (txt "vie, 5 de dic de 2025" ++ salto :: txt "_Kiosco 24!" ++ salto :: txt "12:00 - 12:30")
    [Pedido (txt "05/12/2025 12:00") (txt "05/12/2025 12:30") (txt "Kiosco 24")]
    (Pedido (txt "05/12/2025 12:00") (txt "05/12/2025 12:30") (txt "Kiosco 24"))).
  - left. vm_compute. reflexivity.
  - apply list_elem_of_here.
Defined.

(** ** The four formats of the normaliser *)

Lemma casar_re_S_exito {R} (k : estado -> option R) pos rest gs v x :
  0 <= v <= 59 ->
  k (Estado (pos + 2) rest ((g_S, dos_digitos v) :: gs)) = Some x ->
  casar re_S (Estado pos (dos_digitos v ++ rest) gs) k = Some x.
Proof.
  intros H. enumerar v; calcular_digitos; cbv -[Nat.add Nat.sub take];
    replace (pos + 1 + 1 - pos)%nat with 2%nat by lia;
    replace (pos + 1 + 1)%nat with (pos + 2)%nat by lia;
    cbv [take]; intros ->; reflexivity.
Qed.

(** A text that a format beginning with the day and a slash accepts has
    a slash in its second or third place. *)
Lemma casar_en_dia_barra (cola : regex) (s : texto) (m : coincidencia) :
  casar_en (Seq re_d (Seq (Lit "/") cola)) 0 s = Some m ->
  exists wd r, s = wd ++ "/"%char :: r /\ (1 <= length wd <= 2)%nat.
Proof.
  intros H. apply casar_en_coincide in H as (w & post & -> & C & _).
  generalize dependent (m_grupos m). intros gs C. cbn [coincide] in C.
  destruct C as (wd & w2 & gs1 & gs2 & -> & _ & Cd & (l1 & w3 & ? & gs3 & -> & _ & [-> _] & _)).
  apply coincide_re_d in Cd as [_ Hd].
  exists wd, (w3 ++ post). rewrite <- !app_assoc. split; [reflexivity|exact Hd].
Qed.

Lemma strptime_lanza (s f : texto) :
  (forall dt, strptime s f <> Ok dt) -> strptime s f = Lanza ValueError.
Proof.
  intros H. destruct (strptime s f) as [dt|e] eqn:E; [destruct (H dt); reflexivity|].
  apply strptime_solo_ValueError in E. subst. reflexivity.
Qed.

Section Formatos.

Variables d m H M S : Z.
Variables c1 c2 c3 c4 : ascii.
Hypothesis Hd : 1 <= d <= 31.
Hypothesis Hm : 1 <= m <= 12.
Hypothesis HH : 0 <= H <= 23.
Hypothesis HM : 0 <= M <= 59.
Hypothesis HS : 0 <= S <= 59.
Hypothesis H1 : es_digito c1 = true.
Hypothesis H2 : es_digito c2 = true.
Hypothesis H3 : es_digito c3 = true.
Hypothesis H4 : es_digito c4 = true.

Let hora_minuto (resto : texto) : texto :=
  " "%char :: dos_digitos H ++ ":"%char :: dos_digitos M ++ resto.

Let s1 : texto :=
  dos_digitos d ++ "/"%char :: dos_digitos m ++ "/"%char
  :: [c1; c2; c3; c4] ++ hora_minuto (":"%char :: dos_digitos S ++ []).

Let iso (resto : texto) : texto :=
  [c1; c2; c3; c4] ++ "-"%char :: dos_digitos m ++ "-"%char
  :: dos_digitos d ++ hora_minuto resto.

Let resultado_de (seg : Z) : resultado datetime :=
  let dt := Datetime (Fecha (a_entero [c1; c2; c3; c4]) m d) (Reloj H M seg) in
  if datetime_valido dt then Ok dt else Lanza ValueError.

Lemma strptime_con_segundos :
  strptime s1 (txt "%d/%m/%Y %H:%M:%S") = resultado_de S.
Proof.
  unfold strptime. rewrite patron_1. unfold re_match, casar_en, s1, hora_minuto.
  cbv [sec foldr].
  rewrite casar_dia_mes by assumption.
  rewrite casar_anio_hora by assumption.
  rewrite casar_Seq, casar_re_M by (try assumption; apply falla_Lit; reflexivity).
  rewrite casar_Seq, casar_Lit, casar_Seq.
  erewrite casar_re_S_exito; [|assumption|reflexivity].
  cbv [m_fin m_grupos e_pos e_grupos campo buscar_grupo g_Y g_m g_d g_H g_M g_S Nat.eqb].
  rewrite !a_entero_dos_digitos by lia.
  reflexivity.
Qed.

(** The year, the month and the day between hyphens, then the hour. *)
Lemma casar_iso {R} (k : estado -> option R) (cola : regex) resto :
  casar (Seq re_Y (Seq (Lit "-") (Seq re_m (Seq (Lit "-") (Seq re_d
          (Seq (Rep es_espacio 1 None) (Seq re_H (Seq (Lit ":") cola))))))))
        (Estado 0 (iso resto) []) k
  = casar cola
      (Estado 14 (dos_digitos M ++ resto)
         [(g_H, dos_digitos H); (g_d, dos_digitos d); (g_m, dos_digitos m);
          (g_Y, [c1; c2; c3; c4])]) k.
Proof.
  unfold iso, hora_minuto.
  change ([c1; c2; c3; c4] ++ ?r) with (c1 :: c2 :: c3 :: c4 :: r).
  assert (0 <= H / 10 <= 9) as Hq by (Z.to_euclidean_division_equations; lia).
  rewrite casar_Seq, casar_re_Y by assumption.
  rewrite casar_Seq, casar_Lit.
  rewrite casar_Seq, casar_re_m by (try assumption; apply falla_Lit; reflexivity).
  rewrite casar_Seq, casar_Lit.
  rewrite casar_Seq, casar_re_d by (try assumption; apply falla_blanco).
  change (dos_digitos H ++ ?r) with (digito (H / 10) :: digito (H mod 10) :: r).
  rewrite casar_Seq, casar_blanco
    by (try reflexivity; apply digito_no_es_espacio; assumption).
  change (digito (H / 10) :: digito (H mod 10) :: ?r) with (dos_digitos H ++ r).
  rewrite casar_Seq, casar_re_H by (try assumption; apply falla_Lit; reflexivity).
  rewrite casar_Seq, casar_Lit. reflexivity.
Qed.

Lemma strptime_iso_con_segundos :
  strptime (iso (":"%char :: dos_digitos S ++ [])) (txt "%Y-%m-%d %H:%M:%S") = resultado_de S.
Proof.
  unfold strptime. rewrite patron_2. unfold re_match, casar_en. cbv [sec foldr].
  rewrite casar_iso.
  rewrite casar_Seq, casar_re_M by (try assumption; apply falla_Lit; reflexivity).
  rewrite casar_Seq, casar_Lit, casar_Seq.
  erewrite casar_re_S_exito; [|assumption|reflexivity].
  cbv [m_fin m_grupos e_pos e_grupos campo buscar_grupo g_Y g_m g_d g_H g_M g_S Nat.eqb].
  rewrite !a_entero_dos_digitos by lia.
  reflexivity.
Qed.

Lemma strptime_iso :
  strptime (iso []) (txt "%Y-%m-%d %H:%M") = resultado_de 0.
Proof.
  unfold strptime. rewrite patron_4. unfold re_match, casar_en. cbv [sec foldr].
  rewrite casar_iso, casar_Seq.
  erewrite casar_re_M_exito; [|assumption|reflexivity].
  cbv [m_fin m_grupos e_pos e_grupos campo buscar_grupo g_Y g_m g_d g_H g_M g_S Nat.eqb].
  rewrite !a_entero_dos_digitos by lia.
  reflexivity.
Qed.

Lemma strptime_iso_sin_segundos_2 :
  strptime (iso []) (txt "%Y-%m-%d %H:%M:%S") = Lanza ValueError.
Proof.
  unfold strptime. rewrite patron_2. unfold re_match, casar_en. cbv [sec foldr].
  rewrite casar_iso.
  rewrite casar_Seq, casar_re_M by (try assumption; apply falla_Lit; reflexivity).
  reflexivity.
Qed.

End Formatos.

(** The formats that begin with the day refuse a text that begins with
    four digits. *)
Lemma strptime_iso_dia (c1 c2 c3 c4 : ascii) (resto f : texto) (cola : regex) :
  es_digito c2 = true -> es_digito c3 = true ->
  patron f = Some (Seq re_d (Seq (Lit "/") cola)) ->
  strptime ([c1; c2; c3; c4] ++ resto) f = Lanza ValueError.
Proof.
  intros H2 H3 Hp. apply strptime_lanza. intros dt. unfold strptime. rewrite Hp.
  destruct (re_match _ _) as [mm|] eqn:E; [|discriminate].
  apply casar_en_dia_barra in E as (wd & r & Es & Hl).
  exfalso.
  destruct wd as [|x1 [|x2 [|x3 wd]]]; simpl in Hl; try lia;
    simpl in Es; inversion Es; subst.
  - vm_compute in H2. discriminate.
  - vm_compute in H3. discriminate.
Qed.

Lemma texto_anio_relleno (env : entorno) (y : Z) :
  1 <= y <= 9999 -> anio_con_ceros env = true \/ 1000 <= y ->
  texto_anio env y = cuatro_digitos y.
Proof.
  intros Hy [Hp|Hm]; [unfold texto_anio; rewrite Hp; reflexivity|].
  apply texto_anio_cuatro. lia.
Qed.

Lemma normalizar_texto_fijo (env : entorno) (s : texto) :
  (exists c, head s = Some c /\ es_espacio c = false) ->
  (forall x, last s = Some x -> es_espacio x = false) ->
  normalizar_para_comparar env (VTexto s) = probar_formatos env s formatos.
Proof.
  intros (c & Hh & Hc) Hl. destruct s as [|c' r]; [discriminate|].
  simpl in Hh. inversion Hh; subst c'.
  unfold normalizar_para_comparar. cbn [es_vacio].
  rewrite str_strip_fijo by assumption. reflexivity.
Qed.

(** X9: a date and time written as text in any of the four formats the
    normaliser knows, with or without seconds, day first or year first,
    normalises to the same text as the date and time itself: the canonical
    one, without the seconds.  (A platform that does not pad the year
    writes a year below 1000 with fewer than four digits, which no format
    reads back.) *)
Theorem normalizar_cualquier_formato env dt fmt :
  datetime_valido dt = true ->
  anio_con_ceros env = true \/ 1000 <= anio (dt_fecha dt) ->
  fmt ∈ formatos ->
  normalizar_para_comparar env (VTexto (strftime env dt fmt))
  = normalizar_para_comparar env (VFecha dt).
Proof.
  intros Hv Hy Hf. pose proof Hv as Hv0. apply datetime_valido_iff in Hv.
  destruct dt as [[y m d] [H M S]]. cbn [dt_fecha dt_reloj anio mes dia hora minuto segundo] in *.
  destruct Hv as ((Hy' & Hm & Hd) & (HH & HM & HS)).
  pose proof (dias_del_mes_cota y m) as Hc.
  pose proof (texto_anio_relleno env y Hy' Hy) as Ey.
  destruct (cuatro_digitos_son_digitos y) as (Y1 & Y2 & Y3 & Y4); [lia|].
  assert (forall seg, 0 <= seg <= 59 ->
            (let dt' := Datetime (Fecha (a_entero (cuatro_digitos y)) m d) (Reloj H M seg) in
             if datetime_valido dt' then Ok dt' else Lanza ValueError)
            = Ok (Datetime (Fecha y m d) (Reloj H M seg))) as Er.
  { intros seg Hseg. cbv zeta. rewrite a_entero_cuatro_digitos by lia.
    replace (datetime_valido _) with true; [reflexivity|].
    symmetry. apply datetime_valido_iff. simpl. lia. }
  assert (forall v, 0 <= v <= 99 -> es_espacio (digito (v / 10)) = false) as Hpri.
  { intros v Hv'. apply digito_no_es_espacio. Z.to_euclidean_division_equations; lia. }
  unfold normalizar_para_comparar at 2.
  unfold formatos in Hf.
  repeat (apply elem_of_cons in Hf as [->|Hf]); [| | | |inversion Hf].
  - (* %d/%m/%Y %H:%M:%S *)
    change (strftime env (Datetime (Fecha y m d) (Reloj H M S)) (txt "%d/%m/%Y %H:%M:%S"))
      with (dos_digitos d ++ "/"%char :: dos_digitos m ++ "/"%char
            :: texto_anio env y ++ " "%char :: dos_digitos H ++ ":"%char
            :: dos_digitos M ++ ":"%char :: dos_digitos S ++ []).
    rewrite Ey. unfold cuatro_digitos at 1.
    rewrite normalizar_texto_fijo.
    + unfold formatos. cbn [probar_formatos].
      rewrite (strptime_con_segundos d m H M S) by (assumption || lia).
      fold (cuatro_digitos y). rewrite (Er S HS). reflexivity.
    + eexists. split; [reflexivity|]. apply Hpri. lia.
    + intros x. rewrite !last_app. simpl.
      intros Hx; inversion Hx; subst.
      apply digito_no_es_espacio. Z.to_euclidean_division_equations; lia.
  - (* %Y-%m-%d %H:%M:%S *)
    change (strftime env (Datetime (Fecha y m d) (Reloj H M S)) (txt "%Y-%m-%d %H:%M:%S"))
      with (texto_anio env y ++ "-"%char :: dos_digitos m ++ "-"%char
            :: dos_digitos d ++ " "%char :: dos_digitos H ++ ":"%char
            :: dos_digitos M ++ ":"%char :: dos_digitos S ++ []).
    rewrite Ey. unfold cuatro_digitos at 1.
    rewrite normalizar_texto_fijo.
    + unfold formatos. cbn [probar_formatos].
      rewrite (strptime_iso_dia _ _ _ _ _ _ _ Y2 Y3 patron_1).
      rewrite (strptime_iso_con_segundos d m H M S) by (assumption || lia).
      fold (cuatro_digitos y). rewrite (Er S HS). reflexivity.
    + eexists. split; [reflexivity|].
      apply digito_no_es_espacio. Z.to_euclidean_division_equations; lia.
    + intros x. rewrite !last_app. simpl.
      intros Hx; inversion Hx; subst.
      apply digito_no_es_espacio. Z.to_euclidean_division_equations; lia.
  - (* %d/%m/%Y %H:%M *)
    apply (normalizar_strftime env (Datetime (Fecha y m d) (Reloj H M S)) Hv0).
  - (* %Y-%m-%d %H:%M *)
    change (strftime env (Datetime (Fecha y m d) (Reloj H M S)) (txt "%Y-%m-%d %H:%M"))
      with (texto_anio env y ++ "-"%char :: dos_digitos m ++ "-"%char
            :: dos_digitos d ++ " "%char :: dos_digitos H ++ ":"%char
            :: dos_digitos M ++ []).
    rewrite Ey. unfold cuatro_digitos at 1.
    rewrite normalizar_texto_fijo.
    + unfold formatos. cbn [probar_formatos].
      rewrite (strptime_iso_dia _ _ _ _ _ _ _ Y2 Y3 patron_1).
      rewrite (strptime_iso_sin_segundos_2 d m H M) by (assumption || lia).
      rewrite (strptime_iso_dia _ _ _ _ _ _ _ Y2 Y3 patron_3).
      rewrite (strptime_iso d m H M) by (assumption || lia).
      fold (cuatro_digitos y). rewrite (Er 0) by lia. reflexivity.
    + eexists. split; [reflexivity|].
      apply digito_no_es_espacio. Z.to_euclidean_division_equations; lia.
    + intros x. rewrite !last_app. simpl.
      intros Hx; inversion Hx; subst.
      apply digito_no_es_espacio. Z.to_euclidean_division_equations; lia.
Qed.

Lemma normalizar_cualquier_formato_witness :
  normalizar_para_comparar (Entorno 2026 false)
    (VTexto (strftime (Entorno 2026 false)
               (Datetime (Fecha 2024 3 5) (Reloj 23 50 7)) (txt "%Y-%m-%d %H:%M:%S")))
  = normalizar_para_comparar (Entorno 2026 false)
      (VFecha (Datetime (Fecha 2024 3 5) (Reloj 23 50 7))).
Proof.
  apply normalizar_cualquier_formato.
  - vm_compute. reflexivity.
  - right. simpl. lia.
  - apply list_elem_of_further, list_elem_of_here.
Defined.

(** X10: an order whose acceptance and delivery stand in a row of the
    sheet, as date-time cells or as text in any of the four formats, is
    reported as already existing when the application asks with the two
    date-times written in the canonical format. *)
Theorem pedido_guardado_se_detecta env df r dt_a dt_e fa fe :
  datetime_valido dt_a = true -> datetime_valido dt_e = true ->
  anio_con_ceros env = true
  \/ (1000 <= anio (dt_fecha dt_a) /\ 1000 <= anio (dt_fecha dt_e)) ->
  r ∈ df ->
  col_Hora_Aceptacion r = VFecha dt_a
  \/ (fa ∈ formatos /\ col_Hora_Aceptacion r = VTexto (strftime env dt_a fa)) ->
  col_Hora_Entrega r = VFecha dt_e
  \/ (fe ∈ formatos /\ col_Hora_Entrega r = VTexto (strftime env dt_e fe)) ->
  pedido_ya_existe (strftime env dt_a FORMATO_CANONICO) (strftime env dt_e FORMATO_CANONICO)
    (obtener_firmas_existentes env df) = true.
Proof.
  intros Hva Hve Hy Hr Ha He.
  assert (normalizar_para_comparar env (col_Hora_Aceptacion r)
          = strftime env dt_a FORMATO_CANONICO) as Na.
  { destruct Ha as [->|[Hf ->]]; [reflexivity|].
    rewrite normalizar_cualquier_formato; [reflexivity|exact Hva| |exact Hf].
    destruct Hy as [Hy|[Hy _]]; auto. }
  assert (normalizar_para_comparar env (col_Hora_Entrega r)
          = strftime env dt_e FORMATO_CANONICO) as Ne.
  { destruct He as [->|[Hf ->]]; [reflexivity|].
    rewrite normalizar_cualquier_formato; [reflexivity|exact Hve| |exact Hf].
    destruct Hy as [Hy|[_ Hy]]; auto. }
  unfold pedido_ya_existe. rewrite bool_decide_eq_true, firmas_existentes_elem.
  exists r. split; [exact Hr|]. unfold firma_de_fila. rewrite Na, Ne.
  destruct (strftime_no_vacio_ni_blanco env dt_a Hva) as [Nva _].
  destruct (strftime_no_vacio_ni_blanco env dt_e Hve) as [Nve _].
  repeat split; apply es_vacio_false; assumption.
Qed.

Lemma pedido_guardado_se_detecta_witness :
  pedido_ya_existe
    (strftime (Entorno 2026 false) (Datetime (Fecha 2024 3 5) (Reloj 23 50 0))
       FORMATO_CANONICO)
    (strftime (Entorno 2026 false) (Datetime (Fecha 2024 3 6) (Reloj 0 15 0))
       FORMATO_CANONICO)
    (obtener_firmas_existentes (Entorno 2026 false)
       [Fila (VTexto (txt "05/03/2024 23:50")) (VTexto (txt "2024-03-06 00:15:00"))
             (Some (txt "Starbucks")) VNulo VNulo VNulo VNulo]) = true.
Proof.
  apply (pedido_guardado_se_detecta (Entorno 2026 false) _
    (Fila (VTexto (txt "05/03/2024 23:50")) (VTexto (txt "2024-03-06 00:15:00"))
          (Some (txt "Starbucks")) VNulo VNulo VNulo VNulo)
    (Datetime (Fecha 2024 3 5) (Reloj 23 50 0)) (Datetime (Fecha 2024 3 6) (Reloj 0 15 0))
    (txt "%d/%m/%Y %H:%M") (txt "%Y-%m-%d %H:%M:%S")).
  - vm_compute. reflexivity.
  - vm_compute. reflexivity.
  - right. simpl. lia.
  - apply list_elem_of_here.
  - right. split; [apply list_elem_of_further, list_elem_of_further, list_elem_of_here|].
    vm_compute. reflexivity.
  - right. split; [apply list_elem_of_further, list_elem_of_here|].
    vm_compute. reflexivity.
Defined.

(** ** The memory of vendors of the batch script *)

Lemma filas_de_ultima_util (P : fila -> Prop) `{forall f, Decision (P f)}
    (n : texto) (antes despues : list fila) (f : fila) :
  col_Nombre_Local f = Some n -> P f ->
  Forall (fun g => ~ (col_Nombre_Local g = Some n /\ P g)) despues ->
  last (filas_de n (filter P (antes ++ f :: despues))) = Some f.
Proof.
  intros Hn Hp Hd. unfold filas_de.
  rewrite filter_app, (filter_cons_True P f _ Hp), filter_app.
  rewrite (filter_cons_True (fun g => col_Nombre_Local g = Some n) f _ Hn).
  replace (filter (fun g => col_Nombre_Local g = Some n) (filter P despues)) with (@nil fila).
  - apply last_snoc.
  - symmetry. induction Hd as [|g gs Hg _ IH]; [reflexivity|].
    destruct (decide (P g)) as [Hpg|Hpg].
    + rewrite (filter_cons_True P g gs Hpg).
      rewrite (filter_cons_False (fun g => col_Nombre_Local g = Some n) g _); [exact IH|].
      intros Hng. apply Hg. split; assumption.
    + rewrite (filter_cons_False P g gs Hpg). exact IH.
Qed.

Lemma filas_de_ninguna_util (P : fila -> Prop) `{forall f, Decision (P f)}
    (n : texto) (df : list fila) :
  Forall (fun g => ~ (col_Nombre_Local g = Some n /\ P g)) df ->
  filas_de n (filter P df) = [].
Proof.
  intros Hd. unfold filas_de. induction Hd as [|g gs Hg _ IH]; [reflexivity|].
  destruct (decide (P g)) as [Hpg|Hpg].
  - rewrite (filter_cons_True P g gs Hpg).
    rewrite (filter_cons_False (fun g => col_Nombre_Local g = Some n) g _); [exact IH|].
    intros Hng. apply Hg. split; assumption.
  - rewrite (filter_cons_False P g gs Hpg). exact IH.
Qed.

(** X11: the dictionary of the batch script holds, under a vendor name,
    the address, business type and chain flag of the last row that carries
    both the name and an address; a later row of the same vendor without an
    address does not replace it, and a vendor that never appears with an
    address is not in the dictionary. *)
Theorem diccionario_ultima_direccion (nombre : texto) (df : list fila) :
  (forall antes f despues,
      df = antes ++ f :: despues ->
      col_Nombre_Local f = Some nombre -> es_nulo (col_Direccion_Local f) = false ->
      Forall (fun g => ~ (col_Nombre_Local g = Some nombre
                          /\ es_nulo (col_Direccion_Local g) = false)) despues ->
      obtener_diccionario_locales_dir df !! nombre
      = Some (DatosLocalDir (col_Direccion_Local f) (col_Tipo_Negocio f) (col_Cadena f)))
  /\ (Forall (fun g => ~ (col_Nombre_Local g = Some nombre
                          /\ es_nulo (col_Direccion_Local g) = false)) df ->
      obtener_diccionario_locales_dir df !! nombre = None).
Proof.
  rewrite diccionario_dir_lookup. split.
  - intros antes f despues -> Hn Hd Hr.
    rewrite (filas_de_ultima_util con_nombre_y_direccion nombre antes despues f); auto.
    + split; [rewrite Hn; eauto|exact Hd].
    + eapply Forall_impl; [exact Hr|]. intros g Hg [Hng [_ Hdg]]. apply Hg. auto.
  - intros Hr. rewrite filas_de_ninguna_util; [reflexivity|].
    eapply Forall_impl; [exact Hr|]. intros g Hg [Hng [_ Hdg]]. apply Hg. auto.
Qed.

Lemma diccionario_ultima_direccion_witness :
  obtener_diccionario_locales_dir
    ([] ++ Fila VNulo VNulo (Some (txt "Starbucks")) (VTexto (txt "Av. Santa Fe 1234"))
                (VTexto (txt "Cafeteria")) (VTexto (txt "Si")) VNulo
     :: [Fila VNulo VNulo (Some (txt "Starbucks")) VNulo
              (VTexto (txt "Restaurante")) (VTexto (txt "No")) VNulo])
    !! txt "Starbucks"
  = Some (DatosLocalDir (VTexto (txt "Av. Santa Fe 1234")) (VTexto (txt "Cafeteria"))
            (VTexto (txt "Si"))).
Proof.
  refine (proj1 (diccionario_ultima_direccion (txt "Starbucks") _) []
    (Fila VNulo VNulo (Some (txt "Starbucks")) (VTexto (txt "Av. Santa Fe 1234"))
          (VTexto (txt "Cafeteria")) (VTexto (txt "Si")) VNulo)
    [Fila VNulo VNulo (Some (txt "Starbucks")) VNulo
          (VTexto (txt "Restaurante")) (VTexto (txt "No")) VNulo]
    eq_refl eq_refl eq_refl _).
  constructor; [|constructor]. intros [_ H]. vm_compute in H. discriminate.
Defined.

(** ** The batch run *)

Lemma paso_pedido_en_orden (F0 : gset texto) (c0 : Z) (st : lote) (p : pedido) :
  lote_en_orden F0 c0 st -> lote_en_orden F0 c0 (paso_pedido st p).
Proof.
  intros (Hc & Hi & Hf & Hn & H0). unfold paso_pedido.
  destruct (bool_decide (firma (Hora_Aceptacion p) (Hora_Entrega p) ∈ l_firmas st)) eqn:E.
  { repeat split; assumption || apply Hf. }
  apply bool_decide_eq_false in E.
  assert ((firma (Hora_Aceptacion p) (Hora_Entrega p) ∉ F0)
          /\ (firma (Hora_Aceptacion p) (Hora_Entrega p)
              ∉ map firma_de_registro (l_nuevos st))) as [E0 En].
  { split; intros H; apply E, Hf; auto. }
  unfold lote_en_orden. cbn [l_contador l_nuevos l_firmas].
  rewrite map_app, length_app. cbn [map length]. unfold firma_de_registro at 2 4.
  cbn [reg_Hora_Aceptacion reg_Hora_Entrega].
  split; [lia|]. split; [|split; [|split]].
  - intros i r Hr. apply lookup_app_Some in Hr as [Hr|[Hl Hr]]; [apply Hi; exact Hr|].
    destruct (i - length (l_nuevos st))%nat as [|j] eqn:Ej; [|destruct j; discriminate].
    simpl in Hr. inversion Hr; subst r. simpl. lia.
  - intros s. rewrite elem_of_union, elem_of_singleton, elem_of_app, list_elem_of_singleton, Hf.
    tauto.
  - apply NoDup_app. split; [exact Hn|]. split.
    + intros s Hs Hs'. apply list_elem_of_singleton in Hs'. subst s. exact (En Hs).
    + apply NoDup_singleton.
  - intros r Hr. apply elem_of_app in Hr as [Hr|Hr]; [apply H0; exact Hr|].
    apply list_elem_of_singleton in Hr. subst r. exact E0.
Qed.

Lemma paso_pedido_firma (st : lote) (p : pedido) :
  firma (Hora_Aceptacion p) (Hora_Entrega p) ∈ l_firmas (paso_pedido st p)
  /\ l_firmas st ⊆ l_firmas (paso_pedido st p).
Proof.
  unfold paso_pedido.
  destruct (bool_decide (firma (Hora_Aceptacion p) (Hora_Entrega p) ∈ l_firmas st)) eqn:E.
  - apply bool_decide_eq_true in E. split; [exact E|reflexivity].
  - cbn [l_firmas]. split; [|apply union_subseteq_l].
    apply elem_of_union. right. apply elem_of_singleton. reflexivity.
Qed.

Lemma pedidos_en_orden (F0 : gset texto) (c0 : Z) (pedidos : list pedido) :
  forall st, lote_en_orden F0 c0 st ->
    lote_en_orden F0 c0 (foldl paso_pedido st pedidos)
    /\ l_firmas st ⊆ l_firmas (foldl paso_pedido st pedidos)
    /\ (forall p, p ∈ pedidos ->
          firma (Hora_Aceptacion p) (Hora_Entrega p)
          ∈ l_firmas (foldl paso_pedido st pedidos)).
Proof.
  induction pedidos as [|q ps IH]; intros st H; simpl.
  - split; [exact H|]. split; [reflexivity|]. intros p Hp. inversion Hp.
  - destruct (IH _ (paso_pedido_en_orden _ _ _ q H)) as (H1 & H2 & H3).
    destruct (paso_pedido_firma st q) as [Hq Hs].
    split; [exact H1|]. split; [etransitivity; eassumption|].
    intros p Hp. apply elem_of_cons in Hp as [->|Hp]; [|apply H3; exact Hp].
    apply H2. exact Hq.
Qed.

Lemma imagenes_en_orden (env : entorno) (F0 : gset texto) (c0 : Z)
    (imgs : list (option texto)) :
  forall st st',
    lote_en_orden F0 c0 st -> bucle_imagenes env imgs st = Ok st' ->
    lote_en_orden F0 c0 st'
    /\ l_firmas st ⊆ l_firmas st'
    /\ (forall img pedidos p,
          img ∈ imgs -> Procesador.procesar_imagen_ocr env img = Ok pedidos -> p ∈ pedidos ->
          firma (Hora_Aceptacion p) (Hora_Entrega p) ∈ l_firmas st').
Proof.
  induction imgs as [|img resto IH]; intros st st' H Hb; simpl in Hb.
  - inversion Hb; subst. split; [exact H|]. split; [reflexivity|].
    intros img ps p Hi. inversion Hi.
  - destruct (Procesador.procesar_imagen_ocr env img) as [ps|e] eqn:E; [|discriminate].
    destruct (pedidos_en_orden F0 c0 ps st H) as (H1 & H2 & H3).
    destruct (IH _ _ H1 Hb) as (H4 & H5 & H6).
    split; [exact H4|]. split; [etransitivity; eassumption|].
    intros img' ps' p Hi Hp' Hp. apply elem_of_cons in Hi as [->|Hi].
    + rewrite E in Hp'. inversion Hp'; subst ps'. apply H5, H3. exact Hp.
    + eapply H6; eassumption.
Qed.

Lemma lote_inicial_en_orden (F0 : gset texto) (c0 : Z) : lote_en_orden F0 c0 (Lote F0 [] c0).
Proof.
  unfold lote_en_orden. simpl. split; [lia|]. split; [intros i r H; discriminate|].
  split; [|split; [constructor|]].
  - intros s. split; [auto|]. intros [H|H]; [exact H|inversion H].
  - intros r H. inversion H.
Qed.

(** X12: the rows a batch run is about to append hold no order twice and
    no order of the history: their signatures are pairwise different and
    none is a signature of the history; and every order extracted from
    the images is, by its signature, in the history or among the new rows. *)
Theorem lote_sin_duplicados env df_hist ids imgs st :
  main_nuevos env df_hist ids imgs = Ok st ->
  NoDup (map firma_de_registro (l_nuevos st))
  /\ (forall r, r ∈ l_nuevos st ->
        pedido_ya_existe (reg_Hora_Aceptacion r) (reg_Hora_Entrega r)
          (obtener_firmas_existentes env df_hist) = false)
  /\ (forall img pedidos p,
        img ∈ imgs -> Procesador.procesar_imagen_ocr env img = Ok pedidos -> p ∈ pedidos ->
        pedido_ya_existe (Hora_Aceptacion p) (Hora_Entrega p)
          (obtener_firmas_existentes env df_hist) = true
        \/ firma (Hora_Aceptacion p) (Hora_Entrega p)
           ∈ map firma_de_registro (l_nuevos st)).
Proof.
  unfold main_nuevos. intros H.
  destruct (imagenes_en_orden env _ _ imgs _ _ (lote_inicial_en_orden _ _) H)
    as ((_ & _ & Hf & Hn & H0) & _ & Hp).
  split; [exact Hn|]. split.
  - intros r Hr. unfold pedido_ya_existe. apply bool_decide_eq_false. exact (H0 r Hr).
  - intros img ps p Hi Hps Hpp. unfold pedido_ya_existe. rewrite bool_decide_eq_true.
    apply Hf. eapply Hp; eassumption.
Qed.

Lemma maximo_cota (l : list Z) (m : Z) :
  maximo l = Some m -> m ∈ l /\ forall v, v ∈ l -> v <= m.
Proof.
  revert m. induction l as [|x l IH]; intros m H; [discriminate|].
  simpl in H. destruct (maximo l) as [m'|] eqn:E.
  - inversion H; subst m. destruct (IH m' eq_refl) as [Hin Hle]. split.
    + destruct (Z.max_spec x m') as [[_ ->]|[_ ->]]; [right; exact Hin|left].
    + intros v Hv. apply elem_of_cons in Hv as [->|Hv]; [lia|].
      specialize (Hle v Hv). lia.
  - inversion H; subst m. destruct l; [|discriminate]. split; [left|].
    intros v Hv. apply list_elem_of_singleton in Hv. lia.
Qed.

Lemma maximo_vacio (l : list Z) : maximo l = None -> l = [].
Proof. destruct l; [reflexivity|]. simpl. destruct (maximo l); discriminate. Qed.

Lemma ultimo_id_cota (vs : list (option Z)) (v : Z) :
  Some v ∈ vs -> v <= ultimo_id (Some vs).
Proof.
  intros Hv. unfold ultimo_id.
  assert (v ∈ omap (fun v => v) vs) as Hin.
  { apply list_elem_of_omap. exists (Some v). auto. }
  destruct (maximo (omap (fun v => v) vs)) as [m|] eqn:E.
  - apply (proj2 (maximo_cota _ _ E)). exact Hin.
  - apply maximo_vacio in E. rewrite E in Hin. inversion Hin.
Qed.

(** X13: the ids a batch run gives to its new rows are consecutive, in
    the order the rows are appended, and start one above the largest id of
    the sheet (at 1 for a sheet without ids): each is larger than every id
    already there. *)
Theorem ids_del_lote env df_hist ids imgs st :
  main_nuevos env df_hist ids imgs = Ok st ->
  (forall i r, l_nuevos st !! i = Some r ->
     reg_ID_Pedido r = ultimo_id ids + 1 + Z.of_nat i)
  /\ (forall r vs v, r ∈ l_nuevos st -> ids = Some vs -> Some v ∈ vs ->
        v < reg_ID_Pedido r).
Proof.
  unfold main_nuevos. intros H.
  destruct (imagenes_en_orden env _ _ imgs _ _ (lote_inicial_en_orden _ _) H)
    as ((_ & Hi & _) & _).
  split; [exact Hi|].
  intros r vs v Hr -> Hv. apply list_elem_of_lookup in Hr as [i Hr].
  rewrite (Hi i r Hr). pose proof (ultimo_id_cota vs v Hv). lia.
Qed.

(** X14: the next id the application asks for is 1 for an empty table
    or a missing column, and otherwise one above the largest id, so larger
    than every id of the column; it is the id the batch script would start
    with.  A table with rows whose ids are all blank makes the call raise. *)
Theorem siguiente_id_es_nuevo (columna : columna_id) :
  (forall n, obtener_siguiente_id columna = Ok n ->
     (forall vs v, columna = Some vs -> Some v ∈ vs -> v < n)
     /\ n = ultimo_id columna + 1)
  /\ (columna = None \/ columna = Some [] -> obtener_siguiente_id columna = Ok 1)
  /\ (forall vs, columna = Some vs -> vs <> [] -> Forall (fun v => v = None) vs ->
        obtener_siguiente_id columna = Lanza ValueError).
Proof.
  split; [|split].
  - intros n H. destruct columna as [[|x vs]|]; unfold obtener_siguiente_id in H.
    + inversion H; subst. split; [|reflexivity]. intros vs v E Hv. inversion E; subst.
      inversion Hv.
    + destruct (maximo (omap (fun v => v) (x :: vs))) as [m|] eqn:E; [|discriminate].
      inversion H; subst n. split.
      * intros vs' v E' Hv. inversion E'; subst vs'.
        pose proof (ultimo_id_cota _ _ Hv) as Hc. unfold ultimo_id in Hc.
        rewrite E in Hc. simpl in Hc. lia.
      * unfold ultimo_id. rewrite E. reflexivity.
    + inversion H; subst. split; [|reflexivity]. intros vs v E. discriminate.
  - intros [->| ->]; reflexivity.
  - intros vs -> Hne Hall. destruct vs as [|x vs]; [congruence|].
    unfold obtener_siguiente_id.
    replace (omap (fun v => v) (x :: vs)) with (@nil Z); [reflexivity|].
    symmetry. clear Hne. induction Hall as [|y ys -> _ IH]; [reflexivity|exact IH].
Qed.

Lemma lote_sin_duplicados_witness :
  NoDup (map firma_de_registro
           [Registro 8 [] (txt "05/03/2024 12:00") (txt "05/03/2024 12:30") (txt "Havanna")
                     [] [] [] [] []]).
Proof.
  assert (main_nuevos (Entorno 2026 false) [] (Some [Some 7; None])
            [Some (txt "mar, 5 de mar de 2024" ++ salto :: txt "Havanna"
                   ++ salto :: txt "12:00 - 12:30");
             Some (txt "mar, 5 de mar de 2024" ++ salto :: txt "Havanna"
                   ++ salto :: txt "12:00 - 12:30")]
          = Ok (Lote {[ txt "05/03/2024 12:00_05/03/2024 12:30" ]}
                  [Registro 8 [] (txt "05/03/2024 12:00") (txt "05/03/2024 12:30")
                            (txt "Havanna") [] [] [] [] []] 9)) as H
    by (vm_compute; reflexivity).
  exact (proj1 (lote_sin_duplicados _ _ _ _ _ H)).
Defined.

Lemma ids_del_lote_witness :
  reg_ID_Pedido
    (Registro 8 [] (txt "05/03/2024 12:00") (txt "05/03/2024 12:30") (txt "Havanna")
              [] [] [] [] [])
  = ultimo_id (Some [Some 7; None]) + 1 + Z.of_nat 0.
Proof.
  assert (main_nuevos (Entorno 2026 false) [] (Some [Some 7; None])
            [Some (txt "mar, 5 de mar de 2024" ++ salto :: txt "Havanna"
                   ++ salto :: txt "12:00 - 12:30")]
          = Ok (Lote {[ txt "05/03/2024 12:00_05/03/2024 12:30" ]}
                  [Registro 8 [] (txt "05/03/2024 12:00") (txt "05/03/2024 12:30")
                            (txt "Havanna") [] [] [] [] []] 9)) as H
    by (vm_compute; reflexivity).
  exact (proj1 (ids_del_lote _ _ _ _ _ H) 0%nat _ eq_refl).
Defined.

Lemma siguiente_id_es_nuevo_witness :
  8 = ultimo_id (Some [Some 3; None; Some 7]) + 1
  /\ obtener_siguiente_id (Some []) = Ok 1
  /\ obtener_siguiente_id (Some [None; None]) = Lanza ValueError.
Proof.
  split; [|split].
  - apply (proj1 (siguiente_id_es_nuevo (Some [Some 3; None; Some 7])) 8). reflexivity.
  - apply (proj1 (proj2 (siguiente_id_es_nuevo (Some [])))). right. reflexivity.
  - apply (proj2 (proj2 (siguiente_id_es_nuevo (Some [None; None]))) [None; None]).
    + reflexivity.
    + discriminate.
    + repeat constructor.
Defined.

(** ** The shifts *)

Lemma filtro_dos (P : turno -> bool) (df : list turno) :
  forall i j a b,
    (i < j)%nat -> df !! i = Some a -> df !! j = Some b ->
    P a = true -> P b = true ->
    (2 <= length (filter (fun t => P t = true) df))%nat.
Proof.
  induction df as [|x df IH]; intros i j a b Hij Ha Hb Pa Pb; [discriminate|].
  destruct i as [|i].
  - simpl in Ha. inversion Ha; subst x. destruct j as [|j]; [lia|]. simpl in Hb.
    rewrite (filter_cons_True (fun t => P t = true) a df Pa). simpl.
    assert (b ∈ filter (fun t => P t = true) df) as Hin.
    { apply list_elem_of_filter. split; [exact Pb|]. eapply list_elem_of_lookup_2. exact Hb. }
    destruct (filter (fun t => P t = true) df); [inversion Hin|simpl; lia].
  - destruct j as [|j]; [lia|]. simpl in Ha, Hb.
    assert (i < j)%nat as Hij' by lia.
    specialize (IH i j a b Hij' Ha Hb Pa Pb).
    destruct (decide (P x = true)) as [Px|Px].
    + rewrite (filter_cons_True (fun t => P t = true) x df Px). simpl. lia.
    + rewrite (filter_cons_False (fun t => P t = true) x df Px). exact IH.
Qed.

Lemma filtro_ninguno (P : turno -> bool) (df : list turno) :
  Forall (fun t => P t = false) df -> filter (fun t => P t = true) df = [].
Proof.
  intros H. induction H as [|x df Hx _ IH]; [reflexivity|].
  rewrite filter_cons_False by congruence. exact IH.
Qed.

Lemma dt_leb_refl (h : datetime) : dt_leb h h = true.
Proof. unfold dt_leb, dt_ltb. rewrite lex_ltb_irrefl. reflexivity. Qed.

(** X15: the shift of an order is found only when exactly one row of the
    shifts sheet contains the acceptance time, both ends included: no row
    gives nothing, one row gives its id, and two rows give AMBIGUO, as
    happens at the very instant one shift ends and another begins. *)
Theorem turno_de_un_pedido (h : datetime) (df : list turno) :
  (Forall (fun t => en_turno h t = false) df -> resolver_id_turno_por_hora h df = None)
  /\ (forall antes t despues,
        df = antes ++ t :: despues -> en_turno h t = true ->
        Forall (fun u => en_turno h u = false) antes ->
        Forall (fun u => en_turno h u = false) despues ->
        resolver_id_turno_por_hora h df = Some (ID_Turno t))
  /\ (forall i j t1 t2,
        i <> j -> df !! i = Some t1 -> df !! j = Some t2 ->
        en_turno h t1 = true -> en_turno h t2 = true ->
        resolver_id_turno_por_hora h df = Some AMBIGUO)
  /\ (forall i j t1 t2 inicio fin,
        i <> j -> df !! i = Some t1 -> df !! j = Some t2 ->
        Hora_Inicio t1 = Some inicio -> Hora_Fin t1 = Some h -> dt_leb inicio h = true ->
        Hora_Inicio t2 = Some h -> Hora_Fin t2 = Some fin -> dt_leb h fin = true ->
        resolver_id_turno_por_hora h df = Some AMBIGUO).
Proof.
  assert (forall i j t1 t2,
            i <> j -> df !! i = Some t1 -> df !! j = Some t2 ->
            en_turno h t1 = true -> en_turno h t2 = true ->
            resolver_id_turno_por_hora h df = Some AMBIGUO) as Hdos.
  { intros i j t1 t2 Hij H1 H2 E1 E2. unfold resolver_id_turno_por_hora.
    assert (2 <= length (filter (fun t => en_turno h t = true) df))%nat as Hl.
    { destruct (Nat.lt_total i j) as [Hlt|[Heq|Hgt]]; [|contradiction|].
      - exact (filtro_dos (en_turno h) df i j t1 t2 Hlt H1 H2 E1 E2).
      - exact (filtro_dos (en_turno h) df j i t2 t1 Hgt H2 H1 E2 E1). }
    destruct (filter _ df) as [|x [|y l]]; simpl in Hl; try lia. reflexivity. }
  split; [|split; [|split]].
  - intros H. unfold resolver_id_turno_por_hora. rewrite filtro_ninguno by exact H.
    reflexivity.
  - intros antes t despues -> Ht Ha Hd. unfold resolver_id_turno_por_hora.
    rewrite filter_app, (filtro_ninguno _ _ Ha).
    rewrite (filter_cons_True (fun u => en_turno h u = true) t despues Ht).
    rewrite (filtro_ninguno _ _ Hd). reflexivity.
  - exact Hdos.
  - intros i j t1 t2 inicio fin Hij H1 H2 Hi1 Hf1 Hl1 Hi2 Hf2 Hl2.
    apply (Hdos i j t1 t2 Hij H1 H2); unfold en_turno.
    + rewrite Hi1, Hf1, Hl1, dt_leb_refl. reflexivity.
    + rewrite Hi2, Hf2, Hl2, dt_leb_refl. reflexivity.
Qed.

Lemma turno_de_un_pedido_witness :
  resolver_id_turno_por_hora (Datetime (Fecha 2024 3 5) (Reloj 20 0 0))
    [Turno (VOtro (txt "1")) (Some (Datetime (Fecha 2024 3 5) (Reloj 18 0 0)))
           (Some (Datetime (Fecha 2024 3 5) (Reloj 20 0 0)));
     Turno (VOtro (txt "2")) (Some (Datetime (Fecha 2024 3 5) (Reloj 20 0 0)))
           (Some (Datetime (Fecha 2024 3 5) (Reloj 23 0 0)))]
  = Some AMBIGUO.
Proof.
  apply (proj2 (proj2 (proj2 (turno_de_un_pedido _ _))) 0%nat 1%nat
           (Turno (VOtro (txt "1")) (Some (Datetime (Fecha 2024 3 5) (Reloj 18 0 0)))
                  (Some (Datetime (Fecha 2024 3 5) (Reloj 20 0 0))))
           (Turno (VOtro (txt "2")) (Some (Datetime (Fecha 2024 3 5) (Reloj 20 0 0)))
                  (Some (Datetime (Fecha 2024 3 5) (Reloj 23 0 0))))
           (Datetime (Fecha 2024 3 5) (Reloj 18 0 0))
           (Datetime (Fecha 2024 3 5) (Reloj 23 0 0)));
    try reflexivity. discriminate.
Defined.

Lemma reloj_tricotomia (a b : reloj) :
  reloj_eqb a b = false -> reloj_ltb b a = false -> reloj_ltb a b = true.
Proof.
  unfold reloj_eqb, reloj_ltb, lex_ltb. intros He Hl.
  destruct (Z.ltb_spec (hora a) (hora b)); [reflexivity|].
  destruct (Z.ltb_spec (hora b) (hora a)); [discriminate|].
  destruct (Z.eqb_spec (hora a) (hora b)); [|lia].
  destruct (Z.eqb_spec (hora b) (hora a)); [|lia]. simpl in *.
  destruct (Z.ltb_spec (minuto a) (minuto b)); [reflexivity|].
  destruct (Z.ltb_spec (minuto b) (minuto a)); [discriminate|].
  destruct (Z.eqb_spec (minuto a) (minuto b)); [|lia].
  destruct (Z.eqb_spec (minuto b) (minuto a)); [|lia]. simpl in *.
  destruct (Z.ltb_spec (segundo a) (segundo b)); [reflexivity|].
  destruct (Z.ltb_spec (segundo b) (segundo a)); [discriminate|].
  destruct (Z.eqb_spec (segundo a) (segundo b)); [discriminate|lia].
Qed.

Lemma mas_un_dia_despues (f f' : fecha) (a b : reloj) :
  mas_un_dia f = Ok f' -> dt_ltb (Datetime f a) (Datetime f' b) = true.
Proof.
  unfold mas_un_dia. intros H.
  destruct (dia f <? dias_del_mes (anio f) (mes f)); [|destruct (mes f <? 12);
    [|destruct (anio f <? 9999); [|discriminate]]];
    inversion H; subst f'; clear H; unfold dt_ltb, campos; simpl.
  - rewrite !Z.ltb_irrefl, !Z.eqb_refl. simpl.
    replace (dia f <? dia f + 1) with true by (symmetry; apply Z.ltb_lt; lia).
    reflexivity.
  - rewrite !Z.ltb_irrefl, !Z.eqb_refl. simpl.
    replace (mes f <? mes f + 1) with true by (symmetry; apply Z.ltb_lt; lia).
    reflexivity.
  - replace (anio f <? anio f + 1) with true by (symmetry; apply Z.ltb_lt; lia).
    reflexivity.
Qed.

(** X16: a shift the application saves ends strictly after it begins:
    it begins on the chosen date at the chosen clock time and ends at the
    end clock time on the same date, or on the next day when the end clock
    time is the earlier one; equal clock times are refused and nothing is
    saved. *)
Theorem turno_termina_despues (fecha_turno : fecha) (hora_inicio hora_fin : reloj) :
  (tiempos_turno fecha_turno hora_inicio hora_fin = None
   <-> reloj_eqb hora_inicio hora_fin = true)
  /\ (forall dt_inicio dt_fin,
        tiempos_turno fecha_turno hora_inicio hora_fin = Some (Ok (dt_inicio, dt_fin)) ->
        dt_ltb dt_inicio dt_fin = true
        /\ dt_inicio = Datetime fecha_turno hora_inicio
        /\ dt_reloj dt_fin = hora_fin
        /\ (if reloj_ltb hora_fin hora_inicio
            then mas_un_dia fecha_turno = Ok (dt_fecha dt_fin)
            else dt_fecha dt_fin = fecha_turno)).
Proof.
  unfold tiempos_turno, sumar_un_dia, combine. cbn [dt_fecha dt_reloj]. split.
  - destruct (reloj_eqb hora_inicio hora_fin); [tauto|].
    destruct (reloj_ltb hora_fin hora_inicio); [destruct (mas_un_dia fecha_turno)|];
      split; discriminate.
  - intros di df. destruct (reloj_eqb hora_inicio hora_fin) eqn:He; [discriminate|].
    destruct (reloj_ltb hora_fin hora_inicio) eqn:Hl.
    + destruct (mas_un_dia fecha_turno) as [f'|e] eqn:Hm; [|discriminate].
      intros H; inversion H; subst. cbn [dt_fecha dt_reloj].
      split; [apply mas_un_dia_despues; exact Hm|]. auto.
    + intros H; inversion H; subst. cbn [dt_fecha dt_reloj].
      split; [|auto]. rewrite dt_ltb_misma_fecha. apply reloj_tricotomia; assumption.
Qed.

Lemma turno_termina_despues_witness :
  dt_ltb (Datetime (Fecha 2024 12 31) (Reloj 20 0 0))
         (Datetime (Fecha 2025 1 1) (Reloj 0 0 0)) = true.
Proof.
  apply (proj2 (turno_termina_despues (Fecha 2024 12 31) (Reloj 20 0 0) (Reloj 0 0 0))
           (Datetime (Fecha 2024 12 31) (Reloj 20 0 0))
           (Datetime (Fecha 2025 1 1) (Reloj 0 0 0))).
  vm_compute. reflexivity.
Defined.

(** ** Filling the gaps of the sheet *)

Section RellenarPropiedades.

Context {V : Type}.
Variable verdadero : V -> bool.
Variable str_de : V -> texto.
Variable dicc : gmap texto (@datos_conocidos V).

Lemma rellenar_celda (h : hoja) (row col : nat) (nuevo : V) (r c : nat) :
  celda (rellenar verdadero h row col nuevo).1 r c
  = if (r =? row)%nat && (c =? col)%nat
    then (if negb (verdadero (celda h row col)) && verdadero nuevo
          then nuevo else celda h row col)
    else celda h r c.
Proof.
  unfold rellenar.
  destruct (negb (verdadero (celda h row col)) && verdadero nuevo); simpl.
  - reflexivity.
  - destruct (Nat.eqb_spec r row) as [->|]; [|reflexivity].
    destruct (Nat.eqb_spec c col) as [->|]; reflexivity.
Qed.

Lemma rellenar_cuenta (h : hoja) (row col : nat) (nuevo : V) :
  (rellenar verdadero h row col nuevo).2
  = if negb (verdadero (celda h row col)) && verdadero nuevo then 1%nat else 0%nat.
Proof.
  unfold rellenar. destruct (negb (verdadero (celda h row col)) && verdadero nuevo);
    reflexivity.
Qed.

Lemma rellenar_quieto (h : hoja) (row col : nat) (nuevo : V) :
  negb (verdadero (celda h row col)) && verdadero nuevo = false ->
  rellenar verdadero h row col nuevo = (h, 0%nat).
Proof. intros H. unfold rellenar. rewrite H. reflexivity. Qed.

Lemma rellenar_max_row (h : hoja) (row col : nat) (nuevo : V) :
  (row <= max_row h)%nat -> max_row (rellenar verdadero h row col nuevo).1 = max_row h.
Proof.
  intros H. unfold rellenar.
  destruct (negb (verdadero (celda h row col)) && verdadero nuevo); simpl; lia.
Qed.

(** One turn of the loop leaves the other rows alone and brings its own
    row to its final state. *)
Lemma paso_fila_celda (st : hoja * nat) (row r c : nat) :
  celda (paso_fila verdadero str_de dicc st row).1 r c
  = if (r =? row)%nat then fila_rellenada verdadero str_de st.1 dicc r c
    else celda st.1 r c.
Proof.
  unfold paso_fila, fila_rellenada, candidato.
  destruct (Nat.eqb_spec r row) as [->|Hr].
  - destruct (verdadero (celda st.1 row COL_NOMBRE)); [|reflexivity].
    destruct (dicc !! _) as [datos|]; [|reflexivity].
    cbn [fst]. rewrite !rellenar_celda, !Nat.eqb_refl. cbn [andb].
    unfold COL_DIR, COL_TIPO, COL_CADENA.
    destruct (Nat.eqb_spec c 8) as [->|H8]; [reflexivity|].
    destruct (Nat.eqb_spec c 7) as [->|H7]; [reflexivity|].
    destruct (Nat.eqb_spec c 6) as [->|H6]; reflexivity.
  - destruct (verdadero (celda st.1 row COL_NOMBRE)); [|reflexivity].
    destruct (dicc !! _) as [datos|]; [|reflexivity].
    cbn [fst]. rewrite !rellenar_celda.
    replace (r =? row)%nat with false by (symmetry; apply Nat.eqb_neq; exact Hr).
    reflexivity.
Qed.

Lemma paso_fila_max_row (st : hoja * nat) (row : nat) :
  (row <= max_row st.1)%nat ->
  max_row (paso_fila verdadero str_de dicc st row).1 = max_row st.1.
Proof.
  intros H. unfold paso_fila.
  destruct (verdadero (celda st.1 row COL_NOMBRE)); [|reflexivity].
  destruct (dicc !! _) as [datos|]; [|reflexivity].
  cbn [fst].
  pose proof (rellenar_max_row st.1 row COL_DIR (dc_Direccion_Local datos) H) as E1.
  set (h1 := (rellenar verdadero st.1 row COL_DIR (dc_Direccion_Local datos)).1) in *.
  assert (row <= max_row h1)%nat as H1 by (rewrite E1; exact H).
  pose proof (rellenar_max_row h1 row COL_TIPO (dc_Tipo_Negocio datos) H1) as E2.
  set (h2 := (rellenar verdadero h1 row COL_TIPO (dc_Tipo_Negocio datos)).1) in *.
  assert (row <= max_row h2)%nat as H2 by (rewrite E2; exact H1).
  rewrite (rellenar_max_row h2 row COL_CADENA (dc_Cadena datos) H2). congruence.
Qed.

(** The count goes up exactly when a cell changes. *)
Lemma paso_fila_cuenta (st : hoja * nat) (row : nat) :
  (paso_fila verdadero str_de dicc st row).2 = 0%nat ->
  st.2 = 0%nat /\ forall r c, celda (paso_fila verdadero str_de dicc st row).1 r c = celda st.1 r c.
Proof.
  unfold paso_fila.
  destruct (verdadero (celda st.1 row COL_NOMBRE)); [|auto].
  destruct (dicc !! _) as [datos|]; [|auto].
  cbn [fst snd]. rewrite !rellenar_cuenta. intros H.
  destruct (negb (verdadero (celda st.1 row COL_DIR)) && verdadero (dc_Direccion_Local datos))
    eqn:E1; [lia|].
  rewrite (rellenar_quieto _ _ _ _ E1) in H |- *. cbn [fst] in H |- *.
  destruct (negb (verdadero (celda st.1 row COL_TIPO)) && verdadero (dc_Tipo_Negocio datos))
    eqn:E2; [lia|].
  rewrite (rellenar_quieto _ _ _ _ E2) in H |- *. cbn [fst] in H |- *.
  destruct (negb (verdadero (celda st.1 row COL_CADENA)) && verdadero (dc_Cadena datos))
    eqn:E3; [lia|].
  rewrite (rellenar_quieto _ _ _ _ E3). cbn [fst]. split; [lia|reflexivity].
Qed.

Lemma fila_rellenada_local (h1 h2 : hoja) (r c : nat) :
  (forall c', celda h1 r c' = celda h2 r c') ->
  fila_rellenada verdadero str_de h1 dicc r c = fila_rellenada verdadero str_de h2 dicc r c.
Proof.
  intros H. unfold fila_rellenada, candidato. rewrite !H. reflexivity.
Qed.

(** The sheet after the first [n] rows of the loop. *)
Lemma bucle_filas_celda (h : hoja) (n : nat) :
  let st := foldl (paso_fila verdadero str_de dicc) (h, 0%nat) (seq 2 n) in
  (n + 1 <= max_row h -> max_row st.1 = max_row h)%nat
  /\ forall r c,
       celda st.1 r c
       = if (2 <=? r)%nat && (r <? 2 + n)%nat
         then fila_rellenada verdadero str_de h dicc r c else celda h r c.
Proof.
  induction n as [|n IH]; cbv zeta.
  - cbn [seq foldl fst]. split; [reflexivity|]. intros r c.
    destruct (Nat.leb_spec 2 r), (Nat.ltb_spec r (2 + 0)); cbn [andb];
      try reflexivity; lia.
  - rewrite seq_S, foldl_app. cbn [foldl]. cbv zeta in IH. destruct IH as [Hm IH].
    set (st := foldl (paso_fila verdadero str_de dicc) (h, 0%nat) (seq 2 n)) in *.
    split.
    + intros Hn. rewrite paso_fila_max_row; rewrite Hm by lia; lia.
    + intros r c. rewrite paso_fila_celda.
      destruct (Nat.eqb_spec r (2 + n)) as [->|Hr].
      * replace ((2 <=? 2 + n)%nat && (2 + n <? 2 + S n)%nat) with true
          by (symmetry; apply andb_true_iff; split;
              [apply Nat.leb_le|apply Nat.ltb_lt]; lia).
        apply fila_rellenada_local. intros c'. rewrite IH.
        replace (2 + n <? 2 + n)%nat with false by (symmetry; apply Nat.ltb_ge; lia).
        rewrite andb_false_r. reflexivity.
      * rewrite IH.
        replace (r <? 2 + S n)%nat with (r <? 2 + n)%nat; [reflexivity|].
        destruct (Nat.ltb_spec r (2 + n)), (Nat.ltb_spec r (2 + S n)); try reflexivity; lia.
Qed.

Lemma rellenar_huecos_celda (h : hoja) (r c : nat) :
  celda (rellenar_huecos_historicos verdadero str_de h dicc).1 r c
  = if (2 <=? r)%nat && (r <=? max_row h)%nat
    then fila_rellenada verdadero str_de h dicc r c else celda h r c.
Proof.
  unfold rellenar_huecos_historicos.
  rewrite (proj2 (bucle_filas_celda h (max_row h - 1))).
  destruct (Nat.leb_spec 2 r) as [H2|H2]; [|reflexivity]. cbn [andb].
  destruct (Nat.ltb_spec r (2 + (max_row h - 1))), (Nat.leb_spec r (max_row h));
    try reflexivity; lia.
Qed.

Lemma rellenar_huecos_max_row (h : hoja) :
  max_row (rellenar_huecos_historicos verdadero str_de h dicc).1 = max_row h.
Proof.
  unfold rellenar_huecos_historicos.
  destruct (max_row h) as [|m] eqn:E; [simpl; exact E|].
  rewrite <- E. apply (proj1 (bucle_filas_celda h (max_row h - 1))). lia.
Qed.

(** X17: filling the gaps never touches a cell that holds something, nor
    the header row, nor a row below the last one, nor any column but the
    address, the business type and the chain flag; and whatever it writes
    counts as true and is what the dictionary holds for the vendor the row
    names. *)
Theorem rellenar_no_pisa (h : hoja) (r c : nat) :
  let h' := (rellenar_huecos_historicos verdadero str_de h dicc).1 in
  (verdadero (celda h r c) = true -> celda h' r c = celda h r c)
  /\ ((r < 2 \/ max_row h < r \/ c < COL_DIR \/ COL_CADENA < c)%nat ->
      celda h' r c = celda h r c)
  /\ (celda h' r c = celda h r c
      \/ (verdadero (celda h' r c) = true
          /\ exists datos,
               dicc !! str_strip (str_de (celda h r COL_NOMBRE)) = Some datos
               /\ (celda h' r c = dc_Direccion_Local datos
                   \/ celda h' r c = dc_Tipo_Negocio datos
                   \/ celda h' r c = dc_Cadena datos))).
Proof.
  cbv zeta. rewrite rellenar_huecos_celda. unfold fila_rellenada, candidato.
  unfold COL_DIR, COL_TIPO, COL_CADENA.
  split; [|split].
  - intros Hv. rewrite Hv. cbn [negb andb].
    destruct (_ && _); [|reflexivity].
    destruct (verdadero (celda h r COL_NOMBRE)); [|reflexivity].
    destruct (dicc !! _); [|reflexivity].
    destruct (c =? 6)%nat; [reflexivity|]. destruct (c =? 7)%nat; [reflexivity|].
    destruct (c =? 8)%nat; reflexivity.
  - intros Hr.
    destruct (Nat.leb_spec 2 r); [|reflexivity].
    destruct (Nat.leb_spec r (max_row h)); [|reflexivity]. cbn [andb].
    destruct (verdadero (celda h r COL_NOMBRE)); [|reflexivity].
    destruct (dicc !! _); [|reflexivity].
    destruct (Nat.eqb_spec c 6); [lia|]. destruct (Nat.eqb_spec c 7); [lia|].
    destruct (Nat.eqb_spec c 8); [lia|]. reflexivity.
  - destruct (_ && _); [|left; reflexivity].
    destruct (verdadero (celda h r COL_NOMBRE)); [|left; reflexivity].
    destruct (dicc !! _) as [datos|] eqn:Ed; [|left; reflexivity].
    destruct (c =? 6)%nat.
    { destruct (verdadero (celda h r c)); [left; reflexivity|]. cbn [negb andb].
      destruct (verdadero (dc_Direccion_Local datos)) eqn:Ev; [|left; reflexivity].
      right. split; [exact Ev|]. exists datos. auto. }
    destruct (c =? 7)%nat.
    { destruct (verdadero (celda h r c)); [left; reflexivity|]. cbn [negb andb].
      destruct (verdadero (dc_Tipo_Negocio datos)) eqn:Ev; [|left; reflexivity].
      right. split; [exact Ev|]. exists datos. auto. }
    destruct (c =? 8)%nat; [|left; reflexivity].
    destruct (verdadero (celda h r c)); [left; reflexivity|]. cbn [negb andb].
    destruct (verdadero (dc_Cadena datos)) eqn:Ev; [|left; reflexivity].
    right. split; [exact Ev|]. exists datos. auto.
Qed.

Lemma bucle_filas_cuenta (filas : list nat) :
  forall st,
    (foldl (paso_fila verdadero str_de dicc) st filas).2 = 0%nat ->
    st.2 = 0%nat
    /\ forall r c, celda (foldl (paso_fila verdadero str_de dicc) st filas).1 r c = celda st.1 r c.
Proof.
  induction filas as [|x l IH]; intros st H; simpl in *; [auto|].
  destruct (IH _ H) as [H0 Hc]. destruct (paso_fila_cuenta _ _ H0) as [H1 Hp].
  split; [exact H1|]. intros r c. rewrite Hc. apply Hp.
Qed.

Lemma paso_fila_quieto (h : hoja) (k row : nat) :
  (forall c, fila_rellenada verdadero str_de h dicc row c = celda h row c) ->
  verdadero (celda h row COL_NOMBRE) = true ->
  forall datos, dicc !! str_strip (str_de (celda h row COL_NOMBRE)) = Some datos ->
  negb (verdadero (celda h row COL_DIR)) && verdadero (dc_Direccion_Local datos) = false
  /\ negb (verdadero (celda h row COL_TIPO)) && verdadero (dc_Tipo_Negocio datos) = false
  /\ negb (verdadero (celda h row COL_CADENA)) && verdadero (dc_Cadena datos) = false.
Proof.
  intros Hf Hn datos Hd.
  assert (forall c v, candidato verdadero str_de h dicc row c = Some v ->
            negb (verdadero (celda h row c)) && verdadero v = false) as Hc.
  { intros c v Hcv. specialize (Hf c). unfold fila_rellenada in Hf. rewrite Hcv in Hf.
    destruct (verdadero (celda h row c)) eqn:E1; [reflexivity|].
    destruct (verdadero v) eqn:E2; [|reflexivity].
    cbn [negb andb] in Hf. subst v. congruence. }
  unfold candidato in Hc. rewrite Hn, Hd in Hc.
  split; [apply (Hc COL_DIR); reflexivity|].
  split; [apply (Hc COL_TIPO); reflexivity|apply (Hc COL_CADENA); reflexivity].
Qed.

Lemma bucle_filas_quieto (h : hoja) (filas : list nat) :
  (forall row c, row ∈ filas -> fila_rellenada verdadero str_de h dicc row c = celda h row c) ->
  forall k, foldl (paso_fila verdadero str_de dicc) (h, k) filas = (h, k).
Proof.
  induction filas as [|x l IH]; intros Hf k; [reflexivity|].
  simpl. replace (paso_fila verdadero str_de dicc (h, k) x) with (h, k).
  - apply IH. intros row c Hr. apply Hf. right. exact Hr.
  - unfold paso_fila. cbn [fst snd].
    destruct (verdadero (celda h x COL_NOMBRE)) eqn:Hn; [|reflexivity].
    destruct (dicc !! _) as [datos|] eqn:Hd; [|reflexivity].
    destruct (paso_fila_quieto h k x (fun c => Hf x c (list_elem_of_here _ _)) Hn datos Hd)
      as (E1 & E2 & E3).
    rewrite (rellenar_quieto _ _ _ _ E1). cbn [fst snd].
    rewrite (rellenar_quieto _ _ _ _ E2). cbn [fst snd].
    rewrite (rellenar_quieto _ _ _ _ E3). cbn [fst snd].
    f_equal. lia.
Qed.

Lemma fila_rellenada_nombre (h : hoja) (r : nat) :
  fila_rellenada verdadero str_de h dicc r COL_NOMBRE = celda h r COL_NOMBRE.
Proof.
  unfold fila_rellenada, candidato.
  destruct (verdadero (celda h r COL_NOMBRE)); [|reflexivity].
  destruct (dicc !! _); reflexivity.
Qed.

(** A row that has been gone through has no gap left to fill. *)
Lemma fila_rellenada_idem (h1 h2 : hoja) (r c : nat) :
  (forall c', celda h2 r c' = fila_rellenada verdadero str_de h1 dicc r c') ->
  fila_rellenada verdadero str_de h2 dicc r c = celda h2 r c.
Proof.
  intros H.
  assert (candidato verdadero str_de h2 dicc r c = candidato verdadero str_de h1 dicc r c)
    as Ec.
  { unfold candidato. rewrite (H COL_NOMBRE), fila_rellenada_nombre. reflexivity. }
  unfold fila_rellenada at 1. rewrite Ec.
  destruct (candidato verdadero str_de h1 dicc r c) as [v|] eqn:E; [|reflexivity].
  rewrite (H c). unfold fila_rellenada. rewrite E.
  destruct (verdadero (celda h1 r c)) eqn:E1; cbn [negb andb]; [rewrite E1; reflexivity|].
  destruct (verdadero v) eqn:E2; rewrite ?E1, ?E2; reflexivity.
Qed.

(** X18: filling the gaps a second time with the same dictionary finds
    nothing to fill: the sheet comes back as it is and the count is 0.  And
    a count of 0 means that no cell changed, so that the file, which is
    written only on a positive count, always holds the sheet in memory. *)
Theorem rellenar_dos_veces (h : hoja) :
  let h' := (rellenar_huecos_historicos verdadero str_de h dicc).1 in
  rellenar_huecos_historicos verdadero str_de h' dicc = (h', 0%nat)
  /\ ((rellenar_huecos_historicos verdadero str_de h dicc).2 = 0%nat ->
      forall r c, celda h' r c = celda h r c)
  /\ (forall r c, celda (archivo_despues verdadero str_de h dicc) r c = celda h' r c).
Proof.
  cbv zeta.
  assert ((rellenar_huecos_historicos verdadero str_de h dicc).2 = 0%nat ->
          forall r c, celda (rellenar_huecos_historicos verdadero str_de h dicc).1 r c
                      = celda h r c) as Hcero.
  { intros H. unfold rellenar_huecos_historicos in *.
    exact (proj2 (bucle_filas_cuenta _ _ H)). }
  split; [|split; [exact Hcero|]].
  - unfold rellenar_huecos_historicos at 1. rewrite rellenar_huecos_max_row.
    apply bucle_filas_quieto. intros row c Hr.
    apply (fila_rellenada_idem h). intros c'. rewrite rellenar_huecos_celda.
    apply list_elem_of_In, in_seq in Hr.
    replace ((2 <=? row)%nat && (row <=? max_row h)%nat) with true; [reflexivity|].
    symmetry. apply andb_true_iff. split; [apply Nat.leb_le|apply Nat.leb_le]; lia.
  - intros r c. unfold archivo_despues. cbv zeta.
    destruct (Nat.ltb_spec 0 (rellenar_huecos_historicos verdadero str_de h dicc).2) as [|H0];
      [reflexivity|].
    symmetry. apply Hcero. lia.
Qed.

End RellenarPropiedades.

Lemma rellenar_no_pisa_witness :
  celda (rellenar_huecos_historicos verdadero_texto str_de_texto
           (Hoja 2 (fun r c =>
              if (r =? 2)%nat && (c =? 5)%nat then Some (txt "Havanna")
              else if (r =? 2)%nat && (c =? 6)%nat then Some (txt "Av. Santa Fe 1234")
              else None))
           {[ txt "Havanna" := DatosConocidos (Some (txt "Av. Cabildo 500"))
                                 (Some (txt "Cafeteria")) (Some (txt "Si")) ]}).1 2 6
  = Some (txt "Av. Santa Fe 1234").
Proof.
  apply (proj1 (rellenar_no_pisa verdadero_texto str_de_texto
    {[ txt "Havanna" := DatosConocidos (Some (txt "Av. Cabildo 500"))
                          (Some (txt "Cafeteria")) (Some (txt "Si")) ]}
    (Hoja 2 (fun r c =>
       if (r =? 2)%nat && (c =? 5)%nat then Some (txt "Havanna")
       else if (r =? 2)%nat && (c =? 6)%nat then Some (txt "Av. Santa Fe 1234")
       else None)) 2 6)).
  reflexivity.
Defined.

Lemma rellenar_dos_veces_witness :
  celda (rellenar_huecos_historicos verdadero_texto str_de_texto
           (Hoja 2 (fun r c =>
              if (r =? 2)%nat && (c =? 5)%nat then Some (txt "Havanna") else None))
           ∅).1 2 6
  = celda (Hoja 2 (fun r c =>
             if (r =? 2)%nat && (c =? 5)%nat then Some (txt "Havanna") else None)) 2 6.
Proof.
  apply (proj1 (proj2 (rellenar_dos_veces verdadero_texto str_de_texto ∅
    (Hoja 2 (fun r c =>
       if (r =? 2)%nat && (c =? 5)%nat then Some (txt "Havanna") else None))))).
  vm_compute. reflexivity.
Defined.
